(** * Global_Connect: messaging, notification and connection rules

    A shallow embedding of the parts of the Global_Connect server and
    client that decide how direct messages, reactions, notifications and
    connection requests behave:

    - [MessageModel]: the Mongoose message schema with its methods,
      statics and validation (models/Message.js);
    - [UserModel]: the connection lists and predicates of models/User.js;
    - [NotificationModel]: the notification document;
    - [Server]: the handlers of POST, PUT and DELETE
      /api/users/connect/:id, of PUT /api/users/:id/ban, of
      POST /api/notifications and of POST /api/messages, with the
      notifications they create;
    - [MessageRoutes], [MessageRouter]: the routes of routes/messages.js
      on stored messages, and the order in which the router tries them;
    - [NotificationRoutes]: the routes of routes/notifications.js on
      stored notifications;
    - [UserRoutes]: PUT /api/users/:id/unban and
      GET /api/users/:id/connection-status;
    - [NotificationSlice], [NotificationBadge]: the reducers of the
      client notification slice and its badge.

    The definitions come first; the modules whose names end in [Facts]
    hold what is proved about them.

    Conventions.  An ObjectId is the string that [toString()] yields for
    it; the code compares ids through [toString() === ...], which is
    [String.eqb] here.  An id that comes with a request is a string as
    the client spelled it: the code compares it as it is, and Mongoose
    casts it to an ObjectId where it goes into a query or a document,
    which is [castObjectId] in the handlers.  A JavaScript string is a
    [string] whose characters are code units below 256.  A [Date] is a
    number of milliseconds; every [new Date()] of the source is an
    explicit argument [now].  A request field that may be absent is an
    [option].  The records of the documents hold the fields the schemas
    declare; the time stamp [updatedAt] and the version [__v], which
    Mongoose maintains on every [save] that writes, are not among them,
    and an equation between two documents speaks of the declared fields
    only. *)

From Stdlib Require Import ZArith NArith String Ascii List Permutation Sorted Lia Bool.
From stdpp Require Import gmap strings.
Import ListNotations.

Local Open Scope string_scope.
Local Open Scope list_scope.

(** Abbreviations rather than definitions, so that a map keyed by
    ObjectId is a map keyed by [string] for every lemma on maps. *)
Abbreviation ObjectId := string.
Abbreviation Date := N.

(** ** JavaScript string helpers *)
Module Js.

(** WhiteSpace and LineTerminator code units below 256, the ones
    [String.prototype.trim] strips: TAB, LF, VT, FF, CR, SP, NBSP. *)
Definition isWhiteSpace (c : ascii) : bool :=
  let n := nat_of_ascii c in
  (n =? 9)%nat || (n =? 10)%nat || (n =? 11)%nat || (n =? 12)%nat
  || (n =? 13)%nat || (n =? 32)%nat || (n =? 160)%nat.

Fixpoint trimStart (s : string) : string :=
  match s with
  | EmptyString => EmptyString
  | String c s' => if isWhiteSpace c then trimStart s' else s
  end.

(** [trimEnd] drops a character when it is white space and everything
    after it has been dropped. *)
Fixpoint trimEnd (s : string) : string :=
  match s with
  | EmptyString => EmptyString
  | String c s' =>
      match trimEnd s' with
      | EmptyString => if isWhiteSpace c then EmptyString else String c EmptyString
      | t => String c t
      end
  end.

Definition trim (s : string) : string := trimEnd (trimStart s).

(** Truthiness of a string: only the empty string is falsy. *)
Definition truthy (s : string) : bool := negb (String.eqb s "").

(** Truthiness of a field that may be undefined. *)
Definition truthyOpt (o : option string) : bool :=
  match o with
  | None => false
  | Some s => truthy s
  end.

Fixpoint allWhiteSpace (s : string) : bool :=
  match s with
  | EmptyString => true
  | String c s' => isWhiteSpace c && allWhiteSpace s'
  end.

(** Lower-casing of the letters A-Z, enough for a case-insensitive
    match against an ASCII pattern. *)
Definition toLowerAscii (c : ascii) : ascii :=
  let n := nat_of_ascii c in
  if ((65 <=? n)%nat && (n <=? 90)%nat)%bool then ascii_of_nat (n + 32) else c.

Fixpoint toLower (s : string) : string :=
  match s with
  | EmptyString => EmptyString
  | String c s' => String (toLowerAscii c) (toLower s')
  end.

(** [Array.prototype.includes] on an array of strings. *)
Definition includes (l : list string) (s : string) : bool :=
  existsb (String.eqb s) l.

(** The text of a string literal in JSON, for a string that needs no
    escape. *)
Definition quoted (s : string) : string :=
  String "034"%char s ++ String "034"%char EmptyString.

(** The JSON text of the object [{ key: value }] with a string value;
    the payload of a notification is kept as its JSON text. *)
Definition jsonObject (key value : string) : string :=
  "{" ++ quoted key ++ ":" ++ quoted value ++ "}".

End Js.

(** ** models/Message.js *)
Module MessageModel.

Record DeletedBy := mkDeletedBy {
  db_userId : ObjectId;
  db_deletedAt : Date
}.

Record Reaction := mkReaction {
  userId : ObjectId;
  emoji : string;
  r_createdAt : Date
}.

(** The message document: the fields that the schema declares, and
    [createdAt].  [updatedAt] and [__v], which Mongoose maintains on
    every save that changes a document, are read by none of the modelled
    code and are left out: an equality of two message records says that
    the declared fields agree, not that nothing was saved. *)
Record Message := mkMessage {
  _id : ObjectId;
  senderId : ObjectId;
  receiverId : ObjectId;
  content : string;
  messageType : string;
  mediaUrl : option string;
  isRead : bool;
  readAt : option Date;
  isDeleted : bool;
  deletedAt : option Date;
  deletedBy : list DeletedBy;
  replyTo : option ObjectId;
  reactions : list Reaction;
  createdAt : Date
}.

Definition set_reactions (m : Message) (rs : list Reaction) : Message :=
  {| _id := _id m; senderId := senderId m; receiverId := receiverId m;
     content := content m; messageType := messageType m;
     mediaUrl := mediaUrl m; isRead := isRead m; readAt := readAt m;
     isDeleted := isDeleted m; deletedAt := deletedAt m;
     deletedBy := deletedBy m; replyTo := replyTo m;
     reactions := rs; createdAt := createdAt m |}.

Definition set_read (m : Message) (now : Date) : Message :=
  {| _id := _id m; senderId := senderId m; receiverId := receiverId m;
     content := content m; messageType := messageType m;
     mediaUrl := mediaUrl m; isRead := true; readAt := Some now;
     isDeleted := isDeleted m; deletedAt := deletedAt m;
     deletedBy := deletedBy m; replyTo := replyTo m;
     reactions := reactions m; createdAt := createdAt m |}.

(** The soft delete of DELETE /api/messages/:id, after its
    authorisation check: one shared flag, and an entry in [deletedBy]. *)
Definition softDelete (requester : ObjectId) (now : Date) (m : Message) : Message :=
  {| _id := _id m; senderId := senderId m; receiverId := receiverId m;
     content := content m; messageType := messageType m;
     mediaUrl := mediaUrl m; isRead := isRead m; readAt := readAt m;
     isDeleted := true; deletedAt := Some now;
     deletedBy := deletedBy m ++ [mkDeletedBy requester now];
     replyTo := replyTo m;
     reactions := reactions m; createdAt := createdAt m |}.

(** *** methods.markAsRead *)
Definition markAsRead (now : Date) (m : Message) : Message :=
  if negb (isRead m) then set_read m now else m.

(** *** methods.addReaction

    [find] yields the first reaction of the user; that element is
    updated in place, otherwise a new one is pushed.  The result is the
    document that [save()] writes; the reaction route calls the method
    with an emoji of 1 to 10 characters only. *)
Definition byUser (u : ObjectId) (r : Reaction) : bool := String.eqb (userId r) u.

Fixpoint updateFirst (u : ObjectId) (e : string) (now : Date)
    (rs : list Reaction) : list Reaction :=
  match rs with
  | [] => []
  | r :: rs' =>
      if byUser u r then mkReaction (userId r) e now :: rs'
      else r :: updateFirst u e now rs'
  end.

Definition addReaction (u : ObjectId) (e : string) (now : Date) (m : Message) : Message :=
  match List.find (byUser u) (reactions m) with
  | Some _ => set_reactions m (updateFirst u e now (reactions m))
  | None => set_reactions m (reactions m ++ [mkReaction u e now])
  end.

(** *** methods.removeReaction *)
Definition removeReaction (u : ObjectId) (m : Message) : Message :=
  set_reactions m (List.filter (fun r => negb (byUser u r)) (reactions m)).

(** *** statics.getConversation

    The collection is the list of stored documents.  [populate] and
    [lean] only change how a returned document is presented. *)
Definition inConversation (user1Id user2Id : ObjectId) (m : Message) : bool :=
  (String.eqb (senderId m) user1Id && String.eqb (receiverId m) user2Id)
  || (String.eqb (senderId m) user2Id && String.eqb (receiverId m) user1Id).

Definition conversationQuery (user1Id user2Id : ObjectId) (m : Message) : bool :=
  inConversation user1Id user2Id m && negb (isDeleted m).

(** [sort({createdAt: -1})]: newest first.  MongoDB leaves the order of
    equal keys open; this sort keeps them in collection order. *)
Fixpoint insertDesc (m : Message) (l : list Message) : list Message :=
  match l with
  | [] => [m]
  | x :: xs =>
      if (createdAt x <=? createdAt m)%N then m :: x :: xs
      else x :: insertDesc m xs
  end.

Definition sortNewestFirst (l : list Message) : list Message :=
  fold_right insertDesc [] l.

(** [limit(n)]: a limit of 0 means no limit. *)
Definition limitTo (n : nat) (l : list Message) : list Message :=
  if (n =? 0)%nat then l else firstn n l.

Definition getConversation (coll : list Message) (user1Id user2Id : ObjectId)
    (limit skip : nat) : list Message :=
  limitTo limit (skipn skip (sortNewestFirst
    (List.filter (conversationQuery user1Id user2Id) coll))).

(** *** statics.getUnreadCount *)
Definition getUnreadCount (coll : list Message) (u : ObjectId) : nat :=
  length (List.filter
    (fun m => String.eqb (receiverId m) u && negb (isRead m) && negb (isDeleted m)) coll).

(** *** statics.markConversationAsRead

    [updateMany] over the collection; every matched document has
    [isRead = false] and is therefore modified. *)
Definition unreadFrom (user1Id user2Id : ObjectId) (m : Message) : bool :=
  String.eqb (senderId m) user2Id && String.eqb (receiverId m) user1Id
  && negb (isRead m) && negb (isDeleted m).

Record UpdateResult := mkUpdateResult {
  collection : list Message;
  modifiedCount : nat
}.

Definition markConversationAsRead (coll : list Message) (user1Id user2Id : ObjectId)
    (now : Date) : UpdateResult :=
  {| collection :=
       map (fun m => if unreadFrom user1Id user2Id m then set_read m now else m) coll;
     modifiedCount := length (List.filter (unreadFrom user1Id user2Id) coll) |}.

(** Two documents that agree on every field but [reactions]. *)
Definition sameExceptReactions (m m' : Message) : Prop :=
  _id m' = _id m /\ senderId m' = senderId m /\ receiverId m' = receiverId m
  /\ content m' = content m /\ messageType m' = messageType m
  /\ mediaUrl m' = mediaUrl m /\ isRead m' = isRead m /\ readAt m' = readAt m
  /\ isDeleted m' = isDeleted m /\ deletedAt m' = deletedAt m
  /\ deletedBy m' = deletedBy m /\ replyTo m' = replyTo m
  /\ createdAt m' = createdAt m.

(** The data model's rule on reactions: at most one per user. *)
Definition oneReactionPerUser (m : Message) : Prop :=
  forall u, (length (List.filter (byUser u) (reactions m)) <= 1)%nat.

(** The calls of the two reaction routes on one message, in sequence. *)
Inductive ReactionOp :=
| React (u : ObjectId) (e : string) (now : Date)
| Unreact (u : ObjectId).

Definition applyReactionOp (m : Message) (op : ReactionOp) : Message :=
  match op with
  | React u e now => addReaction u e now m
  | Unreact u => removeReaction u m
  end.

Definition applyReactionOps (m : Message) (ops : list ReactionOp) : Message :=
  fold_left applyReactionOp ops m.

(** *** Validation on save

    The constraints the schema declares: [content] is required and at
    most 2000 long, [messageType] is one of the enumerated strings, and
    [mediaUrl] has a custom validator. *)
Definition messageTypes : list string := ["text"; "image"; "file"; "link"].

(** The declared validator of [mediaUrl]; [this] is the document. *)
Definition mediaUrlValidator (this : Message) (v : option string) : bool :=
  if negb (String.eqb (messageType this) "text") && negb (Js.truthyOpt v)
  then false
  else true.

(** Mongoose calls the validators of a path only when its value is not
    undefined; the built-in [required] validator is the one exception. *)
Definition runValidator {A} (validator : option A -> bool) (v : option A) : bool :=
  match v with
  | None => true
  | Some _ => validator v
  end.

Definition validate (m : Message) : bool :=
  Js.truthy (content m)
  && (String.length (content m) <=? 2000)%nat
  && Js.includes messageTypes (messageType m)
  && runValidator (mediaUrlValidator m) (mediaUrl m).

(** *** The visibility rule in the words of the specification

    A message is shown to [viewer] when it is not deleted, or when it
    was deleted by the other party only. *)
Definition deletedByOtherOnly (viewer : ObjectId) (m : Message) : bool :=
  isDeleted m
  && forallb (fun d => negb (String.eqb (db_userId d) viewer)) (deletedBy m).

Definition visibleTo_spec (viewer : ObjectId) (m : Message) : bool :=
  negb (isDeleted m) || deletedByOtherOnly viewer m.

(** *** virtual conversationId

    [[sender, receiver].sort()] puts the two id strings in ascending
    order of their code units; the id is the two joined by a hyphen. *)
Definition sortedIds (a b : string) : string * string :=
  if String.leb a b then (a, b) else (b, a).

Definition conversationId (m : Message) : string :=
  let sortedIds := sortedIds (senderId m) (receiverId m) in
  fst sortedIds ++ "-" ++ snd sortedIds.

(** A string without a hyphen, as the hexadecimal form of an ObjectId is. *)
Fixpoint hyphenFree (s : string) : bool :=
  match s with
  | EmptyString => true
  | String c s' => negb (Ascii.eqb c "-") && hyphenFree s'
  end.

(** Newest first: no message is older than one that follows it. *)
Definition newestFirst (l : list Message) : Prop :=
  StronglySorted (fun x y => (createdAt y <= createdAt x)%N) l.

End MessageModel.

(** ** models/User.js: the connection lists and their predicates

    The record holds the fields that the connection and messaging
    handlers read or write.  The other declared fields, and [updatedAt]
    and [__v], which Mongoose maintains on every save that changes a
    document, are left out: an equality of two user records says that
    the fields of the record agree, not that nothing was saved.
    Mongoose gives every array path an array value, so the
    [Array.isArray] guards of the source never fire. *)
Module UserModel.

Record ConnectionRequest := mkConnectionRequest {
  from : ObjectId;
  cr_sentAt : Date
}.

Record SentRequest := mkSentRequest {
  to : ObjectId;
  sr_sentAt : Date
}.

Record User := mkUser {
  _id : ObjectId;
  name : string;
  role : string;
  isActive : bool;
  connections : list ObjectId;
  connectionRequests : list ConnectionRequest;
  sentRequests : list SentRequest
}.

Definition set_connections (u : User) (cs : list ObjectId) : User :=
  {| _id := _id u; name := name u; role := role u; isActive := isActive u;
     connections := cs; connectionRequests := connectionRequests u;
     sentRequests := sentRequests u |}.

Definition set_connectionRequests (u : User) (rs : list ConnectionRequest) : User :=
  {| _id := _id u; name := name u; role := role u; isActive := isActive u;
     connections := connections u; connectionRequests := rs;
     sentRequests := sentRequests u |}.

Definition set_sentRequests (u : User) (rs : list SentRequest) : User :=
  {| _id := _id u; name := name u; role := role u; isActive := isActive u;
     connections := connections u; connectionRequests := connectionRequests u;
     sentRequests := rs |}.

Definition set_isActive (u : User) (b : bool) : User :=
  {| _id := _id u; name := name u; role := role u; isActive := b;
     connections := connections u; connectionRequests := connectionRequests u;
     sentRequests := sentRequests u |}.

(** methods.isConnectedTo *)
Definition isConnectedTo (u : User) (userId : ObjectId) : bool :=
  existsb (fun id => String.eqb id userId) (connections u).

(** methods.hasSentRequestTo *)
Definition hasSentRequestTo (u : User) (userId : ObjectId) : bool :=
  existsb (fun req => String.eqb (to req) userId) (sentRequests u).

(** methods.hasReceivedRequestFrom *)
Definition hasReceivedRequestFrom (u : User) (userId : ObjectId) : bool :=
  existsb (fun req => String.eqb (from req) userId) (connectionRequests u).

(** methods.getConnectionStatus *)
Definition getConnectionStatus (u : User) (userId : ObjectId) : string :=
  if isConnectedTo u userId then "connected"
  else if hasSentRequestTo u userId then "requested"
  else if hasReceivedRequestFrom u userId then "pending"
  else "none".

End UserModel.

(** ** The notification document

    models/Notification.js is not among the sources; the record has the
    fields the handlers write. *)
Module NotificationModel.

Record Notification := mkNotification {
  _id : ObjectId;
  recipientId : ObjectId;
  senderId : ObjectId;
  type : string;
  title : string;
  message : string;
  data : string;
  isRead : bool
}.

(** Modelled from the spec: the [type] enumeration of the notification
    schema, which models/Notification.js declares and which is missing
    from the sources. *)
Definition specTypes : list string :=
  [ "CONNECTION_REQUEST"; "CONNECTION_ACCEPTED"; "MESSAGE";
    "POST_FROM_CONNECTION"; "POST_LIKE"; "POST_COMMENT"; "POST_SHARED";
    "JOB_APPLICATION"; "JOB_APPLICATION_UPDATE" ].

(** Modelled from the spec: the validation the missing notification
    schema runs on save, as far as the spec describes it. *)
Definition specSchemaValid (n : Notification) : bool :=
  Js.includes specTypes (type n) && Js.truthy (title n) && Js.truthy (message n).

End NotificationModel.

(** ** The route handlers of the server

    A handler runs against the database and either answers early
    ([return res.status(..).json(..)]) or goes on.  The database keeps,
    next to the collections, the trace of the queries sent to it. *)
Module Server.

Import UserModel.

Inductive DbOp :=
| FindUser (id : ObjectId)
| SaveUser (id : ObjectId)
| SaveMessage (id : ObjectId)
| SaveNotification (id : ObjectId).

Record Db := mkDb {
  users : gmap ObjectId User;
  messages : list MessageModel.Message;
  notifications : list NotificationModel.Notification;
  trace : list DbOp
}.

(** The body of a response: a [message] text, or the created document. *)
Inductive Body :=
| Text (message : string)
| MessageDoc (message : string) (data : MessageModel.Message)
| NotificationDoc (n : NotificationModel.Notification).

Record Response := mkResponse {
  status : nat;
  body : Body
}.

Inductive Step (A : Type) :=
| Answer (r : Response)
| Next (a : A).
Arguments Answer {A} r.
Arguments Next {A} a.

Definition Handler (A : Type) : Type := Db -> Step A * Db.

Definition ret {A} (a : A) : Handler A := fun db => (Next a, db).

Definition bind {A B} (h : Handler A) (k : A -> Handler B) : Handler B :=
  fun db =>
    match h db with
    | (Answer r, db') => (Answer r, db')
    | (Next a, db') => k a db'
    end.

(** With these instances the handlers are written in stdpp's monad
    notation: [x ← h; k] awaits [h] and goes on with [k]. *)
#[global] Instance handler_ret : MRet Handler := @ret.
#[global] Instance handler_bind : MBind Handler := fun A B k h => bind h k.

(** [res.status(code).json({ message })]. *)
Definition respond {A} (code : nat) (message : string) : Handler A :=
  fun db => (Answer (mkResponse code (Text message)), db).

Definition respondWith {A} (code : nat) (b : Body) : Handler A :=
  fun db => (Answer (mkResponse code b), db).

(** The [catch] block every handler ends with. *)
Definition serverError {A} : Handler A := respond 500 "Server error".

Definition run (h : Handler Response) (db : Db) : Response * Db :=
  match h db with
  | (Answer r, db') => (r, db')
  | (Next r, db') => (r, db')
  end.

Definition log (op : DbOp) (db : Db) : Db :=
  {| users := users db; messages := messages db;
     notifications := notifications db; trace := trace db ++ [op] |}.

Definition set_users (db : Db) (us : gmap ObjectId User) : Db :=
  {| users := us; messages := messages db;
     notifications := notifications db; trace := trace db |}.

Definition set_messages (db : Db) (ms : list MessageModel.Message) : Db :=
  {| users := users db; messages := ms;
     notifications := notifications db; trace := trace db |}.

Definition set_notifications (db : Db) (ns : list NotificationModel.Notification) : Db :=
  {| users := users db; messages := messages db;
     notifications := ns; trace := trace db |}.

Section Handlers.

(** [mongoose.Types.ObjectId.isValid], and with it whether Mongoose can
    cast a string to an ObjectId; the library is not part of the
    repository. *)
Variable isValidObjectId : string -> bool.

(** The ObjectId that a castable string is cast to, as [toString()]
    renders it.  Mongoose casts the id of a query ([findById], the
    filter of [updateMany]) and a string that is assigned or pushed to
    an ObjectId path; the strings of a request are compared as they
    are spelled. *)
Variable castObjectId : string -> ObjectId.

(** The validation that the notification schema runs on save; the schema
    is not among the sources. *)
Variable notificationSchemaValid : NotificationModel.Notification -> bool.

(** The [_id] the driver gives a document created against a store. *)
Variable newObjectId : Db -> ObjectId.

(** [User.findById]: a string that cannot be cast makes the query throw,
    which the handler's [catch] turns into a 500. *)
Definition findById (id : string) : Handler (option User) :=
  fun db =>
    if isValidObjectId id then (Next (users db !! castObjectId id), log (FindUser id) db)
    else serverError db.

(** [user.save()]: the document is written back under its [_id]. *)
Definition saveUser (u : User) : Handler unit :=
  fun db => (Next tt, log (SaveUser (_id u)) (set_users db (<[ _id u := u ]> (users db)))).

(** [Notification.create] inside a [try] of its own: a document that the
    schema rejects is dropped and the handler goes on.  The handlers
    hand over the id of the request, which the schema casts. *)
Definition notify (recipientId : ObjectId) (senderId : ObjectId)
    (type title message data : string) : Handler unit :=
  fun db =>
    let n := NotificationModel.mkNotification (newObjectId db) recipientId senderId
               type title message data false in
    if notificationSchemaValid n
    then (Next tt, log (SaveNotification (NotificationModel._id n))
                     (set_notifications db (notifications db ++ [n])))
    else (Next tt, db).

(** The store after [notify]. *)
Definition notified (recipientId : ObjectId) (senderId : ObjectId)
    (type title message data : string) (db : Db) : Db :=
  snd (notify recipientId senderId type title message data db).

(** [req.user.name || fallback]. *)
Definition nameOr (u : User) (fallback : string) : string :=
  if Js.truthy (name u) then name u else fallback.

(** *** POST /api/users/connect/:id: send a connection request

    [save()] sends the paths that were modified.  The target was loaded
    in the request, so its save writes the document.  The caller's save
    sends the push to [sentRequests]: when the target is the caller's
    own stored document, found under another spelling of the id, the
    request that the first save pushed stays in it.  The socket event
    that follows the notification touches no document. *)
Definition sendConnectionRequest (reqUser : User) (targetUserId : string)
    (now : Date) : Handler Response :=
  let currentUserId := _id reqUser in
  if negb (Js.truthy targetUserId) || negb (isValidObjectId targetUserId)
  then respond 400 "Invalid user ID"
  else if String.eqb currentUserId targetUserId
  then respond 400 "Cannot connect with yourself"
  else
    found ← findById targetUserId;
    match found with
    | None => respond 404 "User not found"
    | Some targetUser =>
        if negb (isActive targetUser) then respond 404 "User not found"
        else if isConnectedTo reqUser targetUserId
        then respond 200 "Already connected"
        else if hasSentRequestTo reqUser targetUserId
                || hasReceivedRequestFrom targetUser currentUserId
        then respond 200 "Connection request already pending"
        else if hasReceivedRequestFrom reqUser targetUserId
        then respond 200 "User has already sent you a connection request"
        else
          let targetUser' := set_connectionRequests targetUser
            (connectionRequests targetUser ++ [mkConnectionRequest currentUserId now]) in
          let stored := if String.eqb (_id targetUser) currentUserId
                        then targetUser' else reqUser in
          let reqUser' := set_sentRequests stored
            (sentRequests stored ++ [mkSentRequest (castObjectId targetUserId) now]) in
          saveUser targetUser';;
          saveUser reqUser';;
          notify (castObjectId targetUserId) currentUserId "CONNECTION_REQUEST"
            "New connection request"
            (nameOr reqUser "Someone" ++ " sent you a connection request")
            (Js.jsonObject "from" currentUserId);;
          respond 200 "Connection request sent successfully"
    end.

(** [findIndex] and [splice(index, 1)]: the first request of the sender
    is taken out. *)
Fixpoint removeFirstFrom (requestUserId : string) (rs : list ConnectionRequest)
    : option (list ConnectionRequest) :=
  match rs with
  | [] => None
  | r :: rs' =>
      if String.eqb (from r) requestUserId then Some rs'
      else option_map (cons r) (removeFirstFrom requestUserId rs')
  end.

(** The documents an accept writes: the sender's, connected and without
    a sent request to the receiver, then the receiver's, connected and
    without the request. *)
Definition acceptedReceiver (reqUser : User) (requestUserId : string)
    (rest : list ConnectionRequest) : User :=
  let reqUser1 := set_connectionRequests reqUser rest in
  if negb (isConnectedTo reqUser1 requestUserId)
  then set_connections reqUser1 (connections reqUser1 ++ [castObjectId requestUserId])
  else reqUser1.

Definition acceptedSender (requestUser : User) (currentUserId : ObjectId) : User :=
  let requestUser1 :=
    if negb (isConnectedTo requestUser currentUserId)
    then set_connections requestUser (connections requestUser ++ [currentUserId])
    else requestUser in
  set_sentRequests requestUser1
    (List.filter (fun r => negb (String.eqb (to r) currentUserId))
       (sentRequests requestUser1)).

(** Whether the accept changes the document of the sender: only a
    document with a modified path is sent by [save()]. *)
Definition senderModified (requestUser : User) (currentUserId : ObjectId) : bool :=
  negb (isConnectedTo requestUser currentUserId)
  || hasSentRequestTo requestUser currentUserId.

(** *** PUT /api/users/connect/:id: accept or reject a request

    The sender's document is saved before the notification is created
    and the receiver's after it.  When the sender is the receiver's own
    stored document and its save changed it, the receiver's save, which
    sets an array, no longer finds the version it loaded: Mongoose
    throws a VersionError and the [catch] answers 500.  The socket
    events touch no document. *)
Definition handleConnectionRequest (reqUser : User) (requestUserId : string)
    (action : string) : Handler Response :=
  let currentUserId := _id reqUser in
  if negb (Js.includes ["accept"; "reject"] action)
  then respond 400 "Invalid action"
  else
    match removeFirstFrom requestUserId (connectionRequests reqUser) with
    | None =>
        if isConnectedTo reqUser requestUserId
        then respond 200 "Already connected"
        else respond 200 "No pending connection request from this user"
    | Some rest =>
        reqUser' ← (if String.eqb action "accept" then
           found ← findById requestUserId;
           stale ← match found with
                   | Some requestUser =>
                       saveUser (acceptedSender requestUser currentUserId);;
                       ret (String.eqb (_id requestUser) currentUserId
                            && senderModified requestUser currentUserId)
                   | None => ret false
                   end;
           notify (castObjectId requestUserId) currentUserId "CONNECTION_ACCEPTED"
             "Connection request accepted"
             (nameOr reqUser "Your connection" ++ " accepted your request")
             (Js.jsonObject "acceptedBy" currentUserId);;
           if stale : bool then serverError
           else ret (acceptedReceiver reqUser requestUserId rest)
         else ret (set_connectionRequests reqUser rest));
        saveUser reqUser';;
        respond 200 ("Connection request " ++ action ++ "ed successfully")
    end.

(** *** DELETE /api/users/connect/:id: remove a connection

    The caller's list is filtered by the id as the request spells it,
    the target is found by the cast id.  A save of an unchanged
    document sends nothing; when the target is the caller's own stored
    document and both copies were changed, the caller's save meets a
    VersionError, as in the accept above. *)
Definition removeConnection (reqUser : User) (targetUserId : string) : Handler Response :=
  let currentUserId := _id reqUser in
  let reqUser' := set_connections reqUser
    (List.filter (fun id => negb (String.eqb id targetUserId)) (connections reqUser)) in
  found ← findById targetUserId;
  match found with
  | Some targetUser =>
      saveUser (set_connections targetUser
        (List.filter (fun id => negb (String.eqb id currentUserId)) (connections targetUser)));;
      if String.eqb (_id targetUser) currentUserId
      then
        if isConnectedTo reqUser targetUserId
        then if isConnectedTo targetUser currentUserId then serverError
             else saveUser reqUser'
        else ret tt
      else saveUser reqUser'
  | None => saveUser reqUser'
  end;;
  respond 200 "Connection removed successfully".

(** *** POST /api/notifications: create a notification *)
Record NotificationBody := mkNotificationBody {
  recipientId : option string;
  type : option string;
  title : option string;
  message : option string;
  data : option string
}.

Definition validTypes : list string :=
  [ "CONNECTION_REQUEST"; "CONNECTION_ACCEPTED"; "MESSAGE";
    "POST_FROM_CONNECTION"; "JOB_APPLICATION"; "JOB_APPLICATION_UPDATE";
    "POST_LIKE"; "POST_COMMENT"; "POST_SHARE" ].

(** [validTypes.includes(type)]; an undefined [type] is not included. *)
Definition includesOpt (l : list string) (o : option string) : bool :=
  match o with
  | None => false
  | Some s => Js.includes l s
  end.

(** [!title || !title.trim()]. *)
Definition missingText (o : option string) : bool :=
  match o with
  | None => true
  | Some s => negb (Js.truthy s) || negb (Js.truthy (Js.trim s))
  end.


(** [notification.save()]: a document the schema rejects makes [save]
    throw, and the [catch] answers 500. *)
Definition saveNotification (n : NotificationModel.Notification) : Handler unit :=
  fun db =>
    if notificationSchemaValid n
    then (Next tt, log (SaveNotification (NotificationModel._id n))
                     (set_notifications db (notifications db ++ [n])))
    else serverError db.

Definition createNotification (reqUser : User) (newId : ObjectId)
    (b : NotificationBody) : Handler Response :=
  if negb (Js.truthyOpt (recipientId b))
  then respond 400 "Valid recipient ID required"
  else if negb (includesOpt validTypes (type b))
  then respond 400 "Valid notification type required"
  else if missingText (title b)
  then respond 400 "Title is required"
  else if missingText (message b)
  then respond 400 "Message is required"
  else
    let notification := NotificationModel.mkNotification newId
      (default "" (recipientId b)) (_id reqUser) (default "" (type b))
      (default "" (title b)) (default "" (message b))
      (default "{}" (data b)) false in
    saveNotification notification;;
    respondWith 201 (NotificationDoc notification).

(** *** POST /api/messages: send a message

    [new Message] casts [receiverId] and [replyTo]; the connection test
    compares the receiver as the request spells it.  The socket events
    touch no document; the MESSAGE notification is created after the
    save, inside a [try] of its own. *)
Record MessageBody := mkMessageBody {
  receiverId : option string;
  content : option string;
  messageType : option string;
  mediaUrl : option string;
  replyTo : option string
}.

(** [!content || typeof content !== 'string' || content.trim().length === 0
    || content.length > 2000]. *)
Definition contentRejected (o : option string) : bool :=
  match o with
  | None => true
  | Some c =>
      negb (Js.truthy c)
      || (String.length (Js.trim c) =? 0)%nat
      || (2000 <? String.length c)%nat
  end.

(** [/^https?:\/\//i.test(url)]. *)
Definition isHttpUrl (url : string) : bool :=
  String.prefix "http://" (Js.toLower url) || String.prefix "https://" (Js.toLower url).

(** [message.save()]: the schema validation, to which a [replyTo] that
    could not be cast to an ObjectId counts; a failure throws and the
    [catch] answers 500. *)
Definition saveMessage (replyTo : option string) (m : MessageModel.Message)
    : Handler unit :=
  fun db =>
    if MessageModel.validate m
       && match replyTo with
          | None => true
          | Some r => isValidObjectId r
          end
    then (Next tt, log (SaveMessage (MessageModel._id m))
                     (set_messages db (messages db ++ [m])))
    else serverError db.

(** [content?.slice(0, 80) || 'New message']. *)
Definition preview (content : string) : string :=
  if Js.truthy (String.substring 0 80 content) then String.substring 0 80 content
  else "New message".

Definition sendMessage (reqUser : User) (newId : ObjectId) (now : Date)
    (b : MessageBody) : Handler Response :=
  let messageType := default "text" (messageType b) in
  if negb (Js.truthyOpt (receiverId b))
  then respond 400 "Valid receiver ID is required"
  else if contentRejected (content b)
  then respond 400 "Message content must be between 1 and 2000 characters"
  else if negb (Js.includes ["text"; "image"; "file"; "link"] messageType)
  then respond 400 "Invalid message type"
  else if negb (String.eqb messageType "text") && Js.truthyOpt (mediaUrl b)
          && negb (isHttpUrl (default "" (mediaUrl b)))
  then respond 400 "Valid media URL is required for non-text messages"
  else
    let receiverId := default "" (receiverId b) in
    receiver ← findById receiverId;
    match receiver with
    | None => respond 404 "Receiver not found"
    | Some _ =>
        let isConnected :=
          existsb (fun id => String.eqb id receiverId) (connections reqUser) in
        let isAdmin := String.eqb (role reqUser) "admin" in
        if negb isConnected && negb isAdmin
        then respond 403 "You can only message your connections"
        else
          let message := MessageModel.mkMessage newId (_id reqUser)
            (castObjectId receiverId)
            (default "" (content b)) messageType (mediaUrl b)
            false None false None [] (castObjectId <$> replyTo b) [] now in
          saveMessage (replyTo b) message;;
          notify (castObjectId receiverId) (_id reqUser) "MESSAGE" "New message"
            (preview (default "" (content b)))
            (Js.jsonObject "senderId" (_id reqUser));;
          respondWith 201 (MessageDoc "Message sent successfully" message)
    end.

(** *** PUT /api/users/:id/ban: an admin deactivates a user *)
Definition banUser (reqUser : User) (id : string) : Handler Response :=
  if negb (String.eqb (role reqUser) "admin") then respond 403 "Access denied"
  else
    found ← findById id;
    match found with
    | None => respond 404 "User not found"
    | Some user =>
        saveUser (set_isActive user false);;
        respond 200 "User banned successfully"
    end.

(** The three duplicate checks of the send handler, in its order: the
    requester lists the target as a connection; a request from the
    requester to the target is recorded on either side; the requester
    holds a request from the target. *)
Definition duplicateRequest (reqUser targetUser : User) (targetUserId : string) : bool :=
  isConnectedTo reqUser targetUserId
  || (hasSentRequestTo reqUser targetUserId
      || hasReceivedRequestFrom targetUser (_id reqUser))
  || hasReceivedRequestFrom reqUser targetUserId.

Definition duplicateAnswers : list Body :=
  [ Text "Already connected";
    Text "Connection request already pending";
    Text "User has already sent you a connection request" ].

(** *** Sequences of connection operations *)

(** Modelled from the spec: the [authenticateToken] middleware is
    missing from the sources.  The handlers use [req.user] as the stored
    document of the caller the bearer token names (they read its lists
    and call [save] on it), which is what this gives them; a caller the
    store does not know is turned away before the handler runs. *)
Definition authenticate (db : Db) (uid : ObjectId) : option User := users db !! uid.

Inductive ConnectionOp :=
| SendRequest (sender target : ObjectId) (now : Date)
| Accept (receiver requester : ObjectId)
| Reject (receiver requester : ObjectId)
| Remove (user target : ObjectId).

Definition caller (op : ConnectionOp) : ObjectId :=
  match op with
  | SendRequest u _ _ | Accept u _ | Reject u _ | Remove u _ => u
  end.

Definition handlerOf (op : ConnectionOp) (reqUser : User) : Handler Response :=
  match op with
  | SendRequest _ target now => sendConnectionRequest reqUser target now
  | Accept _ requester => handleConnectionRequest reqUser requester "accept"
  | Reject _ requester => handleConnectionRequest reqUser requester "reject"
  | Remove _ target => removeConnection reqUser target
  end.

Definition step (db : Db) (op : ConnectionOp) : Db :=
  match authenticate db (caller op) with
  | Some reqUser => snd (run (handlerOf op reqUser) db)
  | None => db
  end.

Definition runOps (db : Db) (ops : list ConnectionOp) : Db := fold_left step ops db.

(** The id that an operation carries in its path. *)
Definition target (op : ConnectionOp) : string :=
  match op with
  | SendRequest _ t _ | Accept _ t | Reject _ t | Remove _ t => t
  end.

(** The id of an operation is spelled as the store spells it: the cast
    leaves it as it is. *)
Definition asStored (op : ConnectionOp) : Prop :=
  castObjectId (target op) = target op.

End Handlers.

(** *** The state of a pair of users

    The three states other than "none", read off the stored documents
    with the predicates of the user model.  A request from [a] to [b]
    is pending when it is recorded on either side, the test the
    send handler itself uses for "already pending". *)
Inductive PairState := Connected | PendingAB | PendingBA.

Definition onUser (db : Db) (id : ObjectId) (p : User -> bool) : bool :=
  match users db !! id with
  | Some u => p u
  | None => false
  end.

Definition mutuallyConnected (db : Db) (a b : ObjectId) : bool :=
  onUser db a (fun u => isConnectedTo u b) && onUser db b (fun u => isConnectedTo u a).

Definition pendingRequest (db : Db) (a b : ObjectId) : bool :=
  onUser db a (fun u => hasSentRequestTo u b)
  || onUser db b (fun u => hasReceivedRequestFrom u a).

Definition pairStates (db : Db) (a b : ObjectId) : list PairState :=
  (if mutuallyConnected db a b then [Connected] else [])
  ++ (if pendingRequest db a b then [PendingAB] else [])
  ++ (if pendingRequest db b a then [PendingBA] else []).

Definition atMostOneState (db : Db) (a b : ObjectId) : bool :=
  (length (pairStates db a b) <=? 1)%nat.

(** The same states read off the receiving side alone: a request from
    [a] to [b] is pending when [b]'s [connectionRequests] holds it. *)
Definition receivedFrom (db : Db) (receiver sender : ObjectId) : bool :=
  onUser db receiver (fun u => hasReceivedRequestFrom u sender).

Definition receivedStates (db : Db) (a b : ObjectId) : list PairState :=
  (if mutuallyConnected db a b then [Connected] else [])
  ++ (if receivedFrom db b a then [PendingAB] else [])
  ++ (if receivedFrom db a b then [PendingBA] else []).

(** The number of requests of [sender] among the requests [rs]. *)
Definition requestCount (sender : ObjectId) (rs : list ConnectionRequest) : nat :=
  length (List.filter (fun r => String.eqb (from r) sender) rs).

Definition requestsAt (us : gmap ObjectId User) (receiver sender : ObjectId) : nat :=
  match us !! receiver with
  | Some u => requestCount sender (connectionRequests u)
  | None => 0%nat
  end.

Definition listsAt (us : gmap ObjectId User) (a b : ObjectId) : bool :=
  match us !! a with
  | Some u => isConnectedTo u b
  | None => false
  end.

(** A store of users is consistent when every document is stored under
    its own id, no user holds two requests of one sender, no two users
    hold a request of each other, and no two users who list each other
    as connections hold a request between them. *)
Record consistent (us : gmap ObjectId User) : Prop := mkConsistent {
  keys_ok : forall k u, us !! k = Some u -> _id u = k;
  requests_unique : forall a b, (requestsAt us a b <= 1)%nat;
  not_both_ways : forall a b,
    a <> b -> (0 < requestsAt us a b)%nat -> requestsAt us b a = 0%nat;
  connected_no_request : forall a b,
    a <> b -> (0 < requestsAt us a b)%nat ->
    listsAt us a b && listsAt us b a = false
}.

End Server.

(** ** client/src/redux/slices/notificationSlice.js *)
Module NotificationSlice.

Record Notification := mkNotification {
  _id : string;
  type : string;
  title : string;
  message : string;
  isRead : bool;
  readAt : option string
}.

Record Pagination := mkPagination {
  current : Z;
  total : Z;
  hasNext : bool;
  hasPrev : bool
}.

(** [pagination] is [None] for the empty object. *)
Record State := mkState {
  notifications : list Notification;
  unreadCount : Z;
  loading : bool;
  error : option string;
  pagination : option Pagination
}.

Definition initialState : State :=
  {| notifications := []; unreadCount := 0; loading := false; error := None;
     pagination := Some (mkPagination 1 1 false false) |}.

Record NotificationsPayload := mkNotificationsPayload {
  p_notifications : option (list Notification);
  p_unreadCount : option Z;
  p_pagination : option Pagination
}.

(** The actions; [now] is the value of [new Date().toISOString()]. *)
Inductive Action :=
| clearError
| addNotification (notification : Notification)
| markNotificationAsReadLocal (notificationId : string) (now : string)
| markAllNotificationsAsReadLocal (now : string)
| removeNotification (notificationId : string)
| getNotifications_pending
| getNotifications_fulfilled (payload : NotificationsPayload)
| getNotifications_rejected (payload : option string)
| markNotificationAsRead_fulfilled (updatedNotification : Notification)
| markAllNotificationsAsRead_fulfilled (now : string)
| deleteNotification_fulfilled (notificationId : string).

Definition hasId (notificationId : string) (n : Notification) : bool :=
  String.eqb (_id n) notificationId.

Definition read (now : string) (n : Notification) : Notification :=
  {| _id := _id n; type := type n; title := title n; message := message n;
     isRead := true; readAt := Some now |}.

(** The first notification with the id is the one [find] returns and the
    reducer mutates. *)
Fixpoint readFirst (notificationId now : string) (l : list Notification)
    : list Notification :=
  match l with
  | [] => []
  | n :: l' =>
      if hasId notificationId n then read now n :: l'
      else n :: readFirst notificationId now l'
  end.

Fixpoint findIndex (notificationId : string) (l : list Notification) : option nat :=
  match l with
  | [] => None
  | n :: l' =>
      if hasId notificationId n then Some 0%nat
      else option_map S (findIndex notificationId l')
  end.

Definition set_unreadCount (s : State) (c : Z) : State :=
  {| notifications := notifications s; unreadCount := c; loading := loading s;
     error := error s; pagination := pagination s |}.

Definition set_notifications (s : State) (l : list Notification) : State :=
  {| notifications := l; unreadCount := unreadCount s; loading := loading s;
     error := error s; pagination := pagination s |}.

(** [Math.max(0, state.unreadCount - 1)]. *)
Definition decrement (c : Z) : Z := Z.max 0 (c - 1).

Definition markRead (notificationId now : string) (s : State) : State :=
  match List.find (hasId notificationId) (notifications s) with
  | Some notification =>
      if negb (isRead notification)
      then set_unreadCount
             (set_notifications s (readFirst notificationId now (notifications s)))
             (decrement (unreadCount s))
      else s
  | None => s
  end.

Definition markAllRead (now : string) (s : State) : State :=
  set_unreadCount (set_notifications s (map (read now) (notifications s))) 0.

Definition remove (notificationId : string) (s : State) : State :=
  let s1 :=
    match List.find (hasId notificationId) (notifications s) with
    | Some notification =>
        if negb (isRead notification)
        then set_unreadCount s (decrement (unreadCount s))
        else s
    | None => s
    end in
  set_notifications s1
    (List.filter (fun n => negb (hasId notificationId n)) (notifications s1)).

Definition reducer (s : State) (a : Action) : State :=
  match a with
  | clearError =>
      {| notifications := notifications s; unreadCount := unreadCount s;
         loading := loading s; error := None; pagination := pagination s |}
  | addNotification notification =>
      set_unreadCount (set_notifications s (notification :: notifications s))
        (unreadCount s + 1)
  | markNotificationAsReadLocal notificationId now => markRead notificationId now s
  | markAllNotificationsAsReadLocal now => markAllRead now s
  | removeNotification notificationId => remove notificationId s
  | getNotifications_pending =>
      {| notifications := notifications s; unreadCount := unreadCount s;
         loading := true; error := None; pagination := pagination s |}
  | getNotifications_fulfilled payload =>
      {| notifications := default [] (p_notifications payload);
         unreadCount := default 0%Z (p_unreadCount payload);
         loading := false; error := error s;
         pagination := p_pagination payload |}
  | getNotifications_rejected payload =>
      {| notifications := notifications s; unreadCount := unreadCount s;
         loading := false; error := payload; pagination := pagination s |}
  | markNotificationAsRead_fulfilled updatedNotification =>
      match findIndex (_id updatedNotification) (notifications s) with
      | Some index =>
          let wasUnread :=
            match notifications s !! index with
            | Some n => negb (isRead n)
            | None => false
            end in
          let s1 := set_notifications s
            (<[ index := updatedNotification ]> (notifications s)) in
          if wasUnread && isRead updatedNotification
          then set_unreadCount s1 (decrement (unreadCount s1))
          else s1
      | None => s
      end
  | markAllNotificationsAsRead_fulfilled now => markAllRead now s
  | deleteNotification_fulfilled notificationId => remove notificationId s
  end.

(** The actions that move the unread counter through the notification
    list: the four local reducers and the two fulfilled cases. *)
Definition countingAction (a : Action) : bool :=
  match a with
  | addNotification _ | markNotificationAsReadLocal _ _
  | markAllNotificationsAsReadLocal _ | removeNotification _
  | markNotificationAsRead_fulfilled _ | deleteNotification_fulfilled _ => true
  | _ => false
  end.

(** Whether the action applies a decrement: the notification it names
    is in the list and unread (and, for the fulfilled read, the updated
    one is read). *)
Definition decrements (s : State) (a : Action) : bool :=
  let unreadIn id :=
    match List.find (hasId id) (notifications s) with
    | Some n => negb (isRead n)
    | None => false
    end in
  match a with
  | markNotificationAsReadLocal id _ => unreadIn id
  | removeNotification id => unreadIn id
  | deleteNotification_fulfilled id => unreadIn id
  | markNotificationAsRead_fulfilled u => unreadIn (_id u) && isRead u
  | _ => false
  end.

End NotificationSlice.

(** ** routes/messages.js: the routes on stored messages

    Each route is a function of the message collection: it gives the
    reply and the collection after the request.  A document loaded from
    the store passed the schema when it was stored, and the paths these
    routes change carry no validator that can fail (the emoji of a
    reaction is checked by the route), so [save()] succeeds. *)
Module MessageRoutes.

Import MessageModel.

Inductive Reply :=
| Answer (status : nat) (message : string)
| Updated (message conversationId : string) (updatedCount : nat)
| ThreadPage (messages : list Message) (current : Z) (hasNext hasPrev : bool).

Definition status (r : Reply) : nat :=
  match r with
  | Answer code _ => code
  | Updated _ _ _ | ThreadPage _ _ _ _ => 200%nat
  end.

(** [Message.findById] on the ObjectId a castable id is cast to. *)
Definition findById (coll : list Message) (id : string) : option Message :=
  List.find (fun m => String.eqb (_id m) id) coll.

(** [message.save()]: the loaded document is written over the stored
    one, the first of its [_id]. *)
Fixpoint save (m : Message) (coll : list Message) : list Message :=
  match coll with
  | [] => []
  | x :: xs => if String.eqb (_id x) (_id m) then m :: xs else x :: save m xs
  end.

Section Routes.

(** [ObjectId.isValid] and the cast of a string to an ObjectId, as in
    [Server]. *)
Variable isValidObjectId : string -> bool.
Variable castObjectId : string -> ObjectId.

(** What [skip(s).limit(l)] make of the two numbers of the query: the
    number of documents skipped and the limit, or nothing when the
    driver refuses them.  The driver is not part of the repository. *)
Variable queryWindow : Z -> Z -> option (nat * nat).

(** *** PUT /api/messages/:id/read *)
Definition markMessageRead (reqUser : UserModel.User) (id : string) (now : Date)
    (coll : list Message) : Reply * list Message :=
  if negb (isValidObjectId id) then (Answer 500 "Server error", coll)
  else
    match findById coll (castObjectId id) with
    | None => (Answer 404 "Message not found", coll)
    | Some message =>
        if negb (String.eqb (receiverId message) (UserModel._id reqUser))
        then (Answer 403 "Not authorized to mark this message as read", coll)
        else
          (Answer 200 "Message marked as read",
           if negb (isRead message) then save (markAsRead now message) coll else coll)
    end.

(** *** PUT /api/messages/:id/reaction

    [!emoji || typeof emoji !== 'string' || emoji.length < 1 ||
    emoji.length > 10] refuses the request. *)
Definition emojiRefused (emoji : option string) : bool :=
  match emoji with
  | None => true
  | Some e =>
      negb (Js.truthy e) || (String.length e <? 1)%nat || (10 <? String.length e)%nat
  end.

Definition react (reqUser : UserModel.User) (id : string) (emoji : option string)
    (now : Date) (coll : list Message) : Reply * list Message :=
  if emojiRefused emoji
  then (Answer 400 "Emoji must be between 1 and 10 characters", coll)
  else if negb (isValidObjectId id) then (Answer 500 "Server error", coll)
  else
    match findById coll (castObjectId id) with
    | None => (Answer 404 "Message not found", coll)
    | Some message =>
        (Answer 200 "Reaction added successfully",
         save (addReaction (UserModel._id reqUser) (default "" emoji) now message) coll)
    end.

(** *** DELETE /api/messages/:id/reaction *)
Definition unreact (reqUser : UserModel.User) (id : string)
    (coll : list Message) : Reply * list Message :=
  if negb (isValidObjectId id) then (Answer 500 "Server error", coll)
  else
    match findById coll (castObjectId id) with
    | None => (Answer 404 "Message not found", coll)
    | Some message =>
        (Answer 200 "Reaction removed successfully",
         save (removeReaction (UserModel._id reqUser) message) coll)
    end.

(** *** DELETE /api/messages/:id *)
Definition deleteMessage (reqUser : UserModel.User) (id : string) (now : Date)
    (coll : list Message) : Reply * list Message :=
  if negb (isValidObjectId id) then (Answer 500 "Server error", coll)
  else
    match findById coll (castObjectId id) with
    | None => (Answer 404 "Message not found", coll)
    | Some message =>
        if negb (String.eqb (senderId message) (UserModel._id reqUser))
           && negb (String.eqb (receiverId message) (UserModel._id reqUser))
        then (Answer 403 "Not authorized to delete this message", coll)
        else
          (Answer 200 "Message deleted successfully",
           save (softDelete (UserModel._id reqUser) now message) coll)
    end.

(** *** PUT /api/messages/conversation/:userId/read

    The [updateMany] of the route is the one of
    [markConversationAsRead (req.user._id, userId)]; the query casts
    [userId], and a [userId] that cannot be cast makes it throw.  The
    connection test compares [userId] as the request spells it. *)
Definition readConversation (reqUser : UserModel.User) (userId : string) (now : Date)
    (coll : list Message) : Reply * list Message :=
  let isConnected :=
    existsb (fun id => String.eqb id userId) (UserModel.connections reqUser) in
  if negb isConnected && negb (String.eqb (UserModel.role reqUser) "admin")
  then (Answer 403 "You can only mark conversations with your connections as read", coll)
  else if negb (isValidObjectId userId) then (Answer 500 "Server error", coll)
  else
    let result :=
      markConversationAsRead coll (UserModel._id reqUser) (castObjectId userId) now in
    (Updated "Conversation marked as read" userId (modifiedCount result),
     collection result).

(** *** GET /api/messages/thread/:sender/:receiver

    [page] and [limit] are the numbers of the query, [None] when the
    query leaves them out.  The authorisation check and the test for
    the receiver compare the two ids as the request spells them; the
    two queries cast them. *)
Definition thread (reqUser : UserModel.User) (sender receiver : string)
    (page limit : option Z) (now : Date) (coll : list Message)
    : Reply * list Message :=
  let page := default 1%Z page in
  let limit := default 50%Z limit in
  let skip := ((page - 1) * limit)%Z in
  if negb (String.eqb (UserModel._id reqUser) sender)
     && negb (String.eqb (UserModel._id reqUser) receiver)
  then (Answer 403 "Not authorized to view this conversation", coll)
  else if negb (isValidObjectId sender && isValidObjectId receiver)
  then (Answer 500 "Server error", coll)
  else
    match queryWindow skip limit with
    | None => (Answer 500 "Server error", coll)
    | Some (skipped, limited) =>
        let messages :=
          getConversation coll (castObjectId sender) (castObjectId receiver)
            limited skipped in
        let coll' :=
          if String.eqb (UserModel._id reqUser) receiver
          then collection (markConversationAsRead coll (castObjectId sender)
                             (castObjectId receiver) now)
          else coll in
        (ThreadPage (rev messages) page
           (Z.of_nat (length messages) =? limit)%Z (1 <? page)%Z,
         coll')
    end.

(** *** Sequences of calls that change stored messages *)
Inductive Call :=
| MarkMessageRead (id : string) (now : Date)
| React (id : string) (emoji : option string) (now : Date)
| Unreact (id : string)
| DeleteMessage (id : string) (now : Date)
| ReadConversation (userId : string) (now : Date)
| Thread (sender receiver : string) (page limit : option Z) (now : Date).

Definition call (reqUser : UserModel.User) (c : Call) (coll : list Message)
    : Reply * list Message :=
  match c with
  | MarkMessageRead id now => markMessageRead reqUser id now coll
  | React id emoji now => react reqUser id emoji now coll
  | Unreact id => unreact reqUser id coll
  | DeleteMessage id now => deleteMessage reqUser id now coll
  | ReadConversation userId now => readConversation reqUser userId now coll
  | Thread sender receiver page limit now =>
      thread reqUser sender receiver page limit now coll
  end.

(** The collection after a sequence of calls, each with its caller. *)
Definition calls (cs : list (UserModel.User * Call)) (coll : list Message)
    : list Message :=
  fold_left (fun coll c => snd (call (fst c) (snd c) coll)) cs coll.

End Routes.

(** The messages of the id [id]. *)
Definition withId (id : string) (m : Message) : bool := String.eqb (_id m) id.

(** The messages of another id than [id]. *)
Definition otherThan (id : string) (m : Message) : bool := negb (String.eqb (_id m) id).

(** A caller who is neither the sender nor the receiver of a message. *)
Definition thirdParty (m : Message) (reqUser : UserModel.User) : Prop :=
  UserModel._id reqUser <> senderId m /\ UserModel._id reqUser <> receiverId m.

End MessageRoutes.

(** ** routes/notifications.js: the routes on stored notifications

    Each route is a function of the notification collection.  All of
    them query with [recipientId: req.user._id]. *)
Module NotificationRoutes.

Import NotificationModel.

(** The filter [{ _id: id, recipientId: u }], with the id as the query
    casts it. *)
Definition mine (id : ObjectId) (u : ObjectId) (n : Notification) : bool :=
  String.eqb (_id n) id && String.eqb (recipientId n) u.

(** The filter [{ recipientId: u, isRead: false }]. *)
Definition unreadOf (u : ObjectId) (n : Notification) : bool :=
  String.eqb (recipientId n) u && negb (isRead n).

(** The filter [{ recipientId: u }]. *)
Definition addressedTo (u : ObjectId) (n : Notification) : bool :=
  String.eqb (recipientId n) u.

(** The update [{ isRead: true }]. *)
Definition read (n : Notification) : Notification :=
  {| _id := _id n; recipientId := recipientId n; senderId := senderId n;
     type := type n; title := title n; message := message n; data := data n;
     isRead := true |}.

(** The first document a filter matches is the one [findOneAndUpdate]
    and [findOneAndDelete] act on. *)
Fixpoint updateFirst (p : Notification -> bool) (f : Notification -> Notification)
    (coll : list Notification) : list Notification :=
  match coll with
  | [] => []
  | n :: ns => if p n then f n :: ns else n :: updateFirst p f ns
  end.

Fixpoint removeFirst (p : Notification -> bool) (coll : list Notification)
    : list Notification :=
  match coll with
  | [] => []
  | n :: ns => if p n then ns else n :: removeFirst p ns
  end.

(** The [unreadCount] query of GET /api/notifications. *)
Definition unreadCount (coll : list Notification) (u : ObjectId) : nat :=
  length (List.filter (unreadOf u) coll).

Section Routes.

Variable isValidObjectId : string -> bool.
Variable castObjectId : string -> ObjectId.

(** *** PUT /api/notifications/:id/read *)
Definition markRead (reqUser : UserModel.User) (id : string)
    (coll : list Notification) : Server.Response * list Notification :=
  if negb (isValidObjectId id)
  then (Server.mkResponse 500 (Server.Text "Server error"), coll)
  else
    match List.find (mine (castObjectId id) (UserModel._id reqUser)) coll with
    | None => (Server.mkResponse 404 (Server.Text "Notification not found"), coll)
    | Some notification =>
        (Server.mkResponse 200 (Server.NotificationDoc (read notification)),
         updateFirst (mine (castObjectId id) (UserModel._id reqUser)) read coll)
    end.

(** *** PUT /api/notifications/read-all *)
Definition markAllRead (reqUser : UserModel.User) (coll : list Notification)
    : Server.Response * list Notification :=
  (Server.mkResponse 200 (Server.Text "All notifications marked as read"),
   map (fun n => if unreadOf (UserModel._id reqUser) n then read n else n) coll).

(** *** DELETE /api/notifications/:id *)
Definition deleteNotification (reqUser : UserModel.User) (id : string)
    (coll : list Notification) : Server.Response * list Notification :=
  if negb (isValidObjectId id)
  then (Server.mkResponse 500 (Server.Text "Server error"), coll)
  else
    match List.find (mine (castObjectId id) (UserModel._id reqUser)) coll with
    | None => (Server.mkResponse 404 (Server.Text "Notification not found"), coll)
    | Some _ =>
        (Server.mkResponse 200 (Server.Text "Notification deleted successfully"),
         removeFirst (mine (castObjectId id) (UserModel._id reqUser)) coll)
    end.

(** *** Sequences of calls that change stored notifications *)
Inductive Call :=
| MarkRead (id : string)
| MarkAllRead
| Delete (id : string).

Definition call (reqUser : UserModel.User) (c : Call) (coll : list Notification)
    : Server.Response * list Notification :=
  match c with
  | MarkRead id => markRead reqUser id coll
  | MarkAllRead => markAllRead reqUser coll
  | Delete id => deleteNotification reqUser id coll
  end.

Definition calls (cs : list (UserModel.User * Call)) (coll : list Notification)
    : list Notification :=
  fold_left (fun coll c => snd (call (fst c) (snd c) coll)) cs coll.

End Routes.

End NotificationRoutes.

(** ** routes/users.js: lifting a ban and the connection status *)
Module UserRoutes.

Import UserModel Server.

(** What GET /:id/connection-status sends: [{ status }], or an error
    code with its message. *)
Inductive Reply :=
| Status (status : string)
| Error (code : nat) (message : string).

Section Routes.

Variable isValidObjectId : string -> bool.
Variable castObjectId : string -> ObjectId.

(** *** PUT /api/users/:id/unban: an admin reactivates a user *)
Definition unbanUser (reqUser : User) (id : string) : Handler Response :=
  if negb (String.eqb (role reqUser) "admin") then respond 403 "Access denied"
  else
    found ← findById isValidObjectId castObjectId id;
    match found with
    | None => respond 404 "User not found"
    | Some user =>
        saveUser (set_isActive user true);;
        respond 200 "User unbanned successfully"
    end.

(** *** GET /api/users/:id/connection-status

    The route looks the target up by the cast id and tests the
    caller's own lists with the id as the request spells it; it saves
    nothing. *)
Definition connectionStatus (reqUser : User) (targetUserId : string)
    : Db -> Reply * Db :=
  fun db =>
    if String.eqb (_id reqUser) targetUserId then (Status "self", db)
    else
      match findById isValidObjectId castObjectId targetUserId db with
      | (Answer r, db') => (Error (status r) "Server error", db')
      | (Next None, db') => (Error 404 "User not found", db')
      | (Next (Some targetUser), db') =>
          if negb (isActive targetUser) then (Error 404 "User not found", db')
          else if isConnectedTo reqUser targetUserId then (Status "connected", db')
          else if hasSentRequestTo reqUser targetUserId then (Status "requested", db')
          else if hasReceivedRequestFrom reqUser targetUserId then (Status "incoming", db')
          else (Status "none", db')
      end.

(** The status that user [u] is shown for [t]; [None] when the store
    does not know [u]. *)
Definition statusOf (db : Db) (u t : ObjectId) : option Reply :=
  match authenticate db u with
  | Some reqUser => Some (fst (connectionStatus reqUser t db))
  | None => None
  end.

End Routes.

(** Two stored users between whom nothing is recorded: neither lists
    the other as a connection, and neither holds a request to or from
    the other. *)
Definition strangers (a b : User) : Prop :=
  getConnectionStatus a (_id b) = "none" /\ getConnectionStatus b (_id a) = "none".

(** Two stores hold the same users with the same declared fields.  The
    time stamp [updatedAt] and the version [__v], which every [save]
    that writes a document rewrites, are no fields of [User]: of them
    this says nothing. *)
Definition sameDeclared (us us' : gmap ObjectId User) : Prop :=
  forall k,
    name <$> us' !! k = name <$> us !! k
    /\ role <$> us' !! k = role <$> us !! k
    /\ isActive <$> us' !! k = isActive <$> us !! k
    /\ connections <$> us' !! k = connections <$> us !! k
    /\ connectionRequests <$> us' !! k = connectionRequests <$> us !! k
    /\ sentRequests <$> us' !! k = sentRequests <$> us !! k.

End UserRoutes.

(** ** notificationSlice.js: the badge against the list *)
Module NotificationBadge.

Import NotificationSlice.

(** The number of unread notifications in a list. *)
Definition unreadIn (l : list Notification) : Z :=
  Z.of_nat (length (List.filter (fun n => negb (isRead n)) l)).

(** The badge shows what the list holds, and no two notifications of
    the list share an id. *)
Definition inSync (s : State) : Prop :=
  unreadCount s = unreadIn (notifications s)
  /\ List.NoDup (map _id (notifications s)).

(** What the reducers take for granted about an action: a notification
    pushed over the socket is new and unread, the notification the
    server returns from the read route is read, and a fetched page
    comes with the count of its own unread notifications. *)
Definition expected (s : State) (a : Action) : Prop :=
  match a with
  | addNotification n =>
      isRead n = false /\ ~ In (_id n) (map _id (notifications s))
  | markNotificationAsRead_fulfilled u => isRead u = true
  | getNotifications_fulfilled p =>
      default 0%Z (p_unreadCount p) = unreadIn (default [] (p_notifications p))
      /\ List.NoDup (map _id (default [] (p_notifications p)))
  | _ => True
  end.

End NotificationBadge.

(** ** routes/messages.js: the router and the pair route

    Express tries the routes of a router in the order in which the file
    registers them and hands the request to the first whose method and
    path match; none of the handlers of this router passes a request
    on.  A literal segment matches without regard to case, a parameter
    matches any segment that is not empty. *)
Module MessageRouter.

Import MessageModel.

Inductive Method := GET | POST | PUT | DELETE.

Definition sameMethod (a b : Method) : bool :=
  match a, b with
  | GET, GET | POST, POST | PUT, PUT | DELETE, DELETE => true
  | _, _ => false
  end.

Inductive Segment :=
| Lit (s : string)
| Param (name : string).

(** The handlers, named after their routes. *)
Inductive Handler :=
| SendMessage
| SendMessageTo
| Thread
| Conversation
| ReadConversation
| Conversations
| PairConversation
| ConversationsAgain
| MarkRead
| AddReaction
| RemoveReaction
| DeleteMessage
| UnreadCount.

Record Route := mkRoute {
  method : Method;
  path : list Segment;
  handler : Handler
}.

(** The routes in the order of the file. *)
Definition routes : list Route :=
  [ mkRoute POST [] SendMessage;
    mkRoute POST [Param "userId"] SendMessageTo;
    mkRoute GET [Lit "thread"; Param "sender"; Param "receiver"] Thread;
    mkRoute GET [Lit "conversation"; Param "userId"] Conversation;
    mkRoute PUT [Lit "conversation"; Param "userId"; Lit "read"] ReadConversation;
    mkRoute GET [Lit "conversations"] Conversations;
    mkRoute GET [Param "otherUserId"] PairConversation;
    mkRoute GET [Lit "conversations"] ConversationsAgain;
    mkRoute PUT [Param "id"; Lit "read"] MarkRead;
    mkRoute PUT [Param "id"; Lit "reaction"] AddReaction;
    mkRoute DELETE [Param "id"; Lit "reaction"] RemoveReaction;
    mkRoute DELETE [Param "id"] DeleteMessage;
    mkRoute GET [Lit "unread-count"] UnreadCount ].

(** The parameters a path gives a pattern, when it matches; the path is
    the list of its segments below the mount point. *)
Fixpoint matchPath (pattern : list Segment) (segments : list string)
    : option (list (string * string)) :=
  match pattern, segments with
  | [], [] => Some []
  | Lit s :: pattern', x :: segments' =>
      if String.eqb (Js.toLower x) (Js.toLower s) then matchPath pattern' segments'
      else None
  | Param name :: pattern', x :: segments' =>
      if Js.truthy x then option_map (cons (name, x)) (matchPath pattern' segments')
      else None
  | _, _ => None
  end.

Fixpoint dispatchIn (rs : list Route) (m : Method) (segments : list string)
    : option (Handler * list (string * string)) :=
  match rs with
  | [] => None
  | r :: rs' =>
      if sameMethod (method r) m then
        match matchPath (path r) segments with
        | Some params => Some (handler r, params)
        | None => dispatchIn rs' m segments
        end
      else dispatchIn rs' m segments
  end.

Definition dispatch (m : Method) (segments : list string)
    : option (Handler * list (string * string)) :=
  dispatchIn routes m segments.

(** [req.params.name]. *)
Definition param (name : string) (params : list (string * string)) : string :=
  match List.find (fun p => String.eqb (fst p) name) params with
  | Some p => snd p
  | None => ""
  end.

Inductive Reply :=
| Error (code : nat) (message : string)
| Messages (messages : list Message).

(** [sort({createdAt: 1})]: oldest first, equal keys in collection
    order. *)
Fixpoint insertAsc (m : Message) (l : list Message) : list Message :=
  match l with
  | [] => [m]
  | x :: xs =>
      if (createdAt m <=? createdAt x)%N then m :: x :: xs
      else x :: insertAsc m xs
  end.

Definition sortOldestFirst (l : list Message) : list Message :=
  fold_right insertAsc [] l.

Section Routes.

Variable isValidObjectId : string -> bool.
Variable castObjectId : string -> ObjectId.

(** *** GET /api/messages/:otherUserId *)
Definition pairConversation (reqUser : UserModel.User) (otherId : string)
    (db : Server.Db) : Reply :=
  let userId := UserModel._id reqUser in
  if negb (isValidObjectId userId) then Error 500 "Server error"
  else
    match Server.users db !! userId with
    | None => Error 404 "User not found"
    | Some me =>
        let isConnected :=
          Js.includes (UserModel.connections me) otherId in
        if negb isConnected && negb (String.eqb (UserModel.role me) "admin")
        then Error 403 "You can only view messages with your connections"
        else if negb (isValidObjectId otherId) then Error 500 "Server error"
        else
          Messages (sortOldestFirst
            (List.filter (conversationQuery userId (castObjectId otherId))
               (Server.messages db)))
    end.

(** What a GET of a path of one segment is answered, when the pair
    route is the one that takes it. *)
Definition getOne (segment : string) (reqUser : UserModel.User) (db : Server.Db)
    : option Reply :=
  match dispatch GET [segment] with
  | Some (PairConversation, params) =>
      Some (pairConversation reqUser (param "otherUserId" params) db)
  | _ => None
  end.

End Routes.

End MessageRouter.

(** ** Sample data *)
Module Samples.

Definition alice : ObjectId := "64b000000000000000000a11".
Definition bob : ObjectId := "64b000000000000000000b0b".
Definition carol : ObjectId := "64b000000000000000000ca2".

(** A stand-in for [ObjectId.isValid]: 24 hexadecimal digits. *)
Definition isHexDigit (c : ascii) : bool :=
  let n := nat_of_ascii c in
  ((48 <=? n)%nat && (n <=? 57)%nat) || ((97 <=? n)%nat && (n <=? 102)%nat)
  || ((65 <=? n)%nat && (n <=? 70)%nat).

Definition isHex24 (s : string) : bool :=
  (String.length s =? 24)%nat && forallb isHexDigit (list_ascii_of_string s).

(** A stand-in for the cast to an ObjectId: [toString()] renders the
    hexadecimal digits in lower case. *)
Definition castHex (s : string) : ObjectId := Js.toLower s.

(** A stand-in for the ids the driver gives new notifications: a fixed
    prefix and the number of queries the store has seen, in four
    decimal digits. *)
Definition digit (n : nat) : ascii := ascii_of_nat (48 + n mod 10).

Definition nextId (db : Server.Db) : ObjectId :=
  let n := length (Server.trace db) in
  "64b00000000000000000"
  ++ String (digit (n / 1000)) (String (digit (n / 100))
       (String (digit (n / 10)) (String (digit n) EmptyString))).

Definition nameOf (id : ObjectId) : string :=
  if String.eqb id alice then "Alice"
  else if String.eqb id bob then "Bob"
  else if String.eqb id carol then "Carol"
  else "".

Definition newUser (id : ObjectId) (role : string) : UserModel.User :=
  UserModel.mkUser id (nameOf id) role true [] [] [].

(** The connection operations with these stand-ins and the notification
    schema as the specification describes it. *)
Definition runOps (db : Server.Db) (ops : list Server.ConnectionOp) : Server.Db :=
  Server.runOps isHex24 castHex NotificationModel.specSchemaValid nextId db ops.

(** A store with the members alice and bob and the admin carol, none of
    them connected. *)
Definition freshDb : Server.Db :=
  Server.mkDb
    (<[ alice := newUser alice "user" ]>
       (<[ bob := newUser bob "user" ]>
          (<[ carol := newUser carol "admin" ]> ∅)))
    [] [] [].

(** alice asks bob, bob rejects, then bob asks alice. *)
Definition afterRejectAndReverse : Server.Db :=
  runOps freshDb
    [ Server.SendRequest alice bob 10%N;
      Server.Reject bob alice;
      Server.SendRequest bob alice 20%N ].

(** ... and alice accepts bob's request. *)
Definition afterRejectReverseAccept : Server.Db :=
  runOps afterRejectAndReverse [ Server.Accept alice bob ].

(** alice and bob connect, then the admin bans bob. *)
Definition connectedThenBanned : Server.Db :=
  let db := runOps freshDb
              [ Server.SendRequest alice bob 10%N; Server.Accept bob alice ] in
  snd (Server.run (Server.banUser isHex24 castHex (newUser carol "admin") bob) db).

(** alice has asked bob, who has not answered yet. *)
Definition requestPending : Server.Db :=
  runOps freshDb [ Server.SendRequest alice bob 10%N ].

(** The same notification with the type the handler's list holds. *)
Definition shareBody : Server.NotificationBody :=
  Server.mkNotificationBody (Some bob) (Some "POST_SHARE")
    (Some "Post shared") (Some "alice shared your post") None.

(** alice and bob are connected. *)
Definition connected : Server.Db :=
  runOps freshDb
    [ Server.SendRequest alice bob 10%N; Server.Accept bob alice ].

(** A notification that alice's client posts for bob about a shared
    post, with the type the post routes use for it. *)
Definition sharedBody : Server.NotificationBody :=
  Server.mkNotificationBody (Some bob) (Some "POST_SHARED")
    (Some "Post shared") (Some "alice shared your post") None.

(** An image message from alice to bob that names no media URL. *)
Definition imageWithoutUrl : Server.MessageBody :=
  Server.mkMessageBody (Some bob) (Some "photo") (Some "image") None None.

(** The same with an empty media URL. *)
Definition imageWithEmptyUrl : Server.MessageBody :=
  Server.mkMessageBody (Some bob) (Some "photo") (Some "image") (Some "") None.

(** The document that POST /api/messages builds from [imageWithoutUrl]. *)
Definition imageMessage : MessageModel.Message :=
  MessageModel.mkMessage "64b0000000000000000000e2" alice bob "photo" "image" None
    false None false None [] None [] 50%N.

(** Text of 2001 characters. *)
Definition longText : string :=
  string_of_list_ascii (repeat "a"%char 2001).

(** A client state whose list holds one unread notification while the
    counter, as the server reported it, is already 0. *)
Definition unreadAtZero : NotificationSlice.State :=
  NotificationSlice.mkState
    [NotificationSlice.mkNotification "n1" "MESSAGE" "New message" "hello" false None]
    0 false None None.

(** The stored document of a user. *)
Definition docOf (db : Server.Db) (id : ObjectId) : UserModel.User :=
  default (newUser id "user") (Server.users db !! id).

(** A text message from alice to bob, as POST /api/messages stores it. *)
Definition hello : MessageModel.Message :=
  MessageModel.mkMessage "64b0000000000000000000e1" alice bob "hello" "text" None
    false None false None [] None [] 1000%N.

(** The same message after alice deleted it. *)
Definition helloDeletedByAlice : MessageModel.Message :=
  MessageModel.softDelete alice 2000%N hello.

(** A message on which alice and bob have both reacted. *)
Definition helloWithReactions : MessageModel.Message :=
  MessageModel.addReaction bob "heart" 1200%N
    (MessageModel.addReaction alice "smile" 1100%N hello).

(** The body of a text message to bob. *)
Definition helloBody : Server.MessageBody :=
  Server.mkMessageBody (Some bob) (Some "hello") None None None.

(** Two notifications for bob, the first read, and one for carol. *)
Definition threeNotifications : list NotificationModel.Notification :=
  [ NotificationModel.mkNotification "64b0000000000000000000f1" bob alice
      "MESSAGE" "New message" "hello" "{}" true;
    NotificationModel.mkNotification "64b0000000000000000000f2" bob alice
      "POST_LIKE" "New like" "alice liked your post" "{}" false;
    NotificationModel.mkNotification "64b0000000000000000000f3" carol alice
      "MESSAGE" "New message" "hi carol" "{}" false ].


(** bob's answer to alice. *)
Definition hiBack : MessageModel.Message :=
  MessageModel.mkMessage "64b0000000000000000000e4" bob alice "hi" "text" None
    false None false None [] None [] 1500%N.

(** A note from carol to bob. *)
Definition note : MessageModel.Message :=
  MessageModel.mkMessage "64b0000000000000000000e5" carol bob "note" "text" None
    false None false None [] None [] 1700%N.

(** The three messages as a collection. *)
Definition threeMessages : list MessageModel.Message := [hello; hiBack; note].

(** A driver that takes any skip from 0 on and any limit as it is. *)
Definition plainWindow (skip limit : Z) : option (nat * nat) :=
  if (skip <? 0)%Z then None else Some (Z.to_nat skip, Z.to_nat limit).

End Samples.

(** ** Facts about the string helpers *)
Module JsFacts.

Import Js.

Lemma trimEnd_empty (s : string) : trimEnd s = "" <-> allWhiteSpace s = true.
Proof.
  induction s as [|c s IH]; cbn; [tauto|].
  destruct (trimEnd s) eqn:E.
  - destruct (isWhiteSpace c); cbn.
    + rewrite <- IH. tauto.
    + split; discriminate.
  - rewrite andb_true_iff. split; [discriminate|].
    intros [_ H]. apply IH in H. discriminate.
Qed.

Lemma allWhiteSpace_trimStart (s : string) :
  allWhiteSpace (trimStart s) = allWhiteSpace s.
Proof.
  induction s as [|c s IH]; cbn; [reflexivity|].
  destruct (isWhiteSpace c) eqn:E; cbn; [exact IH|].
  now rewrite E.
Qed.

(** A string trims to the empty string exactly when it consists of
    white space. *)
Lemma trim_empty (s : string) : trim s = "" <-> allWhiteSpace s = true.
Proof. unfold trim. now rewrite trimEnd_empty, allWhiteSpace_trimStart. Qed.

Example trim_example : trim "  two words  " = "two words".
Proof. reflexivity. Qed.

End JsFacts.

(** ** Facts about the message model *)
Module MessageFacts.

Import MessageModel.

Lemma insertDesc_perm (m : Message) (l : list Message) :
  Permutation (insertDesc m l) (m :: l).
Proof.
  induction l as [|x xs IH]; simpl.
  - apply Permutation_refl.
  - destruct (createdAt x <=? createdAt m)%N.
    + apply Permutation_refl.
    + apply perm_trans with (x :: m :: xs).
      * apply perm_skip, IH.
      * apply perm_swap.
Qed.

Lemma sortNewestFirst_perm (l : list Message) :
  Permutation (sortNewestFirst l) l.
Proof.
  induction l as [|x xs IH]; simpl.
  - apply perm_nil.
  - eapply perm_trans; [apply insertDesc_perm|].
    apply perm_skip, IH.
Qed.

Lemma sortNewestFirst_In (m : Message) (l : list Message) :
  In m (sortNewestFirst l) <-> In m l.
Proof.
  split; apply Permutation_in.
  - apply sortNewestFirst_perm.
  - apply Permutation_sym, sortNewestFirst_perm.
Qed.

Lemma limitTo_incl (n : nat) (l : list Message) : incl (limitTo n l) l.
Proof.
  unfold limitTo. destruct (n =? 0)%nat.
  - apply incl_refl.
  - intros x Hx. rewrite <- (firstn_skipn n l). apply in_or_app. now left.
Qed.

Lemma skipn_incl (n : nat) (l : list Message) : incl (skipn n l) l.
Proof.
  intros x Hx. rewrite <- (firstn_skipn n l). apply in_or_app. now right.
Qed.

Lemma getConversation_all (coll : list Message) (u1 u2 : ObjectId) :
  getConversation coll u1 u2 0 0
  = sortNewestFirst (List.filter (conversationQuery u1 u2) coll).
Proof. reflexivity. Qed.

Lemma getConversation_page_incl (coll : list Message) (u1 u2 : ObjectId) (limit skip : nat) :
  incl (getConversation coll u1 u2 limit skip) (getConversation coll u1 u2 0 0).
Proof.
  rewrite getConversation_all. unfold getConversation.
  eapply incl_tran; [apply limitTo_incl | apply skipn_incl].
Qed.

Lemma inConversation_sym (u1 u2 : ObjectId) (m : Message) :
  inConversation u1 u2 m = inConversation u2 u1 m.
Proof. unfold inConversation. apply orb_comm. Qed.

Lemma getConversation_sym (coll : list Message) (u1 u2 : ObjectId) (limit skip : nat) :
  getConversation coll u1 u2 limit skip = getConversation coll u2 u1 limit skip.
Proof.
  unfold getConversation. do 3 f_equal.
  apply filter_ext. intros m. unfold conversationQuery.
  now rewrite inConversation_sym.
Qed.

(** C1, as the code has it: whoever of the two users fetches, the
    conversation holds exactly the stored messages between the pair
    whose [isDeleted] flag is false; every page of it is a part of that
    list.  A message deleted by either party is returned to neither. *)
Theorem getConversation_returns_undeleted
    (coll : list Message) (u1 u2 : ObjectId) (limit skip : nat) (m : Message) :
  (In m (getConversation coll u1 u2 0 0)
   <-> In m coll /\ inConversation u1 u2 m = true /\ isDeleted m = false)
  /\ incl (getConversation coll u1 u2 limit skip) (getConversation coll u1 u2 0 0)
  /\ getConversation coll u2 u1 limit skip = getConversation coll u1 u2 limit skip.
Proof.
  split; [|split].
  - rewrite getConversation_all, sortNewestFirst_In, filter_In.
    unfold conversationQuery. rewrite andb_true_iff, negb_true_iff. tauto.
  - apply getConversation_page_incl.
  - apply getConversation_sym.
Qed.

(** C1, counterexample: alice deletes her message to bob.  By the rule
    of the claim bob should still see it (it was deleted by the other
    party only), but bob's fetch of the conversation is empty. *)
Lemma getConversation_hides_from_other_party :
  visibleTo_spec Samples.bob Samples.helloDeletedByAlice = true
  /\ In Samples.helloDeletedByAlice [Samples.helloDeletedByAlice]
  /\ inConversation Samples.bob Samples.alice Samples.helloDeletedByAlice = true
  /\ ~ In Samples.helloDeletedByAlice
        (getConversation [Samples.helloDeletedByAlice] Samples.bob Samples.alice 50 0).
Proof.
  repeat split; try reflexivity.
  - now left.
  - intros H. exact H.
Qed.

(** *** Marking a conversation read *)

Lemma unreadFrom_after (u1 u2 : ObjectId) (now : Date) (m : Message) :
  unreadFrom u1 u2 (if unreadFrom u1 u2 m then set_read m now else m) = false.
Proof.
  destruct (unreadFrom u1 u2 m) eqn:E; [|exact E].
  unfold unreadFrom. simpl. apply andb_false_iff. left.
  apply andb_false_iff. now right.
Qed.

Lemma filter_none {A} (p : A -> bool) (l : list A) :
  (forall x, In x l -> p x = false) -> List.filter p l = [].
Proof.
  induction l as [|x xs IH]; intros H; simpl; [reflexivity|].
  rewrite (H x (or_introl eq_refl)). apply IH. intros y Hy. apply H. now right.
Qed.

Lemma markConversationAsRead_none_left (coll : list Message) (u1 u2 : ObjectId)
    (now : Date) (m : Message) :
  In m (collection (markConversationAsRead coll u1 u2 now)) -> unreadFrom u1 u2 m = false.
Proof.
  simpl. rewrite in_map_iff. intros [x [<- _]]. apply unreadFrom_after.
Qed.

(** C3: marking the messages from X to Y read twice in a row modifies
    nothing the second time, and leaves the collection as the first call
    left it. *)
Theorem markConversationAsRead_idempotent
    (coll : list Message) (x y : ObjectId) (t1 t2 : Date) :
  let first := markConversationAsRead coll y x t1 in
  let second := markConversationAsRead (collection first) y x t2 in
  modifiedCount second = 0%nat /\ collection second = collection first.
Proof.
  intros first second. split.
  - unfold second. cbn [markConversationAsRead modifiedCount].
    rewrite filter_none; [reflexivity|].
    intros m Hm. now apply markConversationAsRead_none_left in Hm.
  - unfold second. cbn [markConversationAsRead collection].
    rewrite <- (map_id (collection first)) at 2.
    apply map_ext_in. intros m Hm.
    now rewrite (markConversationAsRead_none_left coll y x t1 m Hm).
Qed.

(** What the first call does: it modifies exactly the unread, undeleted
    messages from X to Y, and afterwards none of them is unread. *)
Lemma markConversationAsRead_count (coll : list Message) (x y : ObjectId) (t : Date) :
  modifiedCount (markConversationAsRead coll y x t)
  = length (List.filter (unreadFrom y x) coll).
Proof. reflexivity. Qed.

(** *** Reactions *)

Lemma byUser_eq (u : ObjectId) (r : Reaction) : byUser u r = true -> userId r = u.
Proof. unfold byUser. apply String.eqb_eq. Qed.

Lemma byUser_other (u v : ObjectId) (r : Reaction) :
  u <> v -> byUser u r = true -> byUser v r = false.
Proof.
  intros Hne Hu. apply byUser_eq in Hu. unfold byUser.
  apply String.eqb_neq. congruence.
Qed.

Lemma find_none_filter (u : ObjectId) (rs : list Reaction) :
  List.find (byUser u) rs = None -> List.filter (byUser u) rs = [].
Proof.
  induction rs as [|r rs IH]; simpl; [reflexivity|].
  destruct (byUser u r); [discriminate|]. exact IH.
Qed.

Lemma filter_updateFirst_same (u : ObjectId) (e : string) (now : Date) (rs : list Reaction) :
  List.find (byUser u) rs <> None ->
  List.filter (byUser u) (updateFirst u e now rs)
  = mkReaction u e now :: tl (List.filter (byUser u) rs).
Proof.
  induction rs as [|r rs IH]; simpl; [congruence|].
  destruct (byUser u r) eqn:E; intros H.
  - simpl. unfold byUser at 1. simpl. fold (byUser u r). rewrite E.
    simpl. now rewrite (byUser_eq u r E).
  - simpl. rewrite E. now apply IH.
Qed.

Lemma filter_updateFirst_other (u v : ObjectId) (e : string) (now : Date) (rs : list Reaction) :
  u <> v ->
  List.filter (byUser v) (updateFirst u e now rs) = List.filter (byUser v) rs.
Proof.
  intros Hne. induction rs as [|r rs IH]; simpl; [reflexivity|].
  destruct (byUser u r) eqn:E.
  - simpl. rewrite (byUser_other u v r Hne E).
    assert (byUser v (mkReaction (userId r) e now) = false) as ->; [|reflexivity].
    apply (byUser_other u v); [exact Hne|]. exact E.
  - simpl. destruct (byUser v r); [f_equal|]; exact IH.
Qed.

(** After [addReaction] the user's entries are the new reaction followed
    by whatever entries the user had beyond the first. *)
Lemma addReaction_own (u : ObjectId) (e : string) (now : Date) (m : Message) :
  List.filter (byUser u) (reactions (addReaction u e now m))
  = mkReaction u e now :: tl (List.filter (byUser u) (reactions m)).
Proof.
  unfold addReaction. destruct (List.find (byUser u) (reactions m)) eqn:F; simpl.
  - apply filter_updateFirst_same. congruence.
  - rewrite List.filter_app, (find_none_filter u _ F). simpl.
    unfold byUser at 1. simpl. now rewrite String.eqb_refl.
Qed.

(** C4: on a message on which the user has at most one reaction, as on
    every message the data model admits, reacting with [e1] and then
    with [e2] leaves exactly one reaction of the user, with emoji [e2]. *)
Theorem addReaction_twice_upserts
    (m : Message) (u : ObjectId) (e1 e2 : string) (t1 t2 : Date) :
  (length (List.filter (byUser u) (reactions m)) <= 1)%nat ->
  List.filter (byUser u) (reactions (addReaction u e2 t2 (addReaction u e1 t1 m)))
  = [mkReaction u e2 t2].
Proof.
  intros Hone. rewrite addReaction_own, addReaction_own. simpl.
  destruct (List.filter (byUser u) (reactions m)) as [|r [|r' rest]]; simpl in *;
    [reflexivity | reflexivity | lia].
Qed.

(** bob, who has reacted to alice's message once, reacts twice more. *)
Lemma addReaction_twice_upserts_witness :
  (length (List.filter (byUser Samples.bob) (reactions Samples.helloWithReactions)) <= 1)%nat
  /\ List.filter (byUser Samples.bob)
       (reactions (addReaction Samples.bob "fire" 3000%N
                     (addReaction Samples.bob "thumbs up" 2000%N
                        Samples.helloWithReactions)))
     = [mkReaction Samples.bob "fire" 3000%N].
Proof.
  assert (H : (length (List.filter (byUser Samples.bob)
                         (reactions Samples.helloWithReactions)) <= 1)%nat)
    by (vm_compute; lia).
  split; [exact H|].
  exact (addReaction_twice_upserts Samples.helloWithReactions Samples.bob
           "thumbs up" "fire" 2000%N 3000%N H).
Defined.

Lemma addReaction_other (u v : ObjectId) (e : string) (now : Date) (m : Message) :
  u <> v ->
  List.filter (byUser v) (reactions (addReaction u e now m))
  = List.filter (byUser v) (reactions m).
Proof.
  intros Hne. unfold addReaction.
  destruct (List.find (byUser u) (reactions m)); simpl.
  - now apply filter_updateFirst_other.
  - rewrite List.filter_app. simpl.
    assert (byUser v (mkReaction u e now) = false) as ->.
    { unfold byUser. simpl. now apply String.eqb_neq. }
    apply app_nil_r.
Qed.

Lemma removeReaction_other (u v : ObjectId) (m : Message) :
  u <> v ->
  List.filter (byUser v) (reactions (removeReaction u m))
  = List.filter (byUser v) (reactions m).
Proof.
  intros Hne. unfold removeReaction. simpl.
  induction (reactions m) as [|r rs IH]; simpl; [reflexivity|].
  destruct (byUser u r) eqn:E; simpl.
  - now rewrite (byUser_other u v r Hne E).
  - destruct (byUser v r); [f_equal|]; exact IH.
Qed.

Lemma removeReaction_own (u : ObjectId) (m : Message) :
  List.filter (byUser u) (reactions (removeReaction u m)) = [].
Proof.
  unfold removeReaction. simpl. apply filter_none.
  intros r Hr. apply filter_In in Hr. now apply negb_true_iff.
Qed.

Lemma removeReaction_In (u : ObjectId) (m : Message) (r : Reaction) :
  In r (reactions (removeReaction u m)) <-> In r (reactions m) /\ userId r <> u.
Proof.
  unfold removeReaction. simpl. rewrite filter_In, negb_true_iff.
  unfold byUser. now rewrite String.eqb_neq.
Qed.

Lemma addReaction_sameExceptReactions (u : ObjectId) (e : string) (now : Date) (m : Message) :
  sameExceptReactions m (addReaction u e now m).
Proof.
  unfold addReaction, sameExceptReactions.
  destruct (List.find (byUser u) (reactions m)); simpl; repeat split.
Qed.

Lemma removeReaction_sameExceptReactions (u : ObjectId) (m : Message) :
  sameExceptReactions m (removeReaction u m).
Proof. unfold sameExceptReactions. simpl. repeat split. Qed.

(** C8: [addReaction] and [removeReaction] by [u] leave the reactions of
    every other user [v] as they were, in their order, and change no
    field of the message but [reactions]; [removeReaction] keeps exactly
    the entries whose [userId] is not [u]. *)
Theorem reactions_touch_only_own
    (m : Message) (u v : ObjectId) (e : string) (now : Date) :
  u <> v ->
  List.filter (byUser v) (reactions (addReaction u e now m))
    = List.filter (byUser v) (reactions m)
  /\ List.filter (byUser v) (reactions (removeReaction u m))
    = List.filter (byUser v) (reactions m)
  /\ sameExceptReactions m (addReaction u e now m)
  /\ sameExceptReactions m (removeReaction u m)
  /\ (forall r, In r (reactions (removeReaction u m))
                <-> In r (reactions m) /\ userId r <> u).
Proof.
  intros Hne. split; [|split; [|split; [|split]]].
  - now apply addReaction_other.
  - now apply removeReaction_other.
  - apply addReaction_sameExceptReactions.
  - apply removeReaction_sameExceptReactions.
  - intros r. apply removeReaction_In.
Qed.

(** bob reacts to, or withdraws his reaction from, a message on which
    alice has reacted too: her reaction stays. *)
Lemma reactions_touch_only_own_witness :
  Samples.bob <> Samples.alice
  /\ List.filter (byUser Samples.alice)
       (reactions (addReaction Samples.bob "fire" 3000%N Samples.helloWithReactions))
     = [mkReaction Samples.alice "smile" 1100%N]
  /\ List.filter (byUser Samples.alice)
       (reactions (removeReaction Samples.bob Samples.helloWithReactions))
     = [mkReaction Samples.alice "smile" 1100%N].
Proof.
  assert (H : Samples.bob <> Samples.alice) by discriminate.
  destruct (reactions_touch_only_own Samples.helloWithReactions
              Samples.bob Samples.alice "fire" 3000%N H) as (Ha & Hr & _).
  split; [exact H|]. split.
  - rewrite Ha. reflexivity.
  - rewrite Hr. reflexivity.
Defined.

(** The rule "at most one reaction per user" holds of a new message and
    is kept by both reaction methods, so it holds of every message the
    routes can store. *)
Lemma oneReactionPerUser_new (m : Message) :
  reactions m = [] -> oneReactionPerUser m.
Proof. intros H u. rewrite H. simpl. lia. Qed.

Lemma oneReactionPerUser_addReaction (u : ObjectId) (e : string) (now : Date) (m : Message) :
  oneReactionPerUser m -> oneReactionPerUser (addReaction u e now m).
Proof.
  intros H v. destruct (String.eqb_spec u v) as [<-|Hne].
  - rewrite addReaction_own. specialize (H u).
    destruct (List.filter (byUser u) (reactions m)) as [|r [|r' rest]];
      simpl in *; lia.
  - rewrite addReaction_other by exact Hne. apply H.
Qed.

Lemma oneReactionPerUser_removeReaction (u : ObjectId) (m : Message) :
  oneReactionPerUser m -> oneReactionPerUser (removeReaction u m).
Proof.
  intros H v. destruct (String.eqb_spec u v) as [<-|Hne].
  - rewrite removeReaction_own. simpl. lia.
  - rewrite removeReaction_other by exact Hne. apply H.
Qed.

Lemma oneReactionPerUser_ops (ops : list ReactionOp) (m : Message) :
  oneReactionPerUser m -> oneReactionPerUser (applyReactionOps m ops).
Proof.
  revert m. induction ops as [|op ops IH]; intros m H; [exact H|].
  cbn. apply IH. destruct op; cbn.
  - now apply oneReactionPerUser_addReaction.
  - now apply oneReactionPerUser_removeReaction.
Qed.

(** The upsert on every message the routes can reach: a message stored
    without reactions, after any sequence of reaction calls. *)
Corollary addReaction_twice_on_stored
    (m : Message) (ops : list ReactionOp) (u : ObjectId) (e1 e2 : string) (t1 t2 : Date) :
  reactions m = [] ->
  List.filter (byUser u)
    (reactions (addReaction u e2 t2 (addReaction u e1 t1 (applyReactionOps m ops))))
  = [mkReaction u e2 t2].
Proof.
  intros H. rewrite !addReaction_own. cbn.
  pose proof (oneReactionPerUser_ops ops m (oneReactionPerUser_new m H) u) as Hone.
  destruct (List.filter (byUser u) (reactions (applyReactionOps m ops))) as [|r [|r' rest]];
    cbn in *; [reflexivity | reflexivity | lia].
Qed.

End MessageFacts.

(** ** Equations of the handler monad *)
Module HandlerFacts.

Import UserModel Server.

Lemma bind_apply {A B} (h : Handler A) (k : A -> Handler B) (db : Db) :
  (h ≫= k) db
  = match h db with
    | (Answer r, db') => (Answer r, db')
    | (Next a, db') => k a db'
    end.
Proof. reflexivity. Qed.

Lemma bind_ret {A B} (a : A) (k : A -> Handler B) (db : Db) :
  (ret a ≫= k) db = k a db.
Proof. reflexivity. Qed.

Lemma bind_respond {A B} (code : nat) (text : string) (k : A -> Handler B) (db : Db) :
  (respond code text ≫= k) db = respond code text db.
Proof. reflexivity. Qed.

Lemma bind_findById {B} (isValidObjectId : string -> bool)
    (castObjectId : string -> ObjectId) (id : string)
    (k : option User -> Handler B) (db : Db) :
  (findById isValidObjectId castObjectId id ≫= k) db
  = if isValidObjectId id then k (users db !! castObjectId id) (log (FindUser id) db)
    else serverError db.
Proof.
  rewrite bind_apply. unfold findById. now destruct (isValidObjectId id).
Qed.

Lemma bind_saveUser {B} (u : User) (k : unit -> Handler B) (db : Db) :
  (saveUser u ≫= k) db
  = k tt (log (SaveUser (_id u)) (set_users db (<[ _id u := u ]> (users db)))).
Proof. reflexivity. Qed.

Lemma bind_notify {B} (valid : NotificationModel.Notification -> bool)
    (newObjectId : Db -> ObjectId) (recipientId : ObjectId) (senderId : ObjectId)
    (type title message data : string) (k : unit -> Handler B) (db : Db) :
  (notify valid newObjectId recipientId senderId type title message data ≫= k) db
  = k tt (notified valid newObjectId recipientId senderId type title message data db).
Proof.
  rewrite bind_apply. unfold notified, notify. now destruct (valid _).
Qed.

(** A notification touches neither a user nor a message. *)
Lemma users_notified (valid : NotificationModel.Notification -> bool)
    (newObjectId : Db -> ObjectId) (recipientId : ObjectId) (senderId : ObjectId)
    (type title message data : string) (db : Db) :
  users (notified valid newObjectId recipientId senderId type title message data db)
  = users db.
Proof. unfold notified, notify. now destruct (valid _). Qed.

Lemma messages_notified (valid : NotificationModel.Notification -> bool)
    (newObjectId : Db -> ObjectId) (recipientId : ObjectId) (senderId : ObjectId)
    (type title message data : string) (db : Db) :
  messages (notified valid newObjectId recipientId senderId type title message data db)
  = messages db.
Proof. unfold notified, notify. now destruct (valid _). Qed.

Lemma respond_apply {A} (code : nat) (text : string) (db : Db) :
  @respond A code text db = (Answer (mkResponse code (Text text)), db).
Proof. reflexivity. Qed.

Lemma run_answer (h : Handler Response) (db db' : Db) (r : Response) :
  h db = (Answer r, db') -> run h db = (r, db').
Proof. unfold run. now intros ->. Qed.

Create Rewrite HintDb handler.
#[global] Hint Rewrite @bind_ret @bind_respond @bind_findById @bind_saveUser
  @bind_notify @respond_apply : handler.

End HandlerFacts.

(** ** Facts about the connection handlers *)
Module ConnectionFacts.

Import UserModel Server HandlerFacts.

Section Facts.

Variable isValidObjectId : string -> bool.
Variable castObjectId : string -> ObjectId.
Variable notificationSchemaValid : NotificationModel.Notification -> bool.
Variable newObjectId : Db -> ObjectId.

(** The guard of the send handler: a request of a user to the own id,
    spelled as [toString()] renders it, is answered 400 "Cannot connect
    with yourself"; the database is as before, with no query sent to
    it: no lookup, no save. *)
Lemma self_request_rejected (db : Db) (u : User) (now : Date) :
  Js.truthy (_id u) = true ->
  isValidObjectId (_id u) = true ->
  run (sendConnectionRequest isValidObjectId castObjectId notificationSchemaValid
         newObjectId u (_id u) now) db
  = (mkResponse 400 (Text "Cannot connect with yourself"), db).
Proof.
  intros Ht Hv. unfold run, sendConnectionRequest.
  rewrite Ht, Hv, String.eqb_refl. reflexivity.
Qed.

(** Whatever the id looks like, a request to the own id as it is stored
    is a 400 that leaves the database alone. *)
Lemma self_request_400 (db : Db) (u : User) (now : Date) :
  status (fst (run (sendConnectionRequest isValidObjectId castObjectId
                      notificationSchemaValid newObjectId u (_id u) now) db)) = 400%nat
  /\ snd (run (sendConnectionRequest isValidObjectId castObjectId
                 notificationSchemaValid newObjectId u (_id u) now) db) = db.
Proof.
  unfold run, sendConnectionRequest. rewrite String.eqb_refl.
  destruct (negb (Js.truthy (_id u)) || negb (isValidObjectId (_id u)));
    split; reflexivity.
Qed.

(** C6, as the code has it.  The target id is a valid id other than the
    requester's own.  When it is spelled as the store spells it, names
    an active stored user, and one of the handler's three duplicate
    checks holds, the answer is a 200 with one of the three
    informational messages; the handler only looked the target up, and
    every user document and the notifications are as before.  When the
    id, in whatever spelling, names no stored user or a deactivated
    one, the answer is 404 "User not found", whatever the two have
    recorded about each other, and nothing was written either. *)
Theorem duplicate_request_is_informational
    (db : Db) (reqUser : User) (targetUserId : string) (now : Date) :
  Js.truthy targetUserId = true ->
  isValidObjectId targetUserId = true ->
  _id reqUser <> targetUserId ->
  let result := run (sendConnectionRequest isValidObjectId castObjectId
                       notificationSchemaValid newObjectId reqUser targetUserId now) db in
  (forall targetUser,
     castObjectId targetUserId = targetUserId ->
     users db !! targetUserId = Some targetUser ->
     isActive targetUser = true ->
     duplicateRequest reqUser targetUser targetUserId = true ->
     status (fst result) = 200%nat
     /\ In (body (fst result)) duplicateAnswers
     /\ users (snd result) = users db
     /\ notifications (snd result) = notifications db
     /\ trace (snd result) = trace db ++ [FindUser targetUserId])
  /\ ((forall targetUser,
         users db !! castObjectId targetUserId = Some targetUser ->
         isActive targetUser = false) ->
      fst result = mkResponse 404 (Text "User not found")
      /\ users (snd result) = users db
      /\ notifications (snd result) = notifications db
      /\ trace (snd result) = trace db ++ [FindUser targetUserId]).
Proof.
  intros Ht Hv Hne result. subst result.
  unfold run, sendConnectionRequest.
  rewrite Ht, Hv. apply String.eqb_neq in Hne. rewrite Hne.
  cbn [negb orb]. rewrite bind_findById, Hv. split.
  - intros targetUser Hc Hfind Hact Hdup. rewrite Hc, Hfind, Hact. cbn [negb].
    unfold duplicateRequest in Hdup.
    destruct (isConnectedTo reqUser targetUserId).
    { cbn. repeat split; auto. }
    destruct (hasSentRequestTo reqUser targetUserId
              || hasReceivedRequestFrom targetUser (_id reqUser)).
    { cbn. repeat split; auto. }
    cbn in Hdup. rewrite Hdup. cbn.
    repeat split; auto.
  - intros Hgone.
    destruct (users db !! castObjectId targetUserId) as [targetUser|] eqn:Hfind.
    + rewrite (Hgone targetUser eq_refl). cbn. repeat split; auto.
    + cbn. repeat split; auto.
Qed.

(** *** Accepting and rejecting *)

Lemma isConnectedTo_pushed (u : User) (x : ObjectId) :
  isConnectedTo
    (if negb (isConnectedTo u x)
     then set_connections u (connections u ++ [x]) else u) x = true.
Proof.
  destruct (isConnectedTo u x) eqn:E; cbn [negb]; [exact E|].
  unfold isConnectedTo. cbn. rewrite existsb_app. cbn.
  rewrite String.eqb_refl. now rewrite orb_true_r.
Qed.

Lemma hasSentRequestTo_filtered (u : User) (x : ObjectId) :
  hasSentRequestTo
    (set_sentRequests u
       (List.filter (fun r => negb (String.eqb (to r) x)) (sentRequests u))) x = false.
Proof.
  unfold hasSentRequestTo. cbn.
  induction (sentRequests u) as [|r rs IH]; cbn; [reflexivity|].
  destruct (String.eqb (to r) x) eqn:E; cbn; [exact IH|].
  now rewrite E.
Qed.

(** An accept of a request of another stored user: the sender's
    document is written, the notification created, the receiver's
    document written, and the answer is 200. *)
Lemma accept_run
    (db : Db) (reqUser requestUser : User) (requestUserId : string)
    (rest : list ConnectionRequest) :
  removeFirstFrom requestUserId (connectionRequests reqUser) = Some rest ->
  isValidObjectId requestUserId = true ->
  users db !! castObjectId requestUserId = Some requestUser ->
  _id requestUser <> _id reqUser ->
  run (handleConnectionRequest isValidObjectId castObjectId
         notificationSchemaValid newObjectId reqUser requestUserId "accept") db
  = (mkResponse 200 (Text "Connection request accepted successfully"),
     let sender := acceptedSender requestUser (_id reqUser) in
     let receiver := acceptedReceiver castObjectId reqUser requestUserId rest in
     let db1 := log (SaveUser (_id sender))
                  (set_users (log (FindUser requestUserId) db)
                     (<[ _id sender := sender ]> (users db))) in
     let db2 := notified notificationSchemaValid newObjectId (castObjectId requestUserId)
                  (_id reqUser) "CONNECTION_ACCEPTED" "Connection request accepted"
                  (nameOr reqUser "Your connection" ++ " accepted your request")
                  (Js.jsonObject "acceptedBy" (_id reqUser)) db1 in
     log (SaveUser (_id receiver))
       (set_users db2 (<[ _id receiver := receiver ]> (users db2)))).
Proof.
  intros Hrm Hv Hfind Hne.
  unfold run, handleConnectionRequest.
  cbn [Js.includes existsb String.eqb Ascii.eqb Bool.eqb orb negb].
  rewrite Hrm. cbn [String.eqb Ascii.eqb Bool.eqb].
  rewrite bind_apply, bind_findById, Hv, Hfind.
  rewrite bind_apply, bind_saveUser. unfold ret at 1.
  apply String.eqb_neq in Hne. rewrite Hne. cbn [andb].
  rewrite bind_notify. unfold ret. rewrite bind_saveUser, respond_apply.
  reflexivity.
Qed.

Lemma accept_users
    (db : Db) (reqUser requestUser : User) (requestUserId : string)
    (rest : list ConnectionRequest) :
  removeFirstFrom requestUserId (connectionRequests reqUser) = Some rest ->
  isValidObjectId requestUserId = true ->
  users db !! castObjectId requestUserId = Some requestUser ->
  _id requestUser <> _id reqUser ->
  users (snd (run (handleConnectionRequest isValidObjectId castObjectId
                     notificationSchemaValid newObjectId reqUser requestUserId
                     "accept") db))
  = <[ _id (acceptedReceiver castObjectId reqUser requestUserId rest) :=
         acceptedReceiver castObjectId reqUser requestUserId rest ]>
      (<[ _id (acceptedSender requestUser (_id reqUser)) :=
            acceptedSender requestUser (_id reqUser) ]> (users db)).
Proof.
  intros Hrm Hv Hfind Hne.
  rewrite (accept_run db reqUser requestUser requestUserId rest Hrm Hv Hfind Hne).
  cbv zeta. cbn [snd users set_users log]. rewrite users_notified. reflexivity.
Qed.

(** X22: Accepting a request connects both users and clears the request on
    both sides: the first entry of the sender leaves the receiver's
    [connectionRequests], and the sender's [sentRequests] keeps no entry
    for the receiver.  The id is spelled as the store spells it, as the
    id of every stored request is. *)
Lemma accept_connects_both
    (db : Db) (reqUser requestUser : User) (requestUserId : string)
    (rest : list ConnectionRequest) :
  removeFirstFrom requestUserId (connectionRequests reqUser) = Some rest ->
  isValidObjectId requestUserId = true ->
  castObjectId requestUserId = requestUserId ->
  users db !! requestUserId = Some requestUser ->
  _id requestUser = requestUserId ->
  _id reqUser <> requestUserId ->
  let db' := snd (run (handleConnectionRequest isValidObjectId castObjectId
                         notificationSchemaValid newObjectId reqUser requestUserId
                         "accept") db) in
  exists u' r',
    users db' !! _id reqUser = Some u' /\ users db' !! requestUserId = Some r'
    /\ isConnectedTo u' requestUserId = true
    /\ isConnectedTo r' (_id reqUser) = true
    /\ connectionRequests u' = rest
    /\ hasSentRequestTo r' (_id reqUser) = false.
Proof.
  intros Hrm Hv Hc Hfind Hid Hne db'. subst db'.
  assert (Hfind' : users db !! castObjectId requestUserId = Some requestUser)
    by now rewrite Hc.
  assert (Hne' : _id requestUser <> _id reqUser) by congruence.
  rewrite (accept_users db reqUser requestUser requestUserId rest Hrm Hv Hfind' Hne').
  set (u2 := acceptedReceiver castObjectId reqUser requestUserId rest).
  set (r2 := acceptedSender requestUser (_id reqUser)).
  assert (Hu2 : _id u2 = _id reqUser).
  { subst u2. unfold acceptedReceiver. cbn. now destruct (negb _). }
  assert (Hr2 : _id r2 = requestUserId).
  { subst r2. unfold acceptedSender. cbn. now destruct (negb _). }
  exists u2, r2. rewrite Hu2, Hr2.
  split; [apply lookup_insert_eq|].
  split; [rewrite lookup_insert_ne by exact Hne; apply lookup_insert_eq|].
  split.
  { subst u2. unfold acceptedReceiver. rewrite Hc.
    apply (isConnectedTo_pushed (set_connectionRequests reqUser rest) requestUserId). }
  split.
  { subst r2. unfold acceptedSender, isConnectedTo at 1.
    cbn [connections set_sentRequests].
    apply (isConnectedTo_pushed requestUser (_id reqUser)). }
  split; [subst u2; unfold acceptedReceiver; cbn; now destruct (negb _)|].
  subst r2. apply hasSentRequestTo_filtered.
Qed.

(** An answer to a request that is not there is informational too, and
    changes nothing. *)
Lemma answer_without_request
    (db : Db) (reqUser : User) (requestUserId action : string) :
  Js.includes ["accept"; "reject"] action = true ->
  removeFirstFrom requestUserId (connectionRequests reqUser) = None ->
  run (handleConnectionRequest isValidObjectId castObjectId notificationSchemaValid
         newObjectId reqUser requestUserId action) db
  = (mkResponse 200
       (Text (if isConnectedTo reqUser requestUserId then "Already connected"
              else "No pending connection request from this user")), db).
Proof.
  intros Ha Hrm. unfold run, handleConnectionRequest. rewrite Ha, Hrm. cbn [negb].
  now destruct (isConnectedTo reqUser requestUserId).
Qed.

(** X23: Rejecting writes the receiver's document only: the document of the
    sender, and with it the entry in the sender's [sentRequests], stays
    as it was. *)
Lemma reject_leaves_requester
    (db : Db) (reqUser : User) (requestUserId : string) :
  _id reqUser <> requestUserId ->
  users (snd (run (handleConnectionRequest isValidObjectId castObjectId
                     notificationSchemaValid newObjectId reqUser requestUserId
                     "reject") db))
    !! requestUserId
  = users db !! requestUserId.
Proof.
  intros Hne. unfold run, handleConnectionRequest.
  cbn [Js.includes existsb String.eqb Ascii.eqb Bool.eqb orb negb].
  destruct (removeFirstFrom requestUserId (connectionRequests reqUser)) as [rest|].
  - autorewrite with handler. cbn [snd users set_users log].
    now apply lookup_insert_ne.
  - now destruct (isConnectedTo reqUser requestUserId).
Qed.

End Facts.

(** alice asks bob a second time while her first request is pending. *)
Lemma duplicate_request_is_informational_witness :
  duplicateRequest (Samples.docOf Samples.requestPending Samples.alice)
    (Samples.docOf Samples.requestPending Samples.bob) Samples.bob = true
  /\ status (fst (run (sendConnectionRequest Samples.isHex24 Samples.castHex
                         NotificationModel.specSchemaValid Samples.nextId
                         (Samples.docOf Samples.requestPending Samples.alice)
                         Samples.bob 30%N) Samples.requestPending)) = 200%nat
  /\ users (snd (run (sendConnectionRequest Samples.isHex24 Samples.castHex
                        NotificationModel.specSchemaValid Samples.nextId
                        (Samples.docOf Samples.requestPending Samples.alice)
                        Samples.bob 30%N) Samples.requestPending))
     = users Samples.requestPending.
Proof.
  assert (Hdup : duplicateRequest (Samples.docOf Samples.requestPending Samples.alice)
                   (Samples.docOf Samples.requestPending Samples.bob) Samples.bob = true)
    by reflexivity.
  assert (Ht : Js.truthy Samples.bob = true) by reflexivity.
  assert (Hv : Samples.isHex24 Samples.bob = true) by reflexivity.
  assert (Hc : Samples.castHex Samples.bob = Samples.bob) by reflexivity.
  assert (Hne : _id (Samples.docOf Samples.requestPending Samples.alice) <> Samples.bob)
    by discriminate.
  assert (Hfind : users Samples.requestPending !! Samples.bob
                  = Some (Samples.docOf Samples.requestPending Samples.bob))
    by reflexivity.
  assert (Hact : isActive (Samples.docOf Samples.requestPending Samples.bob) = true)
    by reflexivity.
  destruct (proj1 (duplicate_request_is_informational Samples.isHex24 Samples.castHex
              NotificationModel.specSchemaValid Samples.nextId Samples.requestPending
              (Samples.docOf Samples.requestPending Samples.alice)
              Samples.bob 30%N Ht Hv Hne)
              (Samples.docOf Samples.requestPending Samples.bob) Hc Hfind Hact Hdup)
    as (Hs & _ & Hu & _).
  split; [exact Hdup|]. split; [exact Hs | exact Hu].
Defined.

(** C6, counterexample: alice and bob are connected and an admin has
    banned bob.  alice's request to bob, a duplicate of an existing
    connection, is answered with the error 404 "User not found". *)
Lemma banned_connection_is_not_found :
  mutuallyConnected Samples.connectedThenBanned Samples.alice Samples.bob = true
  /\ isConnectedTo (Samples.docOf Samples.connectedThenBanned Samples.alice) Samples.bob = true
  /\ fst (run (sendConnectionRequest Samples.isHex24 Samples.castHex
                 NotificationModel.specSchemaValid Samples.nextId
                 (Samples.docOf Samples.connectedThenBanned Samples.alice)
                 Samples.bob 30%N) Samples.connectedThenBanned)
     = mkResponse 404 (Text "User not found").
Proof. repeat split; vm_compute; reflexivity. Qed.

(** The spelling matters for the duplicate checks: alice and bob are
    connected, and alice sends a request to bob's id in upper case.
    The checks compare strings and miss the connection, the lookup
    casts the id and finds bob, and a new request is stored on both
    sides. *)
Example duplicate_in_another_spelling :
  Samples.castHex "64B000000000000000000B0B" = Samples.bob
  /\ mutuallyConnected Samples.connected Samples.alice Samples.bob = true
  /\ fst (run (sendConnectionRequest Samples.isHex24 Samples.castHex
                 NotificationModel.specSchemaValid Samples.nextId
                 (Samples.docOf Samples.connected Samples.alice)
                 "64B000000000000000000B0B" 30%N) Samples.connected)
     = mkResponse 200 (Text "Connection request sent successfully")
  /\ pairStates
       (snd (run (sendConnectionRequest Samples.isHex24 Samples.castHex
                    NotificationModel.specSchemaValid Samples.nextId
                    (Samples.docOf Samples.connected Samples.alice)
                    "64B000000000000000000B0B" 30%N) Samples.connected))
       Samples.alice Samples.bob
     = [Connected; PendingAB].
Proof. repeat split; vm_compute; reflexivity. Qed.

(** C9, failing run: alice sends a connection request to her own id,
    spelled in upper case.  The guard compares the strings and lets it
    pass, the lookup casts the id and finds alice herself, and the
    request is stored: the answer is 200 "Connection request sent
    successfully", and alice's document holds a request from alice and
    a sent request to alice. *)
Theorem self_request_in_another_spelling :
  Samples.castHex "64B000000000000000000A11" = Samples.alice
  /\ authenticate Samples.freshDb Samples.alice
     = Some (Samples.newUser Samples.alice "user")
  /\ fst (run (sendConnectionRequest Samples.isHex24 Samples.castHex
                 NotificationModel.specSchemaValid Samples.nextId
                 (Samples.newUser Samples.alice "user")
                 "64B000000000000000000A11" 10%N) Samples.freshDb)
     = mkResponse 200 (Text "Connection request sent successfully")
  /\ users (snd (run (sendConnectionRequest Samples.isHex24 Samples.castHex
                        NotificationModel.specSchemaValid Samples.nextId
                        (Samples.newUser Samples.alice "user")
                        "64B000000000000000000A11" 10%N) Samples.freshDb))
       !! Samples.alice
     = Some (mkUser Samples.alice "Alice" "user" true []
               [mkConnectionRequest Samples.alice 10%N]
               [mkSentRequest Samples.alice 10%N]).
Proof. repeat split; vm_compute; reflexivity. Qed.

(** C2, failing run: alice asks bob, bob rejects, bob asks alice.  The
    reject left alice's entry in her [sentRequests], so the pair is now
    pending in both directions at once; each of the two is "requested"
    in the eyes of [getConnectionStatus].  When alice then accepts, the
    pair is connected and still pending from alice to bob. *)
Theorem reject_keeps_sent_request :
  pairStates Samples.afterRejectAndReverse Samples.alice Samples.bob
    = [PendingAB; PendingBA]
  /\ atMostOneState Samples.afterRejectAndReverse Samples.alice Samples.bob = false
  /\ getConnectionStatus (Samples.docOf Samples.afterRejectAndReverse Samples.alice)
       Samples.bob = "requested"
  /\ getConnectionStatus (Samples.docOf Samples.afterRejectAndReverse Samples.bob)
       Samples.alice = "requested"
  /\ pairStates Samples.afterRejectReverseAccept Samples.alice Samples.bob
     = [Connected; PendingAB]
  /\ atMostOneState Samples.afterRejectReverseAccept Samples.alice Samples.bob = false.
Proof. repeat split; vm_compute; reflexivity. Qed.

Example afterRejectAndReverse_alice :
  Samples.docOf Samples.afterRejectAndReverse Samples.alice
  = mkUser Samples.alice "Alice" "user" true []
      [mkConnectionRequest Samples.bob 20%N] [mkSentRequest Samples.bob 10%N].
Proof. vm_compute. reflexivity. Qed.

End ConnectionFacts.

(** ** What the connection handlers do keep

    Read off the receiving side, the state of a pair is exclusive: the
    handlers keep every store [consistent]. *)
Module InvariantFacts.

Import UserModel Server HandlerFacts.

(** *** Counting requests *)

Lemma hasReceivedRequestFrom_count (u : User) (x : ObjectId) :
  hasReceivedRequestFrom u x = (0 <? requestCount x (connectionRequests u))%nat.
Proof.
  unfold hasReceivedRequestFrom, requestCount.
  induction (connectionRequests u) as [|r rs IH]; cbn; [reflexivity|].
  destruct (String.eqb (from r) x); cbn; [reflexivity|exact IH].
Qed.

Lemma requestCount_push (x y : ObjectId) (now : Date) (rs : list ConnectionRequest) :
  requestCount x (rs ++ [mkConnectionRequest y now])
  = (requestCount x rs + (if String.eqb y x then 1 else 0))%nat.
Proof.
  unfold requestCount. rewrite List.filter_app, length_app. cbn.
  now destruct (String.eqb y x).
Qed.

Lemma removeFirstFrom_count (r x : ObjectId) (rs rest : list ConnectionRequest) :
  removeFirstFrom r rs = Some rest ->
  requestCount x rs = (requestCount x rest + (if String.eqb r x then 1 else 0))%nat.
Proof.
  revert rest. induction rs as [|q rs IH]; cbn; intros rest H; [discriminate|].
  destruct (String.eqb (from q) r) eqn:E.
  - injection H as <-. apply String.eqb_eq in E. subst r.
    unfold requestCount. cbn. destruct (String.eqb (from q) x); cbn; lia.
  - destruct (removeFirstFrom r rs) as [rest'|]; [|discriminate].
    injection H as <-. specialize (IH rest' eq_refl).
    unfold requestCount in *. cbn.
    destruct (String.eqb (from q) x); cbn; lia.
Qed.

Lemma isConnectedTo_push (u : User) (x y : ObjectId) :
  isConnectedTo (set_connections u (connections u ++ [x])) y
  = isConnectedTo u y || String.eqb x y.
Proof.
  unfold isConnectedTo. cbn. rewrite existsb_app. cbn. now rewrite orb_false_r.
Qed.

Lemma isConnectedTo_filter (u : User) (x y : ObjectId) :
  isConnectedTo
    (set_connections u (List.filter (fun id => negb (String.eqb id x)) (connections u))) y
  = true ->
  isConnectedTo u y = true.
Proof.
  unfold isConnectedTo. cbn. rewrite !existsb_exists.
  intros [z [Hz ?]]. apply filter_In in Hz. exists z. tauto.
Qed.

(** *** Lookups after a save *)

Lemma requestsAt_insert (us : gmap ObjectId User) (k : ObjectId) (v : User) (a b : ObjectId) :
  requestsAt (<[ k := v ]> us) a b
  = if decide (k = a) then requestCount b (connectionRequests v) else requestsAt us a b.
Proof.
  unfold requestsAt. rewrite lookup_insert. now case_decide.
Qed.

Lemma listsAt_insert (us : gmap ObjectId User) (k : ObjectId) (v : User) (a b : ObjectId) :
  listsAt (<[ k := v ]> us) a b
  = if decide (k = a) then isConnectedTo v b else listsAt us a b.
Proof.
  unfold listsAt. rewrite lookup_insert. now case_decide.
Qed.

Lemma keys_insert (us : gmap ObjectId User) (k : ObjectId) (v : User) :
  (forall j u, us !! j = Some u -> _id u = j) -> _id v = k ->
  forall j u, <[ k := v ]> us !! j = Some u -> _id u = j.
Proof.
  intros Hus Hv j u. rewrite lookup_insert. case_decide; [|apply Hus].
  now intros [= <-]; subst.
Qed.

(** *** Two ways in which a step keeps the store consistent *)

Lemma consistent_shrink (us us' : gmap ObjectId User) :
  consistent us ->
  (forall k u, us' !! k = Some u -> _id u = k) ->
  (forall x y, (requestsAt us' x y <= requestsAt us x y)%nat) ->
  (forall x y, x <> y -> listsAt us' x y = true ->
     listsAt us x y = true \/ (requestsAt us' x y = 0 /\ requestsAt us' y x = 0)%nat) ->
  consistent us'.
Proof.
  intros [K U B C] K' Hle Hl. split.
  - exact K'.
  - intros a b. specialize (Hle a b). specialize (U a b). lia.
  - intros a b Hne Hpos.
    assert (0 < requestsAt us a b)%nat as H by (specialize (Hle a b); lia).
    specialize (B a b Hne H). specialize (Hle b a). lia.
  - intros a b Hne Hpos.
    destruct (listsAt us' a b) eqn:Eab; [|reflexivity].
    destruct (listsAt us' b a) eqn:Eba; [|reflexivity].
    apply Hl in Eab, Eba; [|congruence|exact Hne].
    destruct Eab as [Eab|[? ?]]; [|lia].
    destruct Eba as [Eba|[? ?]]; [|lia].
    assert (0 < requestsAt us a b)%nat as H by (specialize (Hle a b); lia).
    specialize (C a b Hne H). rewrite Eab, Eba in C. discriminate.
Qed.

Lemma consistent_add_request (us us' : gmap ObjectId User) (u t : ObjectId) :
  consistent us ->
  u <> t ->
  (forall k v, us' !! k = Some v -> _id v = k) ->
  requestsAt us t u = 0%nat ->
  requestsAt us u t = 0%nat ->
  listsAt us u t = false ->
  (forall x y, listsAt us' x y = listsAt us x y) ->
  (forall x y, requestsAt us' x y
     = (requestsAt us x y + (if decide (x = t /\ y = u) then 1 else 0))%nat) ->
  consistent us'.
Proof.
  intros [K U B C] Hne K' Htu Hut Hl Hl' Hc. split.
  - exact K'.
  - intros a b. rewrite Hc. case_decide as E.
    + destruct E as [-> ->]. lia.
    + specialize (U a b). lia.
  - intros a b Hab. rewrite !Hc. intros Hpos.
    case_decide as E1; case_decide as E2.
    + destruct E1 as [-> ->]. destruct E2 as [? ?]. congruence.
    + destruct E1 as [-> ->]. lia.
    + destruct E2 as [-> ->]. lia.
    + rewrite Nat.add_0_r in *. now apply B.
  - intros a b Hab. rewrite Hc, !Hl'. intros Hpos.
    case_decide as E1.
    + destruct E1 as [-> ->]. rewrite Hl. apply andb_false_r.
    + rewrite Nat.add_0_r in Hpos. now apply C.
Qed.

Section Steps.

Variable isValidObjectId : string -> bool.
Variable castObjectId : string -> ObjectId.
Variable notificationSchemaValid : NotificationModel.Notification -> bool.
Variable newObjectId : Db -> ObjectId.

Lemma requestsAt_of (us : gmap ObjectId User) (a b : ObjectId) (u : User) :
  us !! a = Some u -> requestsAt us a b = requestCount b (connectionRequests u).
Proof. unfold requestsAt. now intros ->. Qed.

Lemma listsAt_of (us : gmap ObjectId User) (a b : ObjectId) (u : User) :
  us !! a = Some u -> listsAt us a b = isConnectedTo u b.
Proof. unfold listsAt. now intros ->. Qed.

Lemma not_received_count (u : User) (x : ObjectId) :
  hasReceivedRequestFrom u x = false -> requestCount x (connectionRequests u) = 0%nat.
Proof.
  rewrite hasReceivedRequestFrom_count. intros H. apply Nat.ltb_ge in H. lia.
Qed.

Lemma send_consistent (db : Db) (u t : ObjectId) (now : Date) :
  consistent (users db) ->
  castObjectId t = t ->
  consistent (users (step isValidObjectId castObjectId notificationSchemaValid
                       newObjectId db (SendRequest u t now))).
Proof.
  intros H Hc. pose proof (keys_ok _ H) as K.
  unfold step, authenticate. cbn [caller handlerOf].
  destruct (users db !! u) as [reqUser|] eqn:Hu; [|exact H].
  pose proof (K _ _ Hu) as Hid.
  unfold run, sendConnectionRequest.
  destruct (negb (Js.truthy t) || negb (isValidObjectId t)) eqn:G1; [exact H|].
  apply orb_false_iff in G1 as [_ G1]. apply negb_false_iff in G1.
  destruct (String.eqb (_id reqUser) t) eqn:G2; [exact H|].
  apply String.eqb_neq in G2.
  rewrite bind_findById, G1, Hc.
  destruct (users db !! t) as [targetUser|] eqn:Ht; [|exact H].
  pose proof (K _ _ Ht) as Hidt.
  destruct (negb (isActive targetUser)); [exact H|].
  destruct (isConnectedTo reqUser t) eqn:G3; [exact H|].
  destruct (hasSentRequestTo reqUser t || hasReceivedRequestFrom targetUser (_id reqUser))
    eqn:G4; [exact H|].
  apply orb_false_iff in G4 as [_ G4].
  destruct (hasReceivedRequestFrom reqUser t) eqn:G5; [exact H|].
  assert (String.eqb (_id targetUser) (_id reqUser) = false) as ->
    by (apply String.eqb_neq; congruence).
  rewrite !bind_saveUser, bind_notify, respond_apply.
  cbn [snd]. rewrite users_notified. cbn [users set_users log].
  cbn [_id set_sentRequests set_connectionRequests].
  rewrite Hid, Hidt in *.
  apply (consistent_add_request (users db) _ u t H G2).
  - apply keys_insert; [apply keys_insert; [exact K|exact Hidt]|exact Hid].
  - rewrite (requestsAt_of _ _ _ _ Ht). now apply not_received_count.
  - rewrite (requestsAt_of _ _ _ _ Hu). now apply not_received_count.
  - now rewrite (listsAt_of _ _ _ _ Hu).
  - intros x y. rewrite !listsAt_insert.
    case_decide as E1; [subst x; now rewrite (listsAt_of _ _ _ _ Hu)|].
    case_decide as E2; [subst x; now rewrite (listsAt_of _ _ _ _ Ht)|].
    reflexivity.
  - intros x y. rewrite !requestsAt_insert.
    case_decide as E1.
    { subst x. rewrite (requestsAt_of _ _ _ _ Hu).
      cbn [connectionRequests set_sentRequests].
      case_decide as E; [destruct E; congruence|lia]. }
    case_decide as E2.
    { subst x. rewrite (requestsAt_of _ _ _ _ Ht).
      cbn [connectionRequests set_connectionRequests].
      rewrite requestCount_push.
      destruct (String.eqb_spec u y) as [->|Hn]; case_decide as E; try lia.
      - exfalso. apply E. now split.
      - destruct E. congruence. }
    case_decide as E; [destruct E; congruence|lia].
Qed.

(** What an accept does to the two documents. *)
Lemma acceptedReceiver_id (reqUser : User) (r : ObjectId) (rest : list ConnectionRequest) :
  _id (acceptedReceiver castObjectId reqUser r rest) = _id reqUser.
Proof. unfold acceptedReceiver. cbn. now destruct (negb _). Qed.

Lemma acceptedReceiver_requests (reqUser : User) (r : ObjectId) (rest : list ConnectionRequest) :
  connectionRequests (acceptedReceiver castObjectId reqUser r rest) = rest.
Proof. unfold acceptedReceiver. cbn. now destruct (negb _). Qed.

Lemma acceptedReceiver_lists (reqUser : User) (r y : ObjectId) (rest : list ConnectionRequest) :
  castObjectId r = r ->
  isConnectedTo (acceptedReceiver castObjectId reqUser r rest) y = true ->
  isConnectedTo reqUser y = true \/ y = r.
Proof.
  intros Hc. unfold acceptedReceiver. rewrite Hc. cbv zeta. destruct (negb _).
  - rewrite isConnectedTo_push, orb_true_iff, String.eqb_eq. intuition.
  - now left.
Qed.

Lemma acceptedSender_id (requestUser : User) (u : ObjectId) :
  _id (acceptedSender requestUser u) = _id requestUser.
Proof. unfold acceptedSender. cbn. now destruct (negb _). Qed.

Lemma acceptedSender_requests (requestUser : User) (u : ObjectId) :
  connectionRequests (acceptedSender requestUser u) = connectionRequests requestUser.
Proof. unfold acceptedSender. cbn. now destruct (negb _). Qed.

Lemma acceptedSender_lists (requestUser : User) (u y : ObjectId) :
  isConnectedTo (acceptedSender requestUser u) y = true ->
  isConnectedTo requestUser y = true \/ y = u.
Proof.
  unfold acceptedSender. cbv zeta. destruct (negb _).
  - change (isConnectedTo (set_connections requestUser (connections requestUser ++ [u])) y = true
            -> isConnectedTo requestUser y = true \/ y = u).
    rewrite isConnectedTo_push, orb_true_iff, String.eqb_eq. intuition.
  - now left.
Qed.

(** Taking the request of [r] out of [u]'s list, and connecting the two
    on the way or not, keeps the store consistent. *)
Lemma consistent_answered
    (us mid : gmap ObjectId User) (u r : ObjectId) (reqUser reqUser' : User)
    (rest : list ConnectionRequest) :
  consistent us ->
  us !! u = Some reqUser ->
  removeFirstFrom r (connectionRequests reqUser) = Some rest ->
  _id reqUser' = u ->
  connectionRequests reqUser' = rest ->
  (forall y, isConnectedTo reqUser' y = true -> isConnectedTo reqUser y = true \/ y = r) ->
  (forall k v, mid !! k = Some v -> _id v = k) ->
  (forall x y, requestsAt mid x y = requestsAt us x y) ->
  (forall x y, listsAt mid x y = true -> listsAt us x y = true \/ (x = r /\ y = u)) ->
  consistent (<[ u := reqUser' ]> mid).
Proof.
  intros H Hu Hrm Hid Hreq Hlists Kmid Rmid Lmid.
  assert (Hcount : forall y, requestCount y (connectionRequests reqUser)
                     = (requestCount y rest + (if String.eqb r y then 1 else 0))%nat)
    by (intros y; now apply removeFirstFrom_count).
  assert (Hur : requestCount r rest = 0%nat).
  { pose proof (requests_unique _ H u r) as U.
    rewrite (requestsAt_of _ _ _ _ Hu), (Hcount r), String.eqb_refl in U. lia. }
  assert (Hpos : (0 < requestsAt us u r)%nat).
  { rewrite (requestsAt_of _ _ _ _ Hu), (Hcount r), String.eqb_refl. lia. }
  assert (Hnew_ur : requestsAt (<[ u := reqUser' ]> mid) u r = 0%nat).
  { rewrite requestsAt_insert. case_decide; [now rewrite Hreq|congruence]. }
  assert (Hnew_ru : requestsAt (<[ u := reqUser' ]> mid) r u = 0%nat).
  { rewrite requestsAt_insert. case_decide as E.
    - subst r. now rewrite Hreq.
    - rewrite Rmid. apply (not_both_ways _ H); [congruence|exact Hpos]. }
  apply (consistent_shrink us _ H).
  - apply keys_insert; assumption.
  - intros x y. rewrite requestsAt_insert. case_decide as E.
    + subst x. rewrite Hreq, (requestsAt_of _ _ _ _ Hu), (Hcount y). lia.
    + rewrite Rmid. lia.
  - intros x y _ Hl. rewrite listsAt_insert in Hl. case_decide as E.
    + subst x. apply Hlists in Hl as [Hl| ->].
      * left. now rewrite (listsAt_of _ _ _ _ Hu).
      * right. now split.
    + apply Lmid in Hl as [Hl|[-> ->]]; [now left|].
      right. now split.
Qed.

Lemma acceptedSender_consistent (us : gmap ObjectId User) (u : ObjectId) (requestUser : User) :
  consistent us ->
  us !! _id requestUser = Some requestUser ->
  _id requestUser = u ->
  consistent (<[ u := acceptedSender requestUser u ]> us).
Proof.
  intros H Hr Hid. pose proof (keys_ok _ H) as K.
  apply (consistent_shrink us _ H).
  - apply keys_insert; [exact K|]. now rewrite acceptedSender_id.
  - intros x y. rewrite requestsAt_insert. case_decide; [|lia].
    subst x. rewrite acceptedSender_requests, <- Hid, (requestsAt_of _ _ _ _ Hr). lia.
  - intros x y Hxy. rewrite listsAt_insert. case_decide; [|now left].
    subst x. intros Hl. apply acceptedSender_lists in Hl as [Hl| ->]; [|congruence].
    left. now rewrite <- Hid, (listsAt_of _ _ _ _ Hr).
Qed.

Lemma answer_consistent (db : Db) (u r : ObjectId) (action : string) (reqUser : User) :
  consistent (users db) ->
  users db !! u = Some reqUser ->
  castObjectId r = r ->
  consistent (users (snd (run (handleConnectionRequest isValidObjectId castObjectId
                                 notificationSchemaValid newObjectId reqUser r action)
                            db))).
Proof.
  intros H Hu Hc. pose proof (keys_ok _ H) as K. pose proof (K _ _ Hu) as Hid.
  unfold run, handleConnectionRequest.
  destruct (negb (Js.includes ["accept"; "reject"] action)); [exact H|].
  destruct (removeFirstFrom r (connectionRequests reqUser)) as [rest|] eqn:Hrm;
    [|now destruct (isConnectedTo reqUser r)].
  rewrite bind_apply.
  destruct (String.eqb action "accept").
  - rewrite bind_findById. destruct (isValidObjectId r); [|exact H]. rewrite Hc.
    destruct (users db !! r) as [requestUser|] eqn:Hr.
    + pose proof (K _ _ Hr) as Hidr.
      rewrite bind_apply, bind_saveUser. unfold ret at 1.
      rewrite bind_notify.
      destruct (String.eqb (_id requestUser) (_id reqUser)
                && senderModified requestUser (_id reqUser)) eqn:Estale.
      * apply andb_true_iff in Estale as [Ealias _]. apply String.eqb_eq in Ealias.
        cbn [serverError respond snd]. rewrite users_notified.
        cbn [users set_users log]. rewrite acceptedSender_id, <- Ealias.
        rewrite <- Hidr in Hr.
        now apply (acceptedSender_consistent (users db) _ requestUser H Hr).
      * unfold ret. rewrite bind_saveUser, respond_apply.
        cbn [snd users set_users log]. rewrite users_notified.
        cbn [users set_users log].
        rewrite acceptedReceiver_id, acceptedSender_id, Hid, Hidr.
        apply (consistent_answered (users db) _ u r reqUser _ rest H Hu Hrm).
        -- now rewrite acceptedReceiver_id.
        -- apply acceptedReceiver_requests.
        -- intros y. now apply acceptedReceiver_lists.
        -- apply keys_insert; [exact K|]. rewrite acceptedSender_id. now apply K.
        -- intros x y. rewrite requestsAt_insert. case_decide; [|reflexivity].
           subst x. now rewrite acceptedSender_requests, (requestsAt_of _ _ _ _ Hr).
        -- intros x y. rewrite listsAt_insert. case_decide; [|now left].
           subst x. intros Hl. apply acceptedSender_lists in Hl as [Hl| ->].
           ++ left. now rewrite (listsAt_of _ _ _ _ Hr).
           ++ right. now split.
    + unfold ret at 1. rewrite bind_ret, bind_notify.
      unfold ret. rewrite bind_saveUser, respond_apply.
      cbn [snd users set_users log]. rewrite users_notified.
      cbn [users set_users log].
      rewrite acceptedReceiver_id, Hid.
      apply (consistent_answered (users db) _ u r reqUser _ rest H Hu Hrm).
      * now rewrite acceptedReceiver_id.
      * apply acceptedReceiver_requests.
      * intros y. now apply acceptedReceiver_lists.
      * exact K.
      * reflexivity.
      * intros x y. now left.
  - unfold ret. rewrite bind_saveUser, respond_apply.
    cbn [snd users set_users log _id set_connectionRequests]. rewrite Hid.
    apply (consistent_answered (users db) _ u r reqUser _ rest H Hu Hrm).
    + exact Hid.
    + reflexivity.
    + intros y. now left.
    + exact K.
    + reflexivity.
    + intros x y. now left.
Qed.

(** A store in which connection lists were filtered, and nothing else
    was changed, is consistent when the store before was. *)
Lemma consistent_filtered (us us' : gmap ObjectId User) :
  consistent us ->
  (forall k v', us' !! k = Some v' ->
     exists v, us !! k = Some v /\ _id v' = _id v
               /\ connectionRequests v' = connectionRequests v
               /\ (forall y, isConnectedTo v' y = true -> isConnectedTo v y = true)) ->
  consistent us'.
Proof.
  intros H Hf. pose proof (keys_ok _ H) as K.
  apply (consistent_shrink us _ H).
  - intros k v' Hk. destruct (Hf _ _ Hk) as (v & Hv & Hid & _). rewrite Hid. now apply K.
  - intros x y. unfold requestsAt.
    destruct (us' !! x) as [v'|] eqn:Hx; [|lia].
    destruct (Hf _ _ Hx) as (v & -> & _ & -> & _). lia.
  - intros x y _. unfold listsAt.
    destruct (us' !! x) as [v'|] eqn:Hx; [|discriminate].
    destruct (Hf _ _ Hx) as (v & -> & _ & _ & Hl). intros Hc. left. now apply Hl.
Qed.

Lemma filtered_insert (us mid : gmap ObjectId User) (k : ObjectId) (v v' : User) (x : ObjectId) :
  us !! k = Some v ->
  v' = set_connections v (List.filter (fun id => negb (String.eqb id x)) (connections v)) ->
  (forall j w', mid !! j = Some w' ->
     exists w, us !! j = Some w /\ _id w' = _id w
               /\ connectionRequests w' = connectionRequests w
               /\ (forall y, isConnectedTo w' y = true -> isConnectedTo w y = true)) ->
  forall j w', <[ k := v' ]> mid !! j = Some w' ->
     exists w, us !! j = Some w /\ _id w' = _id w
               /\ connectionRequests w' = connectionRequests w
               /\ (forall y, isConnectedTo w' y = true -> isConnectedTo w y = true).
Proof.
  intros Hk -> Hmid j w'. rewrite lookup_insert. case_decide as E; [|apply Hmid].
  subst j. intros [= <-]. exists v. split; [exact Hk|]. split; [reflexivity|].
  split; [reflexivity|]. intros y. apply isConnectedTo_filter.
Qed.

Lemma filtered_refl (us : gmap ObjectId User) :
  forall j w', us !! j = Some w' ->
     exists w, us !! j = Some w /\ _id w' = _id w
               /\ connectionRequests w' = connectionRequests w
               /\ (forall y, isConnectedTo w' y = true -> isConnectedTo w y = true).
Proof. intros j w' Hj. exists w'. auto. Qed.

Lemma remove_consistent (db : Db) (u t : ObjectId) (reqUser : User) :
  consistent (users db) ->
  users db !! u = Some reqUser ->
  castObjectId t = t ->
  consistent (users (snd (run (removeConnection isValidObjectId castObjectId reqUser t) db))).
Proof.
  intros H Hu Hc. pose proof (keys_ok _ H) as K. pose proof (K _ _ Hu) as Hid.
  unfold run, removeConnection.
  rewrite bind_findById. destruct (isValidObjectId t); [|exact H].
  rewrite Hc.
  destruct (users db !! t) as [targetUser|] eqn:Ht.
  - pose proof (K _ _ Ht) as Hidt. rewrite bind_apply, bind_saveUser.
    cbn [_id set_connections]. rewrite Hidt, Hid.
    destruct (String.eqb t u) eqn:Ealias.
    + destruct (isConnectedTo reqUser t).
      * destruct (isConnectedTo targetUser u).
        -- cbn [serverError respond snd users set_users log].
           apply (consistent_filtered (users db) _ H).
           eapply filtered_insert; [exact Ht|reflexivity|apply filtered_refl].
        -- unfold saveUser, respond.
           cbn [snd users set_users log _id set_connections]. rewrite Hid.
           apply (consistent_filtered (users db) _ H).
           eapply filtered_insert; [exact Hu|reflexivity|].
           eapply filtered_insert; [exact Ht|reflexivity|apply filtered_refl].
      * unfold ret, respond. cbn [snd users set_users log].
        apply (consistent_filtered (users db) _ H).
        eapply filtered_insert; [exact Ht|reflexivity|apply filtered_refl].
    + unfold saveUser, respond.
      cbn [snd users set_users log _id set_connections]. rewrite Hid.
      apply (consistent_filtered (users db) _ H).
      eapply filtered_insert; [exact Hu|reflexivity|].
      eapply filtered_insert; [exact Ht|reflexivity|apply filtered_refl].
  - rewrite bind_saveUser, respond_apply.
    cbn [snd users set_users log _id set_connections]. rewrite Hid.
    apply (consistent_filtered (users db) _ H).
    eapply filtered_insert; [exact Hu|reflexivity|apply filtered_refl].
Qed.

Lemma step_consistent (db : Db) (op : ConnectionOp) :
  consistent (users db) -> asStored castObjectId op ->
  consistent (users (step isValidObjectId castObjectId notificationSchemaValid
                       newObjectId db op)).
Proof.
  intros H Hc. destruct op as [u t now|u r|u r|u t]; unfold asStored in Hc; cbn in Hc.
  - now apply send_consistent.
  - unfold step, authenticate. cbn [caller handlerOf].
    destruct (users db !! u) eqn:Hu; [|exact H]. now apply (answer_consistent db u).
  - unfold step, authenticate. cbn [caller handlerOf].
    destruct (users db !! u) eqn:Hu; [|exact H]. now apply (answer_consistent db u).
  - unfold step, authenticate. cbn [caller handlerOf].
    destruct (users db !! u) eqn:Hu; [|exact H]. now apply (remove_consistent db u).
Qed.

Lemma runOps_consistent (ops : list ConnectionOp) (db : Db) :
  consistent (users db) -> Forall (asStored castObjectId) ops ->
  consistent (users (runOps isValidObjectId castObjectId notificationSchemaValid
                       newObjectId db ops)).
Proof.
  revert db. induction ops as [|op ops IH]; intros db H Hall; [exact H|].
  inversion Hall as [|? ? Hop Hops]; subst.
  cbn. apply IH; [|exact Hops]. now apply step_consistent.
Qed.

End Steps.

Lemma receivedFrom_count (db : Db) (a b : ObjectId) :
  receivedFrom db a b = (0 <? requestsAt (users db) a b)%nat.
Proof.
  unfold receivedFrom, onUser, requestsAt.
  destruct (users db !! a); [apply hasReceivedRequestFrom_count|reflexivity].
Qed.

Lemma mutuallyConnected_lists (db : Db) (a b : ObjectId) :
  mutuallyConnected db a b = listsAt (users db) a b && listsAt (users db) b a.
Proof. reflexivity. Qed.

(** In a consistent store a pair of distinct users is in at most one of
    the states, as the receiving side shows them. *)
Lemma consistent_one_state (db : Db) (a b : ObjectId) :
  consistent (users db) -> a <> b ->
  (length (receivedStates db a b) <= 1)%nat.
Proof.
  intros H Hne. unfold receivedStates.
  rewrite !receivedFrom_count, mutuallyConnected_lists.
  destruct (0 <? requestsAt (users db) b a)%nat eqn:Eba.
  - apply Nat.ltb_lt in Eba.
    rewrite (not_both_ways _ H b a) by (congruence || exact Eba).
    rewrite andb_comm, (connected_no_request _ H b a) by (congruence || exact Eba).
    cbn. lia.
  - destruct (0 <? requestsAt (users db) a b)%nat eqn:Eab.
    + apply Nat.ltb_lt in Eab.
      rewrite (connected_no_request _ H a b Hne Eab). cbn. lia.
    + destruct (_ && _); cbn; lia.
Qed.

(** A store in which every document sits under its own id and holds no
    request is consistent. *)
Lemma consistent_without_requests (us : gmap ObjectId User) :
  (forall k u, us !! k = Some u -> _id u = k /\ connectionRequests u = []) ->
  consistent us.
Proof.
  intros H.
  assert (Z : forall a b, requestsAt us a b = 0%nat).
  { intros a b. unfold requestsAt. destruct (us !! a) as [u|] eqn:E; [|reflexivity].
    now rewrite (proj2 (H _ _ E)). }
  split.
  - intros k u Hk. now apply H.
  - intros a b. rewrite Z. lia.
  - intros a b _ _. apply Z.
  - intros a b _. rewrite Z. lia.
Qed.

(** X24: Whatever connection operations run on a consistent store, in
    whatever order, with ids spelled as the store spells them: every
    pair of distinct users is afterwards in at most one of the states
    mutually connected, a-to-b pending and b-to-a pending, as long as a
    pending request is read off the receiver's [connectionRequests]. *)
Theorem receiving_side_one_state
    (isValidObjectId : string -> bool) (castObjectId : string -> ObjectId)
    (notificationSchemaValid : NotificationModel.Notification -> bool)
    (newObjectId : Db -> ObjectId)
    (db : Db) (ops : list ConnectionOp) (a b : ObjectId) :
  consistent (users db) -> Forall (asStored castObjectId) ops -> a <> b ->
  (length (receivedStates
             (runOps isValidObjectId castObjectId notificationSchemaValid
                newObjectId db ops) a b) <= 1)%nat.
Proof.
  intros H Hall Hne. apply consistent_one_state; [|exact Hne].
  now apply runOps_consistent.
Qed.

Lemma freshDb_consistent : consistent (users Samples.freshDb).
Proof.
  apply consistent_without_requests. intros k u. cbn [users Samples.freshDb].
  rewrite !lookup_insert, lookup_empty.
  repeat case_decide; intros [= <-]; subst; now split.
Qed.

End InvariantFacts.

(** ** Facts about the notification and message routes *)
Module RouteFacts.

Import UserModel Server HandlerFacts.

Section Facts.

Variable isValidObjectId : string -> bool.
Variable castObjectId : string -> ObjectId.
Variable notificationSchemaValid : NotificationModel.Notification -> bool.
Variable newObjectId : Db -> ObjectId.

(** *** POST /api/notifications *)

(** A title or message is missing when it is absent or consists of
    white space only. *)
Lemma missingText_blank (o : option string) :
  missingText o = true
  <-> match o with
      | None => True
      | Some s => Js.allWhiteSpace s = true
      end.
Proof.
  destruct o as [s|]; cbn; [|tauto].
  rewrite orb_true_iff, !negb_true_iff. unfold Js.truthy.
  rewrite !negb_false_iff, !String.eqb_eq, JsFacts.trim_empty.
  split; [|tauto]. intros [->|H]; [reflexivity|exact H].
Qed.



(** C5, failing input: POST_SHARED is in the enumerated set of the spec
    and is the type the post routes create, yet the handler answers it
    with 400 "Valid notification type required" and stores nothing: its
    list holds POST_SHARE in its place. *)
Theorem createNotification_refuses_POST_SHARED
    (db : Db) (reqUser : User) (newId : ObjectId) :
  Js.includes NotificationModel.specTypes "POST_SHARED" = true
  /\ Js.includes validTypes "POST_SHARED" = false
  /\ Js.includes validTypes "POST_SHARE" = true
  /\ run (createNotification notificationSchemaValid reqUser newId Samples.sharedBody) db
     = (mkResponse 400 (Text "Valid notification type required"), db).
Proof. repeat split. Qed.

(** Every other type of the spec's set is in the handler's list, and the
    handler's list holds nothing else but POST_SHARE. *)
Lemma validTypes_against_spec (t : string) :
  t <> "POST_SHARED" -> t <> "POST_SHARE" ->
  Js.includes validTypes t = Js.includes NotificationModel.specTypes t.
Proof.
  intros H1 H2. apply String.eqb_neq in H1, H2.
  unfold Js.includes, validTypes, NotificationModel.specTypes. cbn [existsb].
  rewrite H1, H2.
  repeat match goal with
         | |- context [String.eqb t ?x] => destruct (String.eqb t x)
         end; reflexivity.
Qed.

(** Against the notification schema as the spec describes it, the type
    that passes the handler's check fails on save: the answer is a 500
    and nothing is stored. *)
Example createNotification_POST_SHARE (db : Db) (reqUser : User) (newId : ObjectId) :
  run (createNotification NotificationModel.specSchemaValid reqUser newId
         Samples.shareBody) db
  = (mkResponse 500 (Text "Server error"), db).
Proof. reflexivity. Qed.

(** *** POST /api/messages *)

(** Content longer than 2000 characters is answered 400 before any
    query, and nothing is stored. *)
Lemma sendMessage_content_too_long
    (db : Db) (reqUser : User) (newId : ObjectId) (now : Date) (b : MessageBody)
    (c : string) :
  Js.truthyOpt (receiverId b) = true ->
  content b = Some c ->
  (2000 < String.length c)%nat ->
  run (sendMessage isValidObjectId castObjectId notificationSchemaValid newObjectId
         reqUser newId now b) db
  = (mkResponse 400 (Text "Message content must be between 1 and 2000 characters"), db).
Proof.
  intros Hr Hc Hlen. unfold run, sendMessage. rewrite Hr, Hc. cbn [negb].
  unfold contentRejected. apply Nat.ltb_lt in Hlen. rewrite Hlen.
  now rewrite !orb_true_r.
Qed.

(** Whenever the handler stores a message, its content is between 1 and
    2000 characters long and its type is one of the four. *)
Lemma saveMessage_content (replyTo : option string) (m : MessageModel.Message)
    (db db' : Db) (s : Step unit) :
  saveMessage isValidObjectId replyTo m db = (s, db') ->
  messages db' <> messages db ->
  (1 <= String.length (MessageModel.content m) <= 2000)%nat
  /\ Js.includes MessageModel.messageTypes (MessageModel.messageType m) = true.
Proof.
  unfold saveMessage.
  destruct (MessageModel.validate m && _) eqn:E; intros [= <- <-] Hchg.
  - apply andb_true_iff in E as [E _]. unfold MessageModel.validate in E.
    repeat (apply andb_true_iff in E as [E ?]).
    split; [split|assumption].
    + unfold Js.truthy in E. destruct (MessageModel.content m); [discriminate|].
      cbn. lia.
    + match goal with H : (_ <=? _)%nat = true |- _ => now apply Nat.leb_le in H end.
  - now contradict Hchg.
Qed.

(** On a document without [mediaUrl] the validation comes down to the
    checks of [content] and [messageType]. *)
Lemma validate_without_mediaUrl (m : MessageModel.Message) :
  MessageModel.mediaUrl m = None ->
  MessageModel.validate m
  = Js.truthy (MessageModel.content m)
    && (String.length (MessageModel.content m) <=? 2000)%nat
    && Js.includes MessageModel.messageTypes (MessageModel.messageType m).
Proof.
  intros H. unfold MessageModel.validate. rewrite H. cbn. apply andb_true_r.
Qed.

(** C7, failing input: an image message that names no media URL.  The
    route tests the URL only when one is given, and Mongoose does not
    call the validator of [mediaUrl] on an undefined value, so the
    message is stored and answered 201, although the declared validator
    rejects exactly this document.  With an empty string as URL the
    validator does run, the save throws, and the answer is a 500. *)
Theorem sendMessage_stores_image_without_mediaUrl :
  run (sendMessage Samples.isHex24 Samples.castHex NotificationModel.specSchemaValid
         Samples.nextId (Samples.docOf Samples.connected Samples.alice)
         "64b0000000000000000000e2" 50%N Samples.imageWithoutUrl) Samples.connected
  = (mkResponse 201 (MessageDoc "Message sent successfully" Samples.imageMessage),
     notified NotificationModel.specSchemaValid Samples.nextId Samples.bob
       Samples.alice "MESSAGE" "New message" "photo"
       (Js.jsonObject "senderId" Samples.alice)
       (log (SaveMessage "64b0000000000000000000e2")
          (set_messages (log (FindUser Samples.bob) Samples.connected)
             [Samples.imageMessage])))
  /\ MessageModel.mediaUrlValidator Samples.imageMessage
       (MessageModel.mediaUrl Samples.imageMessage) = false
  /\ fst (run (sendMessage Samples.isHex24 Samples.castHex
                 NotificationModel.specSchemaValid Samples.nextId
                 (Samples.docOf Samples.connected Samples.alice)
                 "64b0000000000000000000e2" 50%N Samples.imageWithEmptyUrl)
            Samples.connected)
     = mkResponse 500 (Text "Server error").
Proof. repeat split; vm_compute; reflexivity. Qed.

End Facts.

(** The scenario of the spec: a message of 2001 characters is answered
    400 and nothing is stored. *)
Example sendMessage_2001 :
  run (sendMessage Samples.isHex24 Samples.castHex NotificationModel.specSchemaValid
         Samples.nextId (Samples.docOf Samples.connected Samples.alice)
         "64b0000000000000000000e3" 60%N
         (mkMessageBody (Some Samples.bob) (Some Samples.longText) None None None))
      Samples.connected
  = (mkResponse 400 (Text "Message content must be between 1 and 2000 characters"),
     Samples.connected).
Proof.
  apply (sendMessage_content_too_long _ _ _ _ _ _ _ _ _ Samples.longText);
    try reflexivity.
  vm_compute. lia.
Qed.

End RouteFacts.

(** ** Facts about the client notification slice *)
Module SliceFacts.

Import NotificationSlice.

Lemma decrement_nonneg (c : Z) : (0 <= decrement c)%Z.
Proof. unfold decrement. lia. Qed.

(** [findIndex] points at the notification that [find] returns. *)
Lemma findIndex_find (notificationId : string) (l : list Notification) :
  match findIndex notificationId l with
  | Some index => l !! index = List.find (hasId notificationId) l
                  /\ List.find (hasId notificationId) l <> None
  | None => List.find (hasId notificationId) l = None
  end.
Proof.
  induction l as [|n l IH]; cbn; [reflexivity|].
  destruct (hasId notificationId n); cbn; [now split|].
  destruct (findIndex notificationId l); cbn; exact IH.
Qed.

(** The counter after each of the counting actions. *)
Lemma unreadCount_step (s : State) (a : Action) :
  countingAction a = true ->
  unreadCount (reducer s a)
  = match a with
    | addNotification _ => (unreadCount s + 1)%Z
    | markAllNotificationsAsReadLocal _ => 0%Z
    | _ => if decrements s a then decrement (unreadCount s) else unreadCount s
    end.
Proof.
  destruct a; try discriminate; intros _; cbn [reducer decrements]; try reflexivity.
  - unfold markRead.
    destruct (List.find (hasId notificationId) (notifications s)) as [n|]; [|reflexivity].
    now destruct (isRead n).
  - unfold remove.
    destruct (List.find (hasId notificationId) (notifications s)) as [n|]; [|reflexivity].
    now destruct (isRead n).
  - pose proof (findIndex_find (_id updatedNotification) (notifications s)) as H.
    destruct (findIndex (_id updatedNotification) (notifications s)) as [index|].
    + destruct H as [-> H].
      destruct (List.find (hasId (_id updatedNotification)) (notifications s)) as [n|];
        [|congruence].
      now destruct (negb (isRead n) && isRead updatedNotification).
    + now rewrite H.
  - unfold remove.
    destruct (List.find (hasId notificationId) (notifications s)) as [n|]; [|reflexivity].
    now destruct (isRead n).
Qed.

(** C10: from a state whose counter is not negative, each of the six
    counting actions leads to a state whose counter is not negative.
    The counter goes down by one, stopping at zero, exactly when the
    notification the action names is in the list and unread (and, for a
    fulfilled read, the updated notification is read); otherwise it
    stays, goes up by one for a new notification, or is reset to zero by
    mark-all. *)
Theorem unreadCount_never_negative (s : State) (a : Action) :
  countingAction a = true ->
  (0 <= unreadCount s)%Z ->
  (0 <= unreadCount (reducer s a))%Z
  /\ (decrements s a = true ->
      unreadCount (reducer s a) = Z.max 0 (unreadCount s - 1))
  /\ (decrements s a = false ->
      unreadCount (reducer s a) = unreadCount s
      \/ (exists n, a = addNotification n)
         /\ unreadCount (reducer s a) = (unreadCount s + 1)%Z
      \/ (exists now, a = markAllNotificationsAsReadLocal now)
         /\ unreadCount (reducer s a) = 0%Z).
Proof.
  intros Ha Hc. rewrite (unreadCount_step s a Ha).
  destruct a; try discriminate; cbn [decrements];
    try (split; [lia|]; split; [discriminate|]; intros _; right; eauto);
    (split; [case_match; [apply decrement_nonneg|exact Hc]|];
     split; intros ->; [reflexivity|now left]).
Qed.

(** Removing the unread notification from a state whose counter is 0. *)
Lemma unreadCount_never_negative_witness :
  countingAction (removeNotification "n1") = true
  /\ (0 <= unreadCount Samples.unreadAtZero)%Z
  /\ decrements Samples.unreadAtZero (removeNotification "n1") = true
  /\ (0 <= unreadCount (reducer Samples.unreadAtZero (removeNotification "n1")))%Z.
Proof.
  assert (Ha : countingAction (removeNotification "n1") = true) by reflexivity.
  assert (Hc : (0 <= unreadCount Samples.unreadAtZero)%Z) by (cbn; lia).
  split; [exact Ha|]. split; [exact Hc|]. split; [reflexivity|].
  exact (proj1 (unreadCount_never_negative Samples.unreadAtZero
                  (removeNotification "n1") Ha Hc)).
Defined.

(** The clamp at work: removing the unread notification of
    [unreadAtZero] leaves the counter at 0. *)
Example remove_clamps_at_zero :
  unreadCount (reducer Samples.unreadAtZero (removeNotification "n1")) = 0%Z.
Proof. reflexivity. Qed.

End SliceFacts.

(** ** More facts about the message model *)
Module MessageModelFacts.

Import MessageModel.

(** *** The conversation id *)

Lemma sortedIds_swap (a b : string) : sortedIds a b = sortedIds b a.
Proof.
  unfold sortedIds.
  destruct (String.leb a b) eqn:Eab, (String.leb b a) eqn:Eba; try reflexivity.
  - now rewrite (String.leb_antisym a b Eab Eba).
  - destruct (String.leb_total a b); congruence.
Qed.

Lemma sortedIds_cases (a b : string) :
  sortedIds a b = (a, b) \/ sortedIds a b = (b, a).
Proof. unfold sortedIds. destruct (String.leb a b); auto. Qed.

Lemma hyphen_split (x1 x2 y1 y2 : string) :
  hyphenFree x1 = true -> hyphenFree x2 = true ->
  (x1 ++ "-" ++ y1)%string = (x2 ++ "-" ++ y2)%string -> x1 = x2 /\ y1 = y2.
Proof.
  revert x2. induction x1 as [|c x1 IH]; intros [|d x2] H1 H2 E; cbn in *.
  - injection E as E. now split.
  - injection E as E _. subst d. now rewrite Ascii.eqb_refl in H2.
  - injection E as E _. subst c. now rewrite Ascii.eqb_refl in H1.
  - injection E as Ec E. subst d. apply andb_true_iff in H1 as [_ H1], H2 as [_ H2].
    destruct (IH x2 H1 H2 E) as [-> ->]. now split.
Qed.

(** X1: Two messages carry the same conversation id exactly when they are
    between the same two users, in either direction; the ids are taken
    to hold no hyphen, as ObjectIds do. *)
Theorem conversationId_same_pair (m1 m2 : Message) :
  hyphenFree (senderId m1) = true -> hyphenFree (receiverId m1) = true ->
  hyphenFree (senderId m2) = true -> hyphenFree (receiverId m2) = true ->
  (conversationId m1 = conversationId m2
   <-> (senderId m1 = senderId m2 /\ receiverId m1 = receiverId m2)
       \/ (senderId m1 = receiverId m2 /\ receiverId m1 = senderId m2)).
Proof.
  intros Hs1 Hr1 Hs2 Hr2. unfold conversationId. split.
  - intros E.
    assert (sortedIds (senderId m1) (receiverId m1)
            = sortedIds (senderId m2) (receiverId m2)) as Hp.
    { destruct (sortedIds_cases (senderId m1) (receiverId m1)) as [P1|P1],
               (sortedIds_cases (senderId m2) (receiverId m2)) as [P2|P2];
        rewrite P1, P2 in *; cbn [fst snd] in E;
        apply hyphen_split in E as [-> ->]; auto. }
    destruct (sortedIds_cases (senderId m1) (receiverId m1)) as [P1|P1],
             (sortedIds_cases (senderId m2) (receiverId m2)) as [P2|P2];
      rewrite P1, P2 in Hp; injection Hp as -> ->; auto.
  - intros [[-> ->]|[-> ->]]; [reflexivity|].
    now rewrite sortedIds_swap.
Qed.

(** alice's message to bob and bob's answer share their conversation id. *)
Lemma conversationId_same_pair_witness :
  hyphenFree Samples.alice = true /\ hyphenFree Samples.bob = true
  /\ conversationId Samples.hello = conversationId Samples.hiBack.
Proof.
  assert (Ha : hyphenFree Samples.alice = true) by reflexivity.
  assert (Hb : hyphenFree Samples.bob = true) by reflexivity.
  split; [exact Ha|]. split; [exact Hb|].
  apply (proj2 (conversationId_same_pair Samples.hello Samples.hiBack Ha Hb Hb Ha)).
  right. split; reflexivity.
Defined.

(** *** The order of a conversation *)

Lemma insertDesc_In (m x : Message) (l : list Message) :
  In x (insertDesc m l) -> x = m \/ In x l.
Proof.
  intros H. apply (Permutation_in _ (MessageFacts.insertDesc_perm m l)) in H.
  destruct H; auto.
Qed.

Lemma insertDesc_newestFirst (m : Message) (l : list Message) :
  newestFirst l -> newestFirst (insertDesc m l).
Proof.
  unfold newestFirst. induction 1 as [|x xs Hs IH Hx]; cbn.
  - constructor; constructor.
  - destruct (createdAt x <=? createdAt m)%N eqn:E.
    + apply N.leb_le in E. constructor; [now constructor|].
      constructor; [exact E|].
      apply List.Forall_forall. intros y Hy.
      pose proof (proj1 (List.Forall_forall _ _) Hx y Hy) as Hyx. cbn in Hyx. lia.
    + apply N.leb_gt in E. constructor; [exact IH|].
      apply List.Forall_forall. intros y Hy. apply insertDesc_In in Hy as [->|Hy]; [lia|].
      now apply (proj1 (List.Forall_forall _ _) Hx).
Qed.

Lemma sortNewestFirst_newestFirst (l : list Message) : newestFirst (sortNewestFirst l).
Proof.
  induction l as [|x xs IH]; cbn; [constructor|].
  now apply insertDesc_newestFirst.
Qed.

Lemma newestFirst_skipn (n : nat) (l : list Message) :
  newestFirst l -> newestFirst (skipn n l).
Proof.
  revert l. induction n as [|n IH]; intros l H; [exact H|].
  destruct l as [|x xs]; [exact H|]. cbn. apply IH.
  now apply StronglySorted_inv in H.
Qed.

Lemma newestFirst_firstn (n : nat) (l : list Message) :
  newestFirst l -> newestFirst (firstn n l).
Proof.
  revert l. induction n as [|n IH]; intros l H; [constructor|].
  destruct l as [|x xs]; [constructor|]. cbn.
  apply StronglySorted_inv in H as [Hs Hx]. constructor; [now apply IH|].
  apply List.Forall_forall. intros y Hy.
  apply (proj1 (List.Forall_forall _ _) Hx).
  rewrite <- (firstn_skipn n xs). apply in_or_app. now left.
Qed.

(** X2: Every page of a conversation comes newest first. *)
Theorem getConversation_newest_first
    (coll : list Message) (u1 u2 : ObjectId) (limit skip : nat) :
  newestFirst (getConversation coll u1 u2 limit skip).
Proof.
  unfold getConversation, limitTo.
  pose proof (newestFirst_skipn skip _
                (sortNewestFirst_newestFirst
                   (List.filter (conversationQuery u1 u2) coll))) as H.
  destruct (limit =? 0)%nat; [exact H|now apply newestFirst_firstn].
Qed.

(** *** Reactions: adding and taking back *)

(** X3: A user who had not reacted, reacts and takes the reaction back: the
    reactions of the message are what they were, and so is every other
    declared field.  Each of the two methods saves the document, so its
    [updatedAt] and [__v], which are no fields of [Message], are not
    what they were: of them the statement says nothing. *)
Theorem removeReaction_addReaction
    (m : Message) (u : ObjectId) (e : string) (now : Date) :
  List.find (byUser u) (reactions m) = None ->
  reactions (removeReaction u (addReaction u e now m)) = reactions m
  /\ sameExceptReactions m (removeReaction u (addReaction u e now m)).
Proof.
  intros H.
  assert (E : removeReaction u (addReaction u e now m) = m).
  { unfold addReaction. rewrite H. unfold removeReaction. cbn.
    rewrite List.filter_app. cbn [List.filter].
    assert (byUser u (mkReaction u e now) = true) as ->
      by (unfold byUser; cbn; apply String.eqb_refl).
    cbn [negb]. rewrite app_nil_r.
    assert (List.filter (fun r => negb (byUser u r)) (reactions m) = reactions m) as ->.
    { induction (reactions m) as [|r rs IH]; cbn in *; [reflexivity|].
      destruct (byUser u r); [discriminate|]. cbn. f_equal. now apply IH. }
    now destruct m. }
  rewrite E. split; [reflexivity|]. unfold sameExceptReactions. now repeat split.
Qed.

Lemma removeReaction_addReaction_witness :
  List.find (byUser Samples.carol) (reactions Samples.helloWithReactions) = None
  /\ reactions (removeReaction Samples.carol
                  (addReaction Samples.carol "wave" 1300%N Samples.helloWithReactions))
     = reactions Samples.helloWithReactions.
Proof.
  assert (H : List.find (byUser Samples.carol) (reactions Samples.helloWithReactions) = None)
    by reflexivity.
  split; [exact H|].
  exact (proj1 (removeReaction_addReaction Samples.helloWithReactions Samples.carol
                  "wave" 1300%N H)).
Defined.

End MessageModelFacts.

(** ** Facts about the routes on stored messages *)
Module MessageRouteFacts.

Import MessageModel MessageRoutes.

Lemma findById_some (coll : list Message) (id : string) (m : Message) :
  findById coll id = Some m -> _id m = id /\ In m coll.
Proof.
  unfold findById. intros H. apply find_some in H as [Hin Hid].
  apply String.eqb_eq in Hid. now split.
Qed.

(** A save changes the stored document it was loaded from and no other. *)
Lemma save_lookup (coll : list Message) (x message : Message) (id : string)
    (i : nat) (m : Message) :
  findById coll id = Some message -> _id x = id ->
  coll !! i = Some m ->
  save x coll !! i = Some m \/ (m = message /\ save x coll !! i = Some x).
Proof.
  intros Hf Hx. subst id. revert i. unfold findById in Hf.
  induction coll as [|y ys IH]; intros i Hi; [discriminate|].
  cbn in Hf |- *. destruct (String.eqb (_id y) (_id x)) eqn:E.
  - injection Hf as <-. destruct i as [|i]; cbn in *.
    + injection Hi as <-. right. now split.
    + now left.
  - destruct i as [|i]; cbn in *; [now left|]. now apply IH.
Qed.

Lemma map_lookup {A B} (f : A -> B) (l : list A) (i : nat) :
  map f l !! i = option_map f (l !! i).
Proof.
  revert i. induction l as [|x xs IH]; intros [|i]; cbn; auto.
Qed.

Lemma sameExceptReactions_refl (m : Message) : sameExceptReactions m m.
Proof. unfold sameExceptReactions. repeat split. Qed.

Lemma sameExceptReactions_trans (a b c : Message) :
  sameExceptReactions a b -> sameExceptReactions b c -> sameExceptReactions a c.
Proof.
  unfold sameExceptReactions. intros H1 H2.
  repeat match goal with H : _ /\ _ |- _ => destruct H end.
  repeat split; congruence.
Qed.

Lemma thirdParty_same (m m' : Message) (u : UserModel.User) :
  sameExceptReactions m m' -> thirdParty m u -> thirdParty m' u.
Proof.
  unfold sameExceptReactions, thirdParty. intros (_ & Hs & Hr & _) [H1 H2].
  rewrite Hs, Hr. now split.
Qed.

Section Facts.

Variable isValidObjectId : string -> bool.
Variable castObjectId : string -> ObjectId.
Variable queryWindow : Z -> Z -> option (nat * nat).

Lemma unreadFrom_receiver (u x : ObjectId) (m : Message) :
  unreadFrom u x m = true -> senderId m = x /\ receiverId m = u.
Proof.
  unfold unreadFrom. rewrite !andb_true_iff, !String.eqb_eq. tauto.
Qed.

Lemma call_third_party (reqUser : UserModel.User) (c : Call) (coll : list Message)
    (i : nat) (m : Message) :
  coll !! i = Some m -> thirdParty m reqUser ->
  castObjectId (UserModel._id reqUser) = UserModel._id reqUser ->
  exists m', snd (call isValidObjectId castObjectId queryWindow reqUser c coll) !! i
             = Some m'
            /\ sameExceptReactions m m'.
Proof.
  intros Hi [Hs Hr] Hcan.
  assert (Hsame : exists m', coll !! i = Some m' /\ sameExceptReactions m m')
    by (exists m; split; [exact Hi|apply sameExceptReactions_refl]).
  destruct c as [id now|id emoji now|id|id now|userId now|sender receiver page limit now];
    cbn [MessageRoutes.call].
  - unfold markMessageRead.
    destruct (negb (isValidObjectId id)); [exact Hsame|].
    destruct (findById coll (castObjectId id)) as [message|] eqn:Hf; [|exact Hsame].
    destruct (negb (String.eqb (receiverId message) (UserModel._id reqUser))) eqn:E;
      [exact Hsame|].
    apply negb_false_iff, String.eqb_eq in E. cbn [snd].
    destruct (negb (isRead message)); [|exact Hsame].
    destruct (save_lookup coll (markAsRead now message) message (castObjectId id) i m Hf)
      as [H|[-> _]];
      [unfold markAsRead; destruct (negb (isRead message)); apply (findById_some _ _ _ Hf)
      |exact Hi| |congruence].
    exists m. split; [exact H|apply sameExceptReactions_refl].
  - unfold react.
    destruct (emojiRefused emoji); [exact Hsame|].
    destruct (negb (isValidObjectId id)); [exact Hsame|].
    destruct (findById coll (castObjectId id)) as [message|] eqn:Hf; [|exact Hsame]. cbn [snd].
    set (x := addReaction _ _ _ message).
    assert (Hx : sameExceptReactions message x)
      by apply MessageFacts.addReaction_sameExceptReactions.
    destruct (save_lookup coll x message (castObjectId id) i m Hf) as [H|[-> H]];
      [rewrite (proj1 Hx); apply (findById_some _ _ _ Hf)|exact Hi| |].
    + exists m. split; [exact H|apply sameExceptReactions_refl].
    + exists x. now split.
  - unfold unreact.
    destruct (negb (isValidObjectId id)); [exact Hsame|].
    destruct (findById coll (castObjectId id)) as [message|] eqn:Hf; [|exact Hsame]. cbn [snd].
    set (x := removeReaction _ message).
    assert (Hx : sameExceptReactions message x)
      by apply MessageFacts.removeReaction_sameExceptReactions.
    destruct (save_lookup coll x message (castObjectId id) i m Hf) as [H|[-> H]];
      [rewrite (proj1 Hx); apply (findById_some _ _ _ Hf)|exact Hi| |].
    + exists m. split; [exact H|apply sameExceptReactions_refl].
    + exists x. now split.
  - unfold deleteMessage.
    destruct (negb (isValidObjectId id)); [exact Hsame|].
    destruct (findById coll (castObjectId id)) as [message|] eqn:Hf; [|exact Hsame].
    destruct (negb (String.eqb (senderId message) (UserModel._id reqUser))
              && negb (String.eqb (receiverId message) (UserModel._id reqUser))) eqn:E;
      [exact Hsame|]. cbn [snd].
    destruct (save_lookup coll (softDelete (UserModel._id reqUser) now message)
                message (castObjectId id) i m Hf) as [H|[-> _]];
      [apply (findById_some _ _ _ Hf)|exact Hi| |].
    + exists m. split; [exact H|apply sameExceptReactions_refl].
    + apply andb_false_iff in E as [E|E];
        apply negb_false_iff, String.eqb_eq in E; congruence.
  - unfold readConversation.
    destruct (negb _ && negb _); [exact Hsame|].
    destruct (negb (isValidObjectId userId)); [exact Hsame|].
    cbn [snd collection markConversationAsRead]. rewrite map_lookup, Hi. cbn.
    destruct (unreadFrom (UserModel._id reqUser) (castObjectId userId) m) eqn:E.
    + apply unreadFrom_receiver in E as [_ E]. congruence.
    + exists m. split; [reflexivity|apply sameExceptReactions_refl].
  - unfold thread.
    destruct (negb _ && negb _); [exact Hsame|].
    destruct (negb (isValidObjectId sender && isValidObjectId receiver)); [exact Hsame|].
    destruct (queryWindow _ _) as [[skipped limited]|]; [|exact Hsame]. cbn [snd].
    destruct (String.eqb (UserModel._id reqUser) receiver) eqn:Er; [|exact Hsame].
    apply String.eqb_eq in Er.
    cbn [collection markConversationAsRead]. rewrite map_lookup, Hi. cbn.
    destruct (unreadFrom (castObjectId sender) (castObjectId receiver) m) eqn:E.
    + apply unreadFrom_receiver in E as [E _]. rewrite <- Er, Hcan in E. congruence.
    + exists m. split; [reflexivity|apply sameExceptReactions_refl].
Qed.

(** X5: Whatever users other than its sender and its receiver call, and in
    whatever order, a stored message keeps its place and every field
    but its reactions: they can neither delete it nor mark it read.
    The callers are users of the store: their ids are ObjectIds, which
    the cast leaves as they are. *)
Theorem third_parties_change_reactions_only
    (cs : list (UserModel.User * Call)) (coll : list Message) (i : nat) (m : Message) :
  coll !! i = Some m ->
  Forall (fun c => thirdParty m (fst c)) cs ->
  Forall (fun c => castObjectId (UserModel._id (fst c)) = UserModel._id (fst c)) cs ->
  exists m', calls isValidObjectId castObjectId queryWindow cs coll !! i = Some m'
            /\ sameExceptReactions m m'.
Proof.
  revert coll m. induction cs as [|[u c] cs IH]; intros coll m Hi Hcs Hcan.
  - exists m. split; [exact Hi|apply sameExceptReactions_refl].
  - apply Forall_cons_1 in Hcs as [Hu Hcs]. cbn in Hu.
    apply Forall_cons_1 in Hcan as [Hcu Hcan]. cbn in Hcu.
    destruct (call_third_party u c coll i m Hi Hu Hcu) as (m1 & H1 & S1).
    destruct (IH _ m1 H1) as (m2 & H2 & S2).
    + eapply Forall_impl; [exact Hcs|]. intros x Hx. now apply (thirdParty_same m m1).
    + exact Hcan.
    + exists m2. split; [exact H2|]. now apply (sameExceptReactions_trans m m1 m2).
Qed.

(** *** Deleting a message *)

Lemma filter_keeps {A} (p : A -> bool) (l : list A) :
  (forall x, In x l -> p x = true) -> List.filter p l = l.
Proof.
  induction l as [|x xs IH]; intros H; cbn; [reflexivity|].
  rewrite (H x (or_introl eq_refl)). f_equal. apply IH. intros y Hy. apply H. now right.
Qed.

Lemma filter_save_hidden (q : Message -> bool) (coll : list Message)
    (x message : Message) (id : string) :
  List.NoDup (map _id coll) ->
  findById coll id = Some message -> _id x = id -> q x = false ->
  List.filter q (save x coll) = List.filter (otherThan id) (List.filter q coll).
Proof.
  intros Hnd Hf Hx Hq. subst id. unfold findById in Hf.
  induction coll as [|y ys IH]; [discriminate|].
  cbn in Hf, Hnd |- *. apply List.NoDup_cons_iff in Hnd as [Hy Hnd].
  destruct (String.eqb (_id y) (_id x)) eqn:E.
  - cbn. rewrite Hq. apply String.eqb_eq in E.
    assert (Hrest : List.filter (otherThan (_id x)) (List.filter q ys) = List.filter q ys).
    { apply filter_keeps. intros z Hz. apply filter_In in Hz as [Hz _].
      unfold otherThan. apply negb_true_iff, String.eqb_neq. intros Ez.
      apply Hy. rewrite E, <- Ez. now apply in_map. }
    destruct (q y); cbn; [|now rewrite Hrest].
    unfold otherThan at 1. rewrite E, String.eqb_refl. cbn. now rewrite Hrest.
  - cbn. destruct (q y); cbn; [|now apply IH].
    unfold otherThan at 1. rewrite E. cbn. f_equal. now apply IH.
Qed.

Lemma filter_insertDesc (r : Message -> bool) (m : Message) (l : list Message) :
  newestFirst l ->
  List.filter r (insertDesc m l)
  = if r m then insertDesc m (List.filter r l) else List.filter r l.
Proof.
  unfold newestFirst. induction 1 as [|x xs Hs IH Hx]; cbn.
  - now destruct (r m).
  - destruct (createdAt x <=? createdAt m)%N eqn:E; cbn.
    + destruct (r m) eqn:Rm; [|reflexivity].
      destruct (r x) eqn:Rx; cbn; [now rewrite E|].
      (* the head of the filtered tail is not newer than [x] *)
      destruct (List.filter r xs) as [|z zs] eqn:F; [reflexivity|]. cbn.
      assert (In z xs) as Hz.
      { assert (In z (List.filter r xs)) as Hz by (rewrite F; now left).
        now apply filter_In in Hz. }
      pose proof (proj1 (List.Forall_forall _ _) Hx z Hz) as Hzx. cbn in Hzx.
      apply N.leb_le in E.
      assert ((createdAt z <=? createdAt m)%N = true) as -> by (apply N.leb_le; lia).
      reflexivity.
    + rewrite IH. destruct (r m), (r x); cbn; try reflexivity. now rewrite E.
Qed.

Lemma sortNewestFirst_filter (r : Message -> bool) (l : list Message) :
  sortNewestFirst (List.filter r l) = List.filter r (sortNewestFirst l).
Proof.
  induction l as [|x xs IH]; [reflexivity|].
  change (sortNewestFirst (x :: xs)) with (insertDesc x (sortNewestFirst xs)).
  rewrite filter_insertDesc by apply MessageModelFacts.sortNewestFirst_newestFirst.
  cbn [List.filter]. destruct (r x); [|exact IH].
  change (sortNewestFirst (x :: List.filter r xs))
    with (insertDesc x (sortNewestFirst (List.filter r xs))).
  now rewrite IH.
Qed.

(** X6: After its sender or its receiver deleted a message, the conversation
    of every pair of users is what it was without that message, and no
    page shows a message of that id; the other stored messages are
    still there.  The ids of the stored messages are distinct, as the
    store keeps them; the id of the request is cast by the lookup. *)
Theorem deleteMessage_hides
    (reqUser : UserModel.User) (id : string) (now : Date) (coll : list Message)
    (m : Message) :
  List.NoDup (map _id coll) ->
  isValidObjectId id = true ->
  findById coll (castObjectId id) = Some m ->
  UserModel._id reqUser = senderId m \/ UserModel._id reqUser = receiverId m ->
  let coll' := snd (deleteMessage isValidObjectId castObjectId reqUser id now coll) in
  status (fst (deleteMessage isValidObjectId castObjectId reqUser id now coll)) = 200%nat
  /\ (forall u1 u2,
        getConversation coll' u1 u2 0 0
        = List.filter (otherThan (castObjectId id)) (getConversation coll u1 u2 0 0))
  /\ (forall u1 u2 limit skip x,
        In x (getConversation coll' u1 u2 limit skip) -> _id x <> castObjectId id)
  /\ (forall x, In x coll -> _id x <> castObjectId id -> In x coll').
Proof.
  intros Hnd Hv Hf Hparty coll'. subst coll'.
  unfold deleteMessage. rewrite Hv, Hf. cbn [negb].
  assert (negb (String.eqb (senderId m) (UserModel._id reqUser))
          && negb (String.eqb (receiverId m) (UserModel._id reqUser)) = false) as ->.
  { destruct Hparty as [->| ->]; rewrite String.eqb_refl; cbn;
      [reflexivity|apply andb_false_r]. }
  cbn [fst snd status].
  set (x := softDelete (UserModel._id reqUser) now m).
  set (oid := castObjectId id) in *.
  assert (Hx : _id x = oid) by apply (findById_some _ _ _ Hf).
  assert (Hconv : forall u1 u2,
            getConversation (save x coll) u1 u2 0 0
            = List.filter (otherThan oid) (getConversation coll u1 u2 0 0)).
  { intros u1 u2. rewrite !MessageFacts.getConversation_all.
    rewrite (filter_save_hidden _ coll x m oid Hnd Hf Hx).
    - apply sortNewestFirst_filter.
    - unfold conversationQuery. cbn. apply andb_false_r. }
  split; [reflexivity|]. split; [exact Hconv|]. split.
  - intros u1 u2 limit skip y Hy.
    apply MessageFacts.getConversation_page_incl in Hy. rewrite Hconv in Hy.
    apply filter_In in Hy as [_ Hy]. unfold otherThan in Hy.
    now apply negb_true_iff, String.eqb_neq in Hy.
  - intros y Hy Hne. clear Hconv Hnd. unfold findById in Hf.
    clearbody oid. subst oid.
    change (_id x) with (_id m) in *.
    induction coll as [|z zs IH]; [contradiction|]. cbn in Hf, Hy |- *.
    destruct (String.eqb (_id z) (_id m)) eqn:E.
    + destruct Hy as [Hz|Hy]; [|now right].
      apply String.eqb_eq in E. congruence.
    + destruct Hy as [Hz|Hy]; [now left|]. right. now apply IH.
Qed.

(** *** Reading a thread and reading a conversation *)

Lemma getUnreadCount_map (f : Message -> Message) (coll : list Message) (v : ObjectId) :
  (forall m, receiverId m = v -> f m = m) ->
  (forall m, receiverId (f m) = receiverId m) ->
  getUnreadCount (map f coll) v = getUnreadCount coll v.
Proof.
  intros Hf Hr. unfold getUnreadCount.
  induction coll as [|m ms IH]; cbn; [reflexivity|].
  destruct (String.eqb_spec (receiverId m) v) as [E|E].
  - rewrite (Hf m E). destruct (String.eqb_spec (receiverId m) v); [|contradiction].
    cbn. destruct (negb (isRead m) && negb (isDeleted m)); cbn; now rewrite IH.
  - assert (String.eqb (receiverId (f m)) v = false) as ->
      by (apply String.eqb_neq; now rewrite Hr).
    cbn. exact IH.
Qed.

Lemma receiverId_marked (u x : ObjectId) (now : Date) (m : Message) :
  receiverId (if unreadFrom u x m then set_read m now else m) = receiverId m.
Proof. now destruct (unreadFrom u x m). Qed.

(** X7: The thread route with two different users never changes a message
    addressed to its caller, and so never lowers the caller's count of
    unread messages: what it marks read are messages the caller sent.
    The two ids name different users when they are cast to different
    ObjectIds; the caller's id is an ObjectId, which the cast leaves as
    it is. *)
Theorem thread_keeps_incoming
    (reqUser : UserModel.User) (sender receiver : string) (page limit : option Z)
    (now : Date) (coll : list Message) :
  castObjectId sender <> castObjectId receiver ->
  castObjectId (UserModel._id reqUser) = UserModel._id reqUser ->
  let coll' := snd (thread isValidObjectId castObjectId queryWindow reqUser sender
                      receiver page limit now coll) in
  (forall i m, coll !! i = Some m -> receiverId m = UserModel._id reqUser ->
               coll' !! i = Some m)
  /\ getUnreadCount coll' (UserModel._id reqUser) = getUnreadCount coll (UserModel._id reqUser).
Proof.
  intros Hne Hcan coll'. subst coll'. unfold thread.
  destruct (negb _ && negb _); [now split|].
  destruct (negb (isValidObjectId sender && isValidObjectId receiver)); [now split|].
  destruct (queryWindow _ _) as [[skipped limited]|]; [|now split]. cbn [snd].
  destruct (String.eqb (UserModel._id reqUser) receiver) eqn:Er; [|now split].
  apply String.eqb_eq in Er. cbn [collection markConversationAsRead].
  assert (Hkeep : forall m, receiverId m = UserModel._id reqUser ->
            (if unreadFrom (castObjectId sender) (castObjectId receiver) m
             then set_read m now else m) = m).
  { intros m Hm.
    destruct (unreadFrom (castObjectId sender) (castObjectId receiver) m) eqn:E;
      [|reflexivity].
    apply unreadFrom_receiver in E as [E1 E2].
    exfalso. apply Hne. rewrite <- Er, Hcan. congruence. }
  split.
  - intros i m Hi Hm. rewrite map_lookup, Hi. cbn. now rewrite Hkeep.
  - apply getUnreadCount_map; [exact Hkeep|]. intros m. apply receiverId_marked.
Qed.

Lemma unread_accounting (coll : list Message) (u x : ObjectId) (now : Date) :
  (getUnreadCount (collection (markConversationAsRead coll u x now)) u
   + modifiedCount (markConversationAsRead coll u x now))%nat
  = getUnreadCount coll u.
Proof.
  unfold getUnreadCount. cbn [collection modifiedCount markConversationAsRead].
  induction coll as [|m ms IH]; cbn; [reflexivity|].
  destruct (unreadFrom u x m) eqn:E.
  - unfold unreadFrom in E. repeat (apply andb_true_iff in E as [E ?]).
    cbn. match goal with H : String.eqb (receiverId m) u = true |- _ => rewrite H end.
    cbn. match goal with H : negb (isRead m) = true |- _ => rewrite H end.
    match goal with H : negb (isDeleted m) = true |- _ => rewrite H end.
    cbn. cbn in IH. lia.
  - destruct (String.eqb (receiverId m) u && negb (isRead m) && negb (isDeleted m));
      cbn; cbn in IH; lia.
Qed.

(** X8: Marking a conversation read through its route: the number the route
    reports is the number by which the caller's unread count drops;
    afterwards no undeleted message from that user to the caller is
    unread, a second call reports 0, and the unread counts of all other
    users are as before. *)
Theorem readConversation_accounting
    (reqUser : UserModel.User) (userId : string) (now now' : Date)
    (coll : list Message) :
  status (fst (readConversation isValidObjectId castObjectId reqUser userId now coll))
    = 200%nat ->
  let coll' := snd (readConversation isValidObjectId castObjectId reqUser userId now
                      coll) in
  exists n,
    fst (readConversation isValidObjectId castObjectId reqUser userId now coll)
      = Updated "Conversation marked as read" userId n
    /\ (getUnreadCount coll' (UserModel._id reqUser) + n)%nat
       = getUnreadCount coll (UserModel._id reqUser)
    /\ (forall m, In m coll' ->
          unreadFrom (UserModel._id reqUser) (castObjectId userId) m = false)
    /\ fst (readConversation isValidObjectId castObjectId reqUser userId now' coll')
       = Updated "Conversation marked as read" userId 0
    /\ (forall v, v <> UserModel._id reqUser ->
                  getUnreadCount coll' v = getUnreadCount coll v).
Proof.
  intros Hok coll'. subst coll'. unfold readConversation in *.
  destruct (negb _ && negb _); [discriminate|].
  destruct (negb (isValidObjectId userId)); [discriminate|].
  cbn [fst snd].
  exists (modifiedCount (markConversationAsRead coll (UserModel._id reqUser)
                           (castObjectId userId) now)).
  split; [reflexivity|]. split; [apply unread_accounting|]. split.
  { intros m. apply MessageFacts.markConversationAsRead_none_left. }
  split.
  { f_equal. cbn [modifiedCount markConversationAsRead].
    rewrite MessageFacts.filter_none; [reflexivity|].
    intros m. apply MessageFacts.markConversationAsRead_none_left. }
  intros v Hv. cbn [collection markConversationAsRead].
  apply getUnreadCount_map; [|intros m; apply receiverId_marked].
  intros m Hm.
  destruct (unreadFrom (UserModel._id reqUser) (castObjectId userId) m) eqn:E;
    [|reflexivity].
  apply unreadFrom_receiver in E as [_ E]. congruence.
Qed.

End Facts.

(** carol tries to delete alice's message to bob, to mark it read, and
    reacts to it. *)
Lemma third_parties_change_reactions_only_witness :
  Samples.threeMessages !! 0%nat = Some Samples.hello
  /\ exists m',
       calls Samples.isHex24 Samples.castHex Samples.plainWindow
         [ (Samples.newUser Samples.carol "admin",
            DeleteMessage "64b0000000000000000000e1" 5000%N);
           (Samples.newUser Samples.carol "admin",
            MarkMessageRead "64b0000000000000000000e1" 5100%N);
           (Samples.newUser Samples.carol "admin",
            React "64b0000000000000000000e1" (Some "wow") 5200%N) ]
         Samples.threeMessages !! 0%nat = Some m'
       /\ sameExceptReactions Samples.hello m'.
Proof.
  assert (H : Samples.threeMessages !! 0%nat = Some Samples.hello) by reflexivity.
  split; [exact H|].
  apply (third_parties_change_reactions_only Samples.isHex24 Samples.castHex
           Samples.plainWindow _ Samples.threeMessages 0%nat Samples.hello H).
  - repeat (constructor; [split; discriminate|]). constructor.
  - repeat (constructor; [reflexivity|]). constructor.
Defined.

(** bob deletes alice's message to him, with its id in upper case. *)
Lemma deleteMessage_hides_witness :
  List.NoDup (map _id Samples.threeMessages)
  /\ findById Samples.threeMessages (Samples.castHex "64B0000000000000000000E1")
     = Some Samples.hello
  /\ getConversation
       (snd (deleteMessage Samples.isHex24 Samples.castHex
               (Samples.newUser Samples.bob "user")
               "64B0000000000000000000E1" 5000%N Samples.threeMessages))
       Samples.alice Samples.bob 0 0
     = [Samples.hiBack].
Proof.
  assert (Hnd : List.NoDup (map _id Samples.threeMessages)).
  { repeat (constructor; [cbn; intuition discriminate|]). constructor. }
  assert (Hf : findById Samples.threeMessages (Samples.castHex "64B0000000000000000000E1")
               = Some Samples.hello)
    by reflexivity.
  split; [exact Hnd|]. split; [exact Hf|].
  destruct (deleteMessage_hides Samples.isHex24 Samples.castHex
              (Samples.newUser Samples.bob "user")
              "64B0000000000000000000E1" 5000%N Samples.threeMessages Samples.hello
              Hnd eq_refl Hf (or_intror eq_refl)) as (_ & Hc & _).
  rewrite Hc. reflexivity.
Defined.

(** bob opens the thread of alice's messages to him. *)
Lemma thread_keeps_incoming_witness :
  Samples.castHex Samples.alice <> Samples.castHex Samples.bob
  /\ getUnreadCount
       (snd (thread Samples.isHex24 Samples.castHex Samples.plainWindow
               (Samples.newUser Samples.bob "user") Samples.alice Samples.bob
               None None 5000%N Samples.threeMessages)) Samples.bob
     = getUnreadCount Samples.threeMessages Samples.bob.
Proof.
  assert (H : Samples.castHex Samples.alice <> Samples.castHex Samples.bob)
    by discriminate.
  split; [exact H|].
  exact (proj2 (thread_keeps_incoming Samples.isHex24 Samples.castHex Samples.plainWindow
                  (Samples.newUser Samples.bob "user") Samples.alice Samples.bob
                  None None 5000%N Samples.threeMessages H eq_refl)).
Defined.

(** The thread route at work: bob, reading alice's thread, marks his own
    answer to her read and leaves her message to him unread. *)
Example thread_marks_outgoing :
  map isRead
    (snd (thread Samples.isHex24 Samples.castHex Samples.plainWindow
            (Samples.newUser Samples.bob "user") Samples.alice Samples.bob
            None None 5000%N Samples.threeMessages))
  = [false; true; false].
Proof. reflexivity. Qed.

(** bob, connected to alice, marks her conversation read. *)
Lemma readConversation_accounting_witness :
  status (fst (readConversation Samples.isHex24 Samples.castHex
                 (Samples.docOf Samples.connected Samples.bob) Samples.alice 5000%N
                 Samples.threeMessages)) = 200%nat
  /\ exists n,
       fst (readConversation Samples.isHex24 Samples.castHex
              (Samples.docOf Samples.connected Samples.bob) Samples.alice 5000%N
              Samples.threeMessages)
       = Updated "Conversation marked as read" Samples.alice n
       /\ (getUnreadCount
             (snd (readConversation Samples.isHex24 Samples.castHex
                     (Samples.docOf Samples.connected Samples.bob) Samples.alice 5000%N
                     Samples.threeMessages)) Samples.bob + n)%nat
          = getUnreadCount Samples.threeMessages Samples.bob.
Proof.
  assert (H : status (fst (readConversation Samples.isHex24 Samples.castHex
                 (Samples.docOf Samples.connected Samples.bob) Samples.alice 5000%N
                 Samples.threeMessages)) = 200%nat) by reflexivity.
  split; [exact H|].
  destruct (readConversation_accounting Samples.isHex24 Samples.castHex
              (Samples.docOf Samples.connected Samples.bob) Samples.alice
              5000%N 6000%N Samples.threeMessages H) as (n & Hr & Hc & _).
  exists n. split; [exact Hr|exact Hc].
Defined.

End MessageRouteFacts.

(** ** Facts about sending a message *)
Module SendFacts.

Import UserModel Server HandlerFacts.

Section Facts.

Variable isValidObjectId : string -> bool.
Variable castObjectId : string -> ObjectId.
Variable notificationSchemaValid : NotificationModel.Notification -> bool.
Variable newObjectId : Db -> ObjectId.

(** The outcome of the route once its four checks of the body passed. *)
Lemma sendMessage_checked
    (db : Db) (reqUser : User) (newId : ObjectId) (now : Date) (b : MessageBody) :
  Js.truthyOpt (receiverId b) = true ->
  contentRejected (content b) = false ->
  Js.includes ["text"; "image"; "file"; "link"] (default "text" (messageType b)) = true ->
  negb (String.eqb (default "text" (messageType b)) "text") && Js.truthyOpt (mediaUrl b)
    && negb (isHttpUrl (default "" (mediaUrl b))) = false ->
  let r := default "" (receiverId b) in
  let m := MessageModel.mkMessage newId (_id reqUser) (castObjectId r)
             (default "" (content b))
             (default "text" (messageType b)) (mediaUrl b)
             false None false None [] (castObjectId <$> replyTo b) [] now in
  run (sendMessage isValidObjectId castObjectId notificationSchemaValid
          newObjectId reqUser newId now b) db
  = if isValidObjectId r then
      match users db !! castObjectId r with
      | None => (mkResponse 404 (Text "Receiver not found"), log (FindUser r) db)
      | Some _ =>
          if negb (existsb (fun id => String.eqb id r) (connections reqUser))
             && negb (String.eqb (role reqUser) "admin")
          then (mkResponse 403 (Text "You can only message your connections"),
                log (FindUser r) db)
          else if MessageModel.validate m
                  && match replyTo b with
                     | None => true
                     | Some x => isValidObjectId x
                     end
          then (mkResponse 201 (MessageDoc "Message sent successfully" m),
                notified notificationSchemaValid newObjectId (castObjectId r) (_id reqUser)
                  "MESSAGE"
                  "New message" (preview (default "" (content b))) (Js.jsonObject "senderId" (_id reqUser))
                  (log (SaveMessage newId)
                     (set_messages (log (FindUser r) db) (messages db ++ [m]))))
          else (mkResponse 500 (Text "Server error"), log (FindUser r) db)
      end
    else (mkResponse 500 (Text "Server error"), db).
Proof.
  intros H1 H2 H3 H4 r m. unfold run, sendMessage.
  rewrite H1, H2, H3, H4. cbn [negb]. fold r.
  rewrite bind_findById. destruct (isValidObjectId r); [|reflexivity].
  destruct (users db !! castObjectId r); [|reflexivity].
  destruct (negb _ && negb _); [reflexivity|].
  rewrite bind_apply. unfold saveMessage. fold m.
  destruct (MessageModel.validate m && _); [|reflexivity].
  now rewrite bind_notify.
Qed.

(** The two outcomes of the route: nothing stored and another answer
    than 201, or one message stored under the conditions of the route. *)
Lemma sendMessage_outcome
    (db : Db) (reqUser : User) (newId : ObjectId) (now : Date) (b : MessageBody) :
  (messages (snd (run (sendMessage isValidObjectId castObjectId notificationSchemaValid
          newObjectId reqUser newId now b) db)) = messages db
   /\ status (fst (run (sendMessage isValidObjectId castObjectId notificationSchemaValid
          newObjectId reqUser newId now b) db)) <> 201%nat)
  \/ exists r c,
       receiverId b = Some r /\ content b = Some c
       /\ is_Some (users db !! castObjectId r)
       /\ (In r (connections reqUser) \/ role reqUser = "admin")
       /\ (1 <= String.length c <= 2000)%nat /\ Js.allWhiteSpace c = false
       /\ run (sendMessage isValidObjectId castObjectId notificationSchemaValid
          newObjectId reqUser newId now b) db
          = let m := MessageModel.mkMessage newId (_id reqUser) (castObjectId r) c
                       (default "text" (messageType b)) (mediaUrl b)
                       false None false None [] (castObjectId <$> replyTo b) [] now in
            (mkResponse 201 (MessageDoc "Message sent successfully" m),
             notified notificationSchemaValid newObjectId (castObjectId r) (_id reqUser)
                  "MESSAGE"
                  "New message" (preview c) (Js.jsonObject "senderId" (_id reqUser))
                  (log (SaveMessage newId)
                     (set_messages (log (FindUser r) db) (messages db ++ [m])))).
Proof.
  destruct (Js.truthyOpt (receiverId b)) eqn:H1;
    [|left; unfold run, sendMessage; rewrite H1; now split].
  destruct (contentRejected (content b)) eqn:H2;
    [left; unfold run, sendMessage; rewrite H1, H2; now split|].
  destruct (Js.includes ["text"; "image"; "file"; "link"]
              (default "text" (messageType b))) eqn:H3;
    [|left; unfold run, sendMessage; rewrite H1, H2, H3; now split].
  destruct (negb (String.eqb (default "text" (messageType b)) "text")
            && Js.truthyOpt (mediaUrl b)
            && negb (isHttpUrl (default "" (mediaUrl b)))) eqn:H4;
    [left; unfold run, sendMessage; rewrite H1, H2, H3, H4; now split|].
  rewrite (sendMessage_checked db reqUser newId now b H1 H2 H3 H4).
  destruct (receiverId b) as [r|] eqn:Hr; [|discriminate].
  destruct (content b) as [c|] eqn:Hc; [|discriminate].
  cbn [default from_option] in *. unfold id in *.
  destruct (isValidObjectId r); [|left; now split].
  destruct (users db !! castObjectId r) as [receiver|] eqn:Hu; [|left; now split].
  destruct (negb (existsb (fun id => String.eqb id r) (connections reqUser))
            && negb (String.eqb (role reqUser) "admin")) eqn:Hp;
    [left; now split|].
  destruct (MessageModel.validate _ && _) eqn:Hval; [|left; now split].
  right. exists r, c. repeat split; try reflexivity.
  - now exists receiver.
  - apply andb_false_iff in Hp as [Hp|Hp]; apply negb_false_iff in Hp.
    + left. apply existsb_exists in Hp as (x & Hx & E).
      apply String.eqb_eq in E. now subst x.
    + right. now apply String.eqb_eq.
  - unfold contentRejected in H2. apply orb_false_iff in H2 as [H2 _].
    apply orb_false_iff in H2 as [H2 _]. apply negb_false_iff in H2.
    unfold Js.truthy in H2. destruct c; [discriminate|cbn; lia].
  - unfold contentRejected in H2. apply orb_false_iff in H2 as [_ H2].
    apply Nat.ltb_ge in H2. exact H2.
  - unfold contentRejected in H2. apply orb_false_iff in H2 as [H2 _].
    apply orb_false_iff in H2 as [_ H2].
    destruct (Js.allWhiteSpace c) eqn:E; [|reflexivity].
    apply JsFacts.trim_empty in E. rewrite E in H2. discriminate.
Qed.

(** X9: Nothing is stored unless the route allows it: when the message
    collection changes, the receiver is a stored user who is a
    connection of the sender, or the sender is an admin; the content is
    1 to 2000 characters long and not blank; and what is stored is one
    new, unread, undeleted message from the caller to that receiver.
    The receiver is looked up and stored under the ObjectId its id is
    cast to; the caller's connections are searched for the id as the
    request spells it. *)
Theorem sendMessage_stores_only_permitted
    (db : Db) (reqUser : User) (newId : ObjectId) (now : Date) (b : MessageBody) :
  messages (snd (run (sendMessage isValidObjectId castObjectId notificationSchemaValid
          newObjectId reqUser newId now b) db)) <> messages db ->
  exists r c m,
    receiverId b = Some r /\ content b = Some c
    /\ is_Some (users db !! castObjectId r)
    /\ (In r (connections reqUser) \/ role reqUser = "admin")
    /\ (1 <= String.length c <= 2000)%nat /\ Js.allWhiteSpace c = false
    /\ messages (snd (run (sendMessage isValidObjectId castObjectId notificationSchemaValid
          newObjectId reqUser newId now b) db))
       = messages db ++ [m]
    /\ MessageModel.senderId m = _id reqUser
    /\ MessageModel.receiverId m = castObjectId r
    /\ MessageModel.content m = c
    /\ MessageModel.isRead m = false /\ MessageModel.isDeleted m = false
    /\ status (fst (run (sendMessage isValidObjectId castObjectId notificationSchemaValid
          newObjectId reqUser newId now b) db)) = 201%nat.
Proof.
  intros Hchg.
  destruct (sendMessage_outcome db reqUser newId now b)
    as [[H _]|(r & c & Hr & Hc & Hu & Hp & Hlen & Hws & Hrun)]; [contradiction|].
  rewrite Hrun. eexists r, c, _. cbv zeta. cbn [fst snd status].
  rewrite messages_notified. cbn.
  repeat split; try assumption; try reflexivity; apply Hlen.
Qed.

(** X10: A message the route answers with 201 can be read back: under the
    new id the conversation of the two users holds it and nothing else,
    whoever of the two asks; the receiver's count of unread messages is
    up by one, and for a sender other than the receiver the sender's is
    unchanged.  The new id is taken to be fresh, as the driver makes it;
    the receiver is the ObjectId the id of the request is cast to. *)
Theorem sendMessage_visible
    (db : Db) (reqUser : User) (newId : ObjectId) (now : Date) (b : MessageBody) :
  status (fst (run (sendMessage isValidObjectId castObjectId notificationSchemaValid
          newObjectId reqUser newId now b) db)) = 201%nat ->
  (forall x, In x (messages db) -> MessageModel._id x <> newId) ->
  let coll' := messages (snd (run (sendMessage isValidObjectId castObjectId notificationSchemaValid
          newObjectId reqUser newId now b) db)) in
  exists m r,
    fst (run (sendMessage isValidObjectId castObjectId notificationSchemaValid
          newObjectId reqUser newId now b) db)
      = mkResponse 201 (MessageDoc "Message sent successfully" m)
    /\ receiverId b = Some r
    /\ List.filter (MessageRoutes.withId newId)
         (MessageModel.getConversation coll' (_id reqUser) (castObjectId r) 0 0) = [m]
    /\ List.filter (MessageRoutes.withId newId)
         (MessageModel.getConversation coll' (castObjectId r) (_id reqUser) 0 0) = [m]
    /\ MessageModel.getUnreadCount coll' (castObjectId r)
       = S (MessageModel.getUnreadCount (messages db) (castObjectId r))
    /\ (_id reqUser <> castObjectId r ->
        MessageModel.getUnreadCount coll' (_id reqUser)
        = MessageModel.getUnreadCount (messages db) (_id reqUser)).
Proof.
  intros Hok Hfresh coll'. subst coll'.
  destruct (sendMessage_outcome db reqUser newId now b)
    as [[_ H]|(r & c & Hr & Hc & Hu & Hp & Hlen & Hws & Hrun)]; [contradiction|].
  rewrite Hrun. cbv zeta. cbn [fst snd]. rewrite messages_notified.
  cbn [messages log set_messages].
  set (m := MessageModel.mkMessage _ _ _ _ _ _ _ _ _ _ _ _ _ _).
  assert (Hnone : forall q, List.filter (MessageRoutes.withId newId)
                              (List.filter q (messages db)) = []).
  { intros q. apply MessageFacts.filter_none. intros x Hx.
    apply filter_In in Hx as [Hx _]. unfold MessageRoutes.withId.
    apply String.eqb_neq. now apply Hfresh. }
  assert (Hview : forall u1 u2,
            MessageModel.inConversation u1 u2 m = true ->
            List.filter (MessageRoutes.withId newId)
              (MessageModel.getConversation (messages db ++ [m]) u1 u2 0 0) = [m]).
  { intros u1 u2 Hin. rewrite MessageFacts.getConversation_all.
    rewrite <- MessageRouteFacts.sortNewestFirst_filter.
    assert (Hq : MessageModel.conversationQuery u1 u2 m = true)
      by (unfold MessageModel.conversationQuery; now rewrite Hin).
    assert (Hid : MessageRoutes.withId newId m = true)
      by (unfold MessageRoutes.withId; cbn; apply String.eqb_refl).
    rewrite (List.filter_app (MessageModel.conversationQuery u1 u2)).
    rewrite List.filter_app, Hnone. cbn [app List.filter].
    rewrite Hq. cbn [List.filter]. now rewrite Hid. }
  exists m, r. split; [reflexivity|]. split; [exact Hr|].
  split; [apply Hview; unfold MessageModel.inConversation; cbn;
          now rewrite !String.eqb_refl|].
  split; [apply Hview; unfold MessageModel.inConversation; cbn;
          rewrite !String.eqb_refl; apply orb_true_r|].
  split.
  - unfold MessageModel.getUnreadCount. rewrite List.filter_app, length_app. cbn.
    rewrite String.eqb_refl. cbn. lia.
  - intros Hne. unfold MessageModel.getUnreadCount.
    rewrite List.filter_app, length_app. cbn.
    assert (String.eqb (castObjectId r) (_id reqUser) = false) as ->
      by (apply String.eqb_neq; congruence).
    cbn. lia.
Qed.

End Facts.

(** alice, connected to bob, sends him a text. *)
Lemma sendMessage_stores_only_permitted_witness :
  messages (snd (run (sendMessage Samples.isHex24 Samples.castHex
                        NotificationModel.specSchemaValid Samples.nextId
                        (Samples.docOf Samples.connected Samples.alice)
                        "64b0000000000000000000e6" 70%N Samples.helloBody)
                   Samples.connected))
    <> messages Samples.connected
  /\ exists r c m,
       receiverId Samples.helloBody = Some r /\ content Samples.helloBody = Some c
       /\ messages (snd (run (sendMessage Samples.isHex24 Samples.castHex
                                NotificationModel.specSchemaValid Samples.nextId
                                (Samples.docOf Samples.connected Samples.alice)
                                "64b0000000000000000000e6" 70%N Samples.helloBody)
                           Samples.connected))
          = messages Samples.connected ++ [m]
       /\ In r (connections (Samples.docOf Samples.connected Samples.alice)).
Proof.
  assert (H : messages (snd (run (sendMessage Samples.isHex24 Samples.castHex
                        NotificationModel.specSchemaValid Samples.nextId
                        (Samples.docOf Samples.connected Samples.alice)
                        "64b0000000000000000000e6" 70%N Samples.helloBody)
                   Samples.connected))
              <> messages Samples.connected) by (vm_compute; discriminate).
  split; [exact H|].
  destruct (sendMessage_stores_only_permitted Samples.isHex24 Samples.castHex
              NotificationModel.specSchemaValid Samples.nextId Samples.connected
              (Samples.docOf Samples.connected Samples.alice)
              "64b0000000000000000000e6" 70%N Samples.helloBody H)
    as (r & c & m & Hr & Hc & _ & Hp & _ & _ & Hm & _).
  exists r, c, m. repeat split; try assumption.
  destruct Hp as [Hp|Hp]; [exact Hp|discriminate Hp].
Defined.

Lemma sendMessage_visible_witness :
  status (fst (run (sendMessage Samples.isHex24 Samples.castHex
                      NotificationModel.specSchemaValid Samples.nextId
                      (Samples.docOf Samples.connected Samples.alice)
                      "64b0000000000000000000e6" 70%N Samples.helloBody)
                 Samples.connected)) = 201%nat
  /\ MessageModel.getUnreadCount
       (messages (snd (run (sendMessage Samples.isHex24 Samples.castHex
                              NotificationModel.specSchemaValid Samples.nextId
                              (Samples.docOf Samples.connected Samples.alice)
                              "64b0000000000000000000e6" 70%N Samples.helloBody)
                         Samples.connected))) Samples.bob
     = 1%nat.
Proof.
  assert (H : status (fst (run (sendMessage Samples.isHex24 Samples.castHex
                      NotificationModel.specSchemaValid Samples.nextId
                      (Samples.docOf Samples.connected Samples.alice)
                      "64b0000000000000000000e6" 70%N Samples.helloBody)
                 Samples.connected)) = 201%nat) by reflexivity.
  split; [exact H|].
  destruct (sendMessage_visible Samples.isHex24 Samples.castHex
              NotificationModel.specSchemaValid Samples.nextId Samples.connected
              (Samples.docOf Samples.connected Samples.alice)
              "64b0000000000000000000e6" 70%N Samples.helloBody H)
    as (m & r & _ & Hr & _ & _ & Hc & _).
  - intros x [].
  - injection Hr as <-. exact Hc.
Defined.

End SendFacts.

(** ** The rule of one reaction per user, over the stored messages *)
Module ReactionStoreFacts.

Import MessageModel MessageRoutes.

Lemma save_Forall (P : Message -> Prop) (m : Message) (coll : list Message) :
  Forall P coll -> P m -> Forall P (save m coll).
Proof.
  intros H Hm. induction H as [|x xs Hx Hxs IH]; cbn; [constructor|].
  destruct (String.eqb (_id x) (_id m)); constructor; auto.
Qed.

Lemma findById_Forall (P : Message -> Prop) (coll : list Message) (id : string)
    (m : Message) :
  Forall P coll -> findById coll id = Some m -> P m.
Proof.
  intros H Hf. apply find_some in Hf as [Hin _].
  rewrite List.Forall_forall in H. now apply H.
Qed.

Lemma markConversationAsRead_Forall (coll : list Message) (x y : ObjectId) (now : Date) :
  Forall oneReactionPerUser coll ->
  Forall oneReactionPerUser (collection (markConversationAsRead coll x y now)).
Proof.
  intros H. cbn [collection markConversationAsRead].
  induction H as [|m ms Hm Hms IH]; cbn [map]; constructor; [|exact IH].
  now destruct (unreadFrom x y m).
Qed.

Section Facts.

Variable isValidObjectId : string -> bool.
Variable castObjectId : string -> ObjectId.
Variable queryWindow : Z -> Z -> option (nat * nat).

Lemma call_one_reaction (reqUser : UserModel.User) (c : Call) (coll : list Message) :
  Forall oneReactionPerUser coll ->
  Forall oneReactionPerUser
    (snd (call isValidObjectId castObjectId queryWindow reqUser c coll)).
Proof.
  intros H.
  destruct c as [id now|id emo now|id|id now|userId now|sender receiver page limit now];
    cbn [call].
  - unfold markMessageRead. destruct (negb (isValidObjectId id)); [exact H|].
    destruct (findById coll (castObjectId id)) as [m|] eqn:Hf; [|exact H].
    destruct (negb (String.eqb _ _)); [exact H|]. cbn [snd].
    destruct (isRead m) eqn:Hr; cbn [negb]; [exact H|].
    apply save_Forall; [exact H|]. unfold markAsRead. rewrite Hr. cbn [negb].
    exact (findById_Forall _ _ _ _ H Hf).
  - unfold react. destruct (emojiRefused emo); [exact H|].
    destruct (negb (isValidObjectId id)); [exact H|].
    destruct (findById coll (castObjectId id)) as [m|] eqn:Hf; [|exact H]. cbn [snd].
    apply save_Forall; [exact H|]. apply MessageFacts.oneReactionPerUser_addReaction.
    exact (findById_Forall _ _ _ _ H Hf).
  - unfold unreact. destruct (negb (isValidObjectId id)); [exact H|].
    destruct (findById coll (castObjectId id)) as [m|] eqn:Hf; [|exact H]. cbn [snd].
    apply save_Forall; [exact H|]. apply MessageFacts.oneReactionPerUser_removeReaction.
    exact (findById_Forall _ _ _ _ H Hf).
  - unfold deleteMessage. destruct (negb (isValidObjectId id)); [exact H|].
    destruct (findById coll (castObjectId id)) as [m|] eqn:Hf; [|exact H].
    destruct (_ && _); [exact H|]. cbn [snd].
    apply save_Forall; [exact H|]. exact (findById_Forall _ _ _ _ H Hf).
  - unfold readConversation. destruct (_ && _); [exact H|].
    destruct (negb (isValidObjectId userId)); [exact H|]. cbn [snd].
    now apply markConversationAsRead_Forall.
  - unfold thread. destruct (_ && _); [exact H|].
    destruct (negb _); [exact H|].
    destruct (queryWindow _ _) as [[skipped limited]|]; [|exact H]. cbn [snd].
    destruct (String.eqb _ receiver); [|exact H].
    now apply markConversationAsRead_Forall.
Qed.

(** X4: The stored messages keep the rule of the data model, at most one
    reaction per user on a message, whatever the routes are asked to
    do: a collection that satisfies it satisfies it after a message was
    sent and after any sequence of calls of the routes that read,
    react, take a reaction back and delete, by any callers. *)
Theorem store_keeps_one_reaction_per_user (coll : list Message) :
  Forall oneReactionPerUser coll ->
  (forall cs,
     Forall oneReactionPerUser (calls isValidObjectId castObjectId queryWindow cs coll))
  /\ (forall notificationSchemaValid newObjectId db reqUser newId now b,
        Server.messages db = coll ->
        Forall oneReactionPerUser
          (Server.messages
             (snd (Server.run
                     (Server.sendMessage isValidObjectId castObjectId
                        notificationSchemaValid newObjectId reqUser newId now b) db)))).
Proof.
  intros H. split.
  - intros cs. revert coll H. induction cs as [|[u c] cs IH]; intros coll H; [exact H|].
    change (calls isValidObjectId castObjectId queryWindow ((u, c) :: cs) coll)
      with (calls isValidObjectId castObjectId queryWindow cs
              (snd (call isValidObjectId castObjectId queryWindow u c coll))).
    apply IH. now apply call_one_reaction.
  - intros valid newObjectId db reqUser newId now b <-.
    destruct (SendFacts.sendMessage_outcome isValidObjectId castObjectId valid newObjectId
                db reqUser newId now b)
      as [[-> _]|(r & c & _ & _ & _ & _ & _ & _ & ->)]; [exact H|].
    cbv zeta. cbn [snd]. rewrite HandlerFacts.messages_notified.
    cbn [Server.messages Server.log Server.set_messages].
    apply Forall_app. split; [exact H|]. constructor; [|constructor].
    now apply MessageFacts.oneReactionPerUser_new.
Qed.

End Facts.

(** The three sample messages, none with a reaction; carol, bob and
    alice react, bob twice. *)
Lemma store_keeps_one_reaction_per_user_witness :
  Forall oneReactionPerUser
    (calls Samples.isHex24 Samples.castHex Samples.plainWindow
       [ (Samples.newUser Samples.carol "admin",
          React "64b0000000000000000000e1" (Some "wow") 5000%N);
         (Samples.newUser Samples.bob "user",
          React "64b0000000000000000000e1" (Some "heart") 5100%N);
         (Samples.newUser Samples.bob "user",
          React "64b0000000000000000000e1" (Some "smile") 5200%N);
         (Samples.newUser Samples.alice "user", Unreact "64b0000000000000000000e1") ]
       Samples.threeMessages).
Proof.
  apply (store_keeps_one_reaction_per_user Samples.isHex24 Samples.castHex
           Samples.plainWindow
           Samples.threeMessages).
  repeat (constructor; [now apply MessageFacts.oneReactionPerUser_new|]).
  constructor.
Defined.

End ReactionStoreFacts.

(** ** Facts about the order of the message routes *)
Module MessageRouterFacts.

Import MessageRouter.

Lemma truthy_false (x : string) : Js.truthy x = false -> x = "".
Proof.
  unfold Js.truthy. intros H. apply negb_false_iff in H. now apply String.eqb_eq.
Qed.

(** A GET of one segment that is not empty and is not "conversations"
    is handed to the pair route, with the segment as the other user. *)
Lemma dispatch_one_segment (x : string) :
  Js.truthy x = true ->
  String.eqb (Js.toLower x) "conversations" = false ->
  dispatch GET [x] = Some (PairConversation, [("otherUserId", x)]).
Proof.
  intros Ht Hc. unfold dispatch, routes.
  cbn [dispatchIn sameMethod method path handler matchPath].
  change (Js.toLower "conversations") with "conversations".
  rewrite Hc, Ht.
  destruct (String.eqb (Js.toLower x) (Js.toLower "thread"));
    destruct (String.eqb (Js.toLower x) (Js.toLower "conversation")); reflexivity.
Qed.

(** X11: No GET request reaches the handler of /unread-count, nor the second
    handler of /conversations: whatever the path, a route further up in
    the file takes it, or no route does. *)
Theorem later_get_routes_unreachable
    (segments : list string) (params : list (string * string)) :
  dispatch GET segments <> Some (UnreadCount, params)
  /\ dispatch GET segments <> Some (ConversationsAgain, params).
Proof.
  unfold dispatch, routes.
  cbn [dispatchIn sameMethod method path handler].
  destruct segments as [|x1 [|x2 [|x3 [|x4 rest]]]].
  - cbn. split; discriminate.
  - cbn [matchPath].
    change (Js.toLower "conversations") with "conversations".
    change (Js.toLower "unread-count") with "unread-count".
    change (Js.toLower "thread") with "thread".
    change (Js.toLower "conversation") with "conversation".
    destruct (String.eqb (Js.toLower x1) "thread");
      destruct (String.eqb (Js.toLower x1) "conversation");
      (destruct (String.eqb (Js.toLower x1) "conversations") eqn:Hc;
       [split; discriminate|]);
      (destruct (Js.truthy x1) eqn:Ht; [cbn; split; discriminate|]);
      apply truthy_false in Ht; subst x1; cbn; split; discriminate.
  - cbn [matchPath].
    change (Js.toLower "conversations") with "conversations".
    change (Js.toLower "unread-count") with "unread-count".
    change (Js.toLower "thread") with "thread".
    change (Js.toLower "conversation") with "conversation".
    repeat case_match; split; congruence.
  - cbn [matchPath].
    change (Js.toLower "conversations") with "conversations".
    change (Js.toLower "unread-count") with "unread-count".
    change (Js.toLower "thread") with "thread".
    change (Js.toLower "conversation") with "conversation".
    repeat case_match; split; congruence.
  - cbn [matchPath].
    change (Js.toLower "conversations") with "conversations".
    change (Js.toLower "unread-count") with "unread-count".
    change (Js.toLower "thread") with "thread".
    change (Js.toLower "conversation") with "conversation".
    repeat case_match; split; congruence.
Qed.

Section Facts.

Variable isValidObjectId : string -> bool.
Variable castObjectId : string -> ObjectId.

(** X12: A stored user who is no admin asks for a path of one segment, other
    than "conversations", that is not the id of one of the user's
    connections: the pair route answers 403.  So it is with
    /unread-count, for which the file holds a route further down. *)
Theorem one_segment_get_refused
    (db : Server.Db) (reqUser me : UserModel.User) (x : string) :
  Js.truthy x = true ->
  String.eqb (Js.toLower x) "conversations" = false ->
  isValidObjectId (UserModel._id reqUser) = true ->
  Server.users db !! UserModel._id reqUser = Some me ->
  UserModel.role me <> "admin" ->
  ~ In x (UserModel.connections me) ->
  getOne isValidObjectId castObjectId x reqUser db
  = Some (Error 403 "You can only view messages with your connections").
Proof.
  intros Ht Hc Hv Hme Hrole Hin. unfold getOne.
  rewrite (dispatch_one_segment x Ht Hc).
  unfold param. cbn [List.find fst snd String.eqb Ascii.eqb Bool.eqb].
  unfold pairConversation.
  rewrite Hv, Hme. cbn [negb].
  assert (Js.includes (UserModel.connections me) x = false) as ->.
  { unfold Js.includes. apply not_true_is_false. intros H.
    apply existsb_exists in H as (y & Hy & E). apply String.eqb_eq in E. now subst y. }
  apply String.eqb_neq in Hrole. now rewrite Hrole.
Qed.

End Facts.

(** alice, connected to bob alone, asks for her unread count. *)
Lemma one_segment_get_refused_witness :
  UserModel.connections (Samples.docOf Samples.connected Samples.alice) = [Samples.bob]
  /\ getOne Samples.isHex24 Samples.castHex "unread-count"
       (Samples.docOf Samples.connected Samples.alice) Samples.connected
     = Some (Error 403 "You can only view messages with your connections").
Proof.
  split; [reflexivity|].
  apply (one_segment_get_refused Samples.isHex24 Samples.castHex Samples.connected
           (Samples.docOf Samples.connected Samples.alice)
           (Samples.docOf Samples.connected Samples.alice) "unread-count");
    try reflexivity.
  - discriminate.
  - intros [H|[]]. discriminate H.
Defined.

End MessageRouterFacts.

(** ** Facts about the routes on stored notifications *)
Module NotificationRouteFacts.

Import NotificationModel NotificationRoutes.

Lemma filter_updateFirst (q p : Notification -> bool) (f : Notification -> Notification)
    (coll : list Notification) :
  (forall n, p n = true -> q n = false /\ q (f n) = false) ->
  List.filter q (updateFirst p f coll) = List.filter q coll.
Proof.
  intros H. induction coll as [|n ns IH]; cbn; [reflexivity|].
  destruct (p n) eqn:E; cbn.
  - destruct (H n E) as [-> ->]. reflexivity.
  - destruct (q n); [f_equal|]; exact IH.
Qed.

Lemma filter_removeFirst (q p : Notification -> bool) (coll : list Notification) :
  (forall n, p n = true -> q n = false) ->
  List.filter q (removeFirst p coll) = List.filter q coll.
Proof.
  intros H. induction coll as [|n ns IH]; cbn; [reflexivity|].
  destruct (p n) eqn:E; cbn.
  - now rewrite (H n E).
  - destruct (q n); [f_equal|]; exact IH.
Qed.

Lemma mine_addressedTo (id u v : ObjectId) (n : Notification) :
  u <> v -> mine id u n = true -> addressedTo v n = false /\ addressedTo v (read n) = false.
Proof.
  unfold mine, addressedTo. intros Hne H. apply andb_true_iff in H as [_ H].
  apply String.eqb_eq in H. cbn. rewrite H.
  split; apply String.eqb_neq; exact Hne.
Qed.

Section Facts.

Variable isValidObjectId : string -> bool.
Variable castObjectId : string -> ObjectId.

Lemma call_other_recipient (reqUser : UserModel.User) (c : Call)
    (coll : list Notification) (r : ObjectId) :
  UserModel._id reqUser <> r ->
  List.filter (addressedTo r) (snd (call isValidObjectId castObjectId reqUser c coll))
  = List.filter (addressedTo r) coll.
Proof.
  intros Hne. destruct c as [id| |id]; cbn [call].
  - unfold markRead. destruct (negb (isValidObjectId id)); [reflexivity|].
    destruct (List.find _ coll) as [found|]; [|reflexivity]. cbn [snd].
    apply filter_updateFirst. intros n. now apply mine_addressedTo.
  - unfold markAllRead. cbn [snd].
    induction coll as [|n ns IH]; cbn; [reflexivity|].
    destruct (unreadOf (UserModel._id reqUser) n) eqn:E.
    + unfold unreadOf in E. apply andb_true_iff in E as [E _].
      apply String.eqb_eq in E.
      assert (addressedTo r (read n) = false) as ->
        by (unfold addressedTo; cbn; rewrite E; now apply String.eqb_neq).
      assert (addressedTo r n = false) as ->
        by (unfold addressedTo; rewrite E; now apply String.eqb_neq).
      exact IH.
    + destruct (addressedTo r n); [f_equal|]; exact IH.
  - unfold deleteNotification. destruct (negb (isValidObjectId id)); [reflexivity|].
    destruct (List.find _ coll) as [found|]; [|reflexivity]. cbn [snd].
    apply filter_removeFirst. intros n Hn.
    now apply (mine_addressedTo (castObjectId id) _ r n Hne).
Qed.

(** X13: Whatever other users call on the notification routes, and in
    whatever order, the notifications addressed to a user stay the same
    documents in the same order: nobody else can mark them read or
    delete them. *)
Theorem others_keep_notifications
    (cs : list (UserModel.User * Call)) (coll : list Notification) (r : ObjectId) :
  Forall (fun c => UserModel._id (fst c) <> r) cs ->
  List.filter (addressedTo r) (calls isValidObjectId castObjectId cs coll)
  = List.filter (addressedTo r) coll.
Proof.
  revert coll. induction cs as [|[u c] cs IH]; intros coll H; [reflexivity|].
  apply Forall_cons_1 in H as [Hu H]. cbn in Hu.
  change (calls isValidObjectId castObjectId ((u, c) :: cs) coll)
    with (calls isValidObjectId castObjectId cs
            (snd (call isValidObjectId castObjectId u c coll))).
  rewrite (IH _ H). now apply call_other_recipient.
Qed.

(** X14: After read-all the caller has no unread notification, and a second
    read-all changes nothing. *)
Theorem markAllRead_clears (reqUser : UserModel.User) (coll : list Notification) :
  let coll' := snd (markAllRead reqUser coll) in
  unreadCount coll' (UserModel._id reqUser) = 0%nat
  /\ snd (markAllRead reqUser coll') = coll'
  /\ length coll' = length coll.
Proof.
  cbn [snd markAllRead].
  assert (Hdone : forall n,
            unreadOf (UserModel._id reqUser)
              (if unreadOf (UserModel._id reqUser) n then read n else n) = false).
  { intros n. destruct (unreadOf (UserModel._id reqUser) n) eqn:E; [|exact E].
    unfold unreadOf. cbn. apply andb_false_r. }
  split; [|split].
  - unfold unreadCount. rewrite MessageFacts.filter_none; [reflexivity|].
    intros n Hn. apply in_map_iff in Hn as (x & <- & _). apply Hdone.
  - rewrite map_map. apply map_ext. intros n. now rewrite Hdone.
  - apply length_map.
Qed.

(** *** Deleting and marking one notification *)

Lemma unreadCount_updateFirst (id u : ObjectId) (coll : list Notification)
    (n : Notification) :
  List.find (mine id u) coll = Some n ->
  (unreadCount (updateFirst (mine id u) read coll) u
   + (if isRead n then 0 else 1))%nat
  = unreadCount coll u.
Proof.
  unfold unreadCount. induction coll as [|x xs IH]; cbn [List.find updateFirst];
    [discriminate|].
  destruct (mine id u x) eqn:E.
  - intros [= <-]. cbn [List.filter].
    unfold mine in E. apply andb_true_iff in E as [_ E].
    assert (unreadOf u (read x) = false) as ->
      by (unfold unreadOf; cbn; apply andb_false_r).
    unfold unreadOf at 2. rewrite E. cbn [andb].
    destruct (isRead x); cbn [negb length]; lia.
  - intros H. cbn [List.filter].
    destruct (unreadOf u x); cbn [length]; rewrite <- (IH H); lia.
Qed.

(** X15: A call of PUT /:id/read that is answered 200 returns a notification
    of that id, as the query casts it, addressed to the caller, now
    read, and lowers the caller's unread count by one exactly when that
    notification was unread; the number of stored notifications stays. *)
Theorem markRead_own
    (reqUser : UserModel.User) (id : string) (coll : list Notification) :
  Server.status (fst (markRead isValidObjectId castObjectId reqUser id coll)) = 200%nat ->
  exists n,
    List.find (mine (castObjectId id) (UserModel._id reqUser)) coll = Some n
    /\ fst (markRead isValidObjectId castObjectId reqUser id coll)
       = Server.mkResponse 200 (Server.NotificationDoc (read n))
    /\ _id n = castObjectId id /\ recipientId n = UserModel._id reqUser
    /\ (unreadCount (snd (markRead isValidObjectId castObjectId reqUser id coll))
          (UserModel._id reqUser)
        + (if isRead n then 0 else 1))%nat
       = unreadCount coll (UserModel._id reqUser)
    /\ length (snd (markRead isValidObjectId castObjectId reqUser id coll)) = length coll.
Proof.
  unfold markRead. destruct (negb (isValidObjectId id)); [discriminate|].
  destruct (List.find _ coll) as [n|] eqn:Hf; [|discriminate]. intros _.
  exists n. cbn [fst snd]. split; [reflexivity|]. split; [reflexivity|].
  pose proof (find_some _ _ Hf) as [_ Hm]. unfold mine in Hm.
  apply andb_true_iff in Hm as [H1 H2]. apply String.eqb_eq in H1, H2.
  split; [exact H1|]. split; [exact H2|]. split.
  - now apply unreadCount_updateFirst.
  - clear Hf. induction coll as [|x xs IH]; cbn; [reflexivity|].
    destruct (mine (castObjectId id) (UserModel._id reqUser) x); cbn;
      [reflexivity|now rewrite IH].
Qed.

(** X16: A call of DELETE /:id that is answered 200 takes exactly one
    notification out of the store, one of that id, as the query casts
    it, addressed to the caller, and the others keep their order. *)
Theorem deleteNotification_own
    (reqUser : UserModel.User) (id : string) (coll : list Notification) :
  Server.status (fst (deleteNotification isValidObjectId castObjectId reqUser id coll))
    = 200%nat ->
  exists before n after,
    coll = before ++ n :: after
    /\ snd (deleteNotification isValidObjectId castObjectId reqUser id coll)
       = before ++ after
    /\ _id n = castObjectId id /\ recipientId n = UserModel._id reqUser.
Proof.
  unfold deleteNotification. destruct (negb (isValidObjectId id)); [discriminate|].
  destruct (List.find _ coll) as [found|] eqn:Hf; [|discriminate]. intros _.
  cbn [snd]. clear isValidObjectId. revert found Hf.
  generalize (castObjectId id) as oid. intros oid.
  induction coll as [|x xs IH]; intros found Hf; cbn in *; [discriminate|].
  destruct (mine oid (UserModel._id reqUser) x) eqn:E.
  - exists [], x, xs. unfold mine in E. apply andb_true_iff in E as [E1 E2].
    apply String.eqb_eq in E1, E2. now repeat split.
  - destruct (IH found Hf) as (before & n & after & -> & Hr & Hid & Hrec).
    exists (x :: before), n, after. cbn. rewrite Hr. now repeat split.
Qed.

(** *** Creating and then reading *)


Variable notificationSchemaValid : Notification -> bool.


End Facts.

(** carol calls the three routes with the id of bob's unread
    notification. *)
Lemma others_keep_notifications_witness :
  List.filter (addressedTo Samples.bob)
    (calls Samples.isHex24 Samples.castHex
       [ (Samples.newUser Samples.carol "admin", MarkRead "64b0000000000000000000f2");
         (Samples.newUser Samples.carol "admin", Delete "64b0000000000000000000f2");
         (Samples.newUser Samples.carol "admin", MarkAllRead) ]
       Samples.threeNotifications)
  = List.filter (addressedTo Samples.bob) Samples.threeNotifications.
Proof.
  apply (others_keep_notifications Samples.isHex24 Samples.castHex).
  repeat (constructor; [discriminate|]). constructor.
Defined.

(** bob marks his unread notification read. *)
Lemma markRead_own_witness :
  Server.status (fst (markRead Samples.isHex24 Samples.castHex
                        (Samples.newUser Samples.bob "user")
                        "64b0000000000000000000f2" Samples.threeNotifications))
    = 200%nat
  /\ unreadCount (snd (markRead Samples.isHex24 Samples.castHex
                        (Samples.newUser Samples.bob "user")
                         "64b0000000000000000000f2" Samples.threeNotifications))
       Samples.bob = 0%nat.
Proof.
  assert (H : Server.status
                (fst (markRead Samples.isHex24 Samples.castHex
                        (Samples.newUser Samples.bob "user")
                        "64b0000000000000000000f2" Samples.threeNotifications))
              = 200%nat) by reflexivity.
  split; [exact H|].
  destruct (markRead_own Samples.isHex24 Samples.castHex
              (Samples.newUser Samples.bob "user")
              "64b0000000000000000000f2" Samples.threeNotifications H)
    as (n & Hf & _ & _ & _ & Hc & _).
  injection Hf as <-. cbn in Hc. lia.
Defined.

(** bob deletes his read notification. *)
Lemma deleteNotification_own_witness :
  Server.status (fst (deleteNotification Samples.isHex24 Samples.castHex
                        (Samples.newUser Samples.bob "user")
                        "64b0000000000000000000f1" Samples.threeNotifications))
    = 200%nat
  /\ exists before n after,
       Samples.threeNotifications = before ++ n :: after
       /\ snd (deleteNotification Samples.isHex24 Samples.castHex
                 (Samples.newUser Samples.bob "user")
                 "64b0000000000000000000f1" Samples.threeNotifications)
          = before ++ after
       /\ _id n = "64b0000000000000000000f1".
Proof.
  assert (H : Server.status
                (fst (deleteNotification Samples.isHex24 Samples.castHex
                        (Samples.newUser Samples.bob "user")
                        "64b0000000000000000000f1" Samples.threeNotifications))
              = 200%nat) by reflexivity.
  split; [exact H|].
  destruct (deleteNotification_own Samples.isHex24 Samples.castHex
              (Samples.newUser Samples.bob "user")
              "64b0000000000000000000f1" Samples.threeNotifications H)
    as (before & n & after & H1 & H2 & H3 & _).
  exists before, n, after. now repeat split.
Defined.


End NotificationRouteFacts.

(** ** The life of a connection, seen through the routes *)
Module UserRouteFacts.

Import UserModel Server HandlerFacts UserRoutes.

Lemma status_none (a : User) (x : ObjectId) :
  getConnectionStatus a x = "none" ->
  isConnectedTo a x = false /\ hasSentRequestTo a x = false
  /\ hasReceivedRequestFrom a x = false.
Proof.
  unfold getConnectionStatus.
  destruct (isConnectedTo a x); [discriminate|].
  destruct (hasSentRequestTo a x); [discriminate|].
  destruct (hasReceivedRequestFrom a x); [discriminate|]. auto.
Qed.

Lemma filter_pushed {A} (f : A -> string) (k : string) (l : list A) (y : A) :
  existsb (fun x => String.eqb (f x) k) l = false ->
  f y = k ->
  List.filter (fun x => negb (String.eqb (f x) k)) (l ++ [y]) = l.
Proof.
  intros H Hy. induction l as [|x xs IH]; cbn in *.
  - now rewrite Hy, String.eqb_refl.
  - apply orb_false_iff in H as [H1 H2]. rewrite H1. cbn. f_equal. now apply IH.
Qed.

Lemma filter_absent {A} (f : A -> string) (k : string) (l : list A) :
  existsb (fun x => String.eqb (f x) k) l = false ->
  List.filter (fun x => negb (String.eqb (f x) k)) l = l.
Proof.
  intros H. induction l as [|x xs IH]; cbn in *; [reflexivity|].
  apply orb_false_iff in H as [H1 H2]. rewrite H1. cbn. f_equal. now apply IH.
Qed.

Lemma removeFirstFrom_pushed (k : string) (rs : list ConnectionRequest)
    (y : ConnectionRequest) :
  existsb (fun r => String.eqb (from r) k) rs = false ->
  from y = k ->
  removeFirstFrom k (rs ++ [y]) = Some rs.
Proof.
  intros H Hy. induction rs as [|r rs' IH]; cbn in *.
  - now rewrite Hy, String.eqb_refl.
  - apply orb_false_iff in H as [H1 H2]. rewrite H1, (IH H2). reflexivity.
Qed.

Lemma existsb_pushed {A} (f : A -> string) (k : string) (l : list A) (y : A) :
  f y = k -> existsb (fun x => String.eqb (f x) k) (l ++ [y]) = true.
Proof.
  intros Hy. rewrite existsb_app. cbn. rewrite Hy, String.eqb_refl.
  now rewrite orb_true_r.
Qed.

(** Equal stores agree on every declared field. *)
Lemma sameDeclared_eq (us us' : gmap ObjectId User) : us = us' -> sameDeclared us us'.
Proof. intros <- k. now repeat split. Qed.

Section Facts.

Variable isValidObjectId : string -> bool.
Variable castObjectId : string -> ObjectId.
Variable notificationSchemaValid : NotificationModel.Notification -> bool.
Variable newObjectId : Db -> ObjectId.

(** A request to another stored user that no duplicate check stops. *)
Lemma send_users (db : Db) (du dt : User) (t : string) (now : Date) :
  Js.truthy t = true -> isValidObjectId t = true -> _id du <> t ->
  users db !! castObjectId t = Some dt -> _id dt <> _id du -> isActive dt = true ->
  duplicateRequest du dt t = false ->
  users (snd (run (sendConnectionRequest isValidObjectId castObjectId
                     notificationSchemaValid newObjectId du t now) db))
  = <[ _id du := set_sentRequests du
                   (sentRequests du ++ [mkSentRequest (castObjectId t) now]) ]>
      (<[ _id dt := set_connectionRequests dt
                      (connectionRequests dt ++ [mkConnectionRequest (_id du) now]) ]>
         (users db)).
Proof.
  intros Ht Hv Hne Hfind Hne2 Hact Hdup.
  unfold run, sendConnectionRequest.
  rewrite Ht, Hv. apply String.eqb_neq in Hne. rewrite Hne.
  cbn [negb orb]. rewrite bind_findById, Hv, Hfind, Hact. cbn [negb].
  unfold duplicateRequest in Hdup.
  apply orb_false_iff in Hdup as [Hdup H3].
  apply orb_false_iff in Hdup as [H1 H2].
  rewrite H1, H2, H3.
  apply String.eqb_neq in Hne2. rewrite Hne2.
  rewrite !bind_saveUser, bind_notify, respond_apply.
  cbn [snd]. rewrite users_notified. reflexivity.
Qed.

(** The removal of a connection to another stored user. *)
Lemma remove_run (db : Db) (du dt : User) (t : string) :
  isValidObjectId t = true -> users db !! castObjectId t = Some dt ->
  _id dt <> _id du ->
  run (removeConnection isValidObjectId castObjectId du t) db
  = (mkResponse 200 (Text "Connection removed successfully"),
     let dt' := set_connections dt
       (List.filter (fun id => negb (String.eqb id (_id du))) (connections dt)) in
     let du' := set_connections du
       (List.filter (fun id => negb (String.eqb id t)) (connections du)) in
     mkDb (<[ _id du' := du' ]> (<[ _id dt' := dt' ]> (users db)))
       (messages db) (notifications db)
       (trace db ++ [FindUser t] ++ [SaveUser (_id dt')] ++ [SaveUser (_id du')])).
Proof.
  intros Hv Hfind Hne. unfold run, removeConnection.
  rewrite bind_findById, Hv, Hfind.
  apply String.eqb_neq in Hne. rewrite Hne.
  rewrite bind_apply, bind_saveUser.
  unfold saveUser, respond, log, set_users. cbn. now rewrite <- !app_assoc.
Qed.

Lemma connectionStatus_found (db : Db) (reqUser targetUser : User) (t : string) :
  _id reqUser <> t -> isValidObjectId t = true ->
  users db !! castObjectId t = Some targetUser -> isActive targetUser = true ->
  fst (connectionStatus isValidObjectId castObjectId reqUser t db)
  = Status (if isConnectedTo reqUser t then "connected"
            else if hasSentRequestTo reqUser t then "requested"
            else if hasReceivedRequestFrom reqUser t then "incoming"
            else "none").
Proof.
  intros Hne Hv Hfind Hact. unfold connectionStatus, findById.
  apply String.eqb_neq in Hne. rewrite Hne, Hv. cbn [log users].
  rewrite Hfind, Hact. cbn [negb].
  destruct (isConnectedTo reqUser t); [reflexivity|].
  destruct (hasSentRequestTo reqUser t); [reflexivity|].
  now destruct (hasReceivedRequestFrom reqUser t).
Qed.

(** X18: Two active users between whom nothing is recorded go through the
    whole life of a connection: after the request the sender is shown
    "requested" and the target "incoming"; after the target accepted,
    both are shown "connected"; and after the sender removed the
    connection the name, the role, the active flag, the connections and
    the requests received and sent of every user are again what they
    were before the request.  The three steps saved the two documents,
    so their [updatedAt] and [__v], which are no fields of [User], are
    not what they were: of them the statement says nothing.  The ids of
    the two are ObjectIds, which the cast leaves as they are. *)
Theorem request_life_cycle (db : Db) (du dt : User) (now : Date) :
  users db !! _id du = Some du -> users db !! _id dt = Some dt ->
  _id du <> _id dt -> Js.truthy (_id dt) = true ->
  isValidObjectId (_id du) = true -> isValidObjectId (_id dt) = true ->
  castObjectId (_id du) = _id du -> castObjectId (_id dt) = _id dt ->
  isActive du = true -> isActive dt = true ->
  strangers du dt ->
  let step := step isValidObjectId castObjectId notificationSchemaValid newObjectId in
  let statusOf := statusOf isValidObjectId castObjectId in
  let db1 := step db (SendRequest (_id du) (_id dt) now) in
  let db2 := step db1 (Accept (_id dt) (_id du)) in
  let db3 := step db2 (Remove (_id du) (_id dt)) in
  statusOf db1 (_id du) (_id dt) = Some (Status "requested")
  /\ statusOf db1 (_id dt) (_id du) = Some (Status "incoming")
  /\ statusOf db2 (_id du) (_id dt) = Some (Status "connected")
  /\ statusOf db2 (_id dt) (_id du) = Some (Status "connected")
  /\ sameDeclared (users db) (users db3).
Proof.
  intros Hu Ht Hne Htr Hvu Hvt Hcu Hct Hau Hat [Hs1 Hs2] step0 statusOf0 db1 db2 db3.
  subst step0 statusOf0.
  apply status_none in Hs1 as (Hc1 & Hsent1 & Hrec1).
  apply status_none in Hs2 as (Hc2 & Hsent2 & Hrec2).
  assert (Hne' : _id dt <> _id du) by congruence.
  destruct du as [u uname urole uact ucs ureqs usent].
  destruct dt as [t tname trole tact tcs treqs tsent].
  unfold isConnectedTo, hasSentRequestTo, hasReceivedRequestFrom in *.
  cbn [_id isActive connections connectionRequests sentRequests] in *. subst uact tact.
  (* the request *)
  assert (E1 : users db1
               = <[ u := mkUser u uname urole true ucs ureqs
                           (usent ++ [mkSentRequest t now]) ]>
                   (<[ t := mkUser t tname trole true tcs
                                (treqs ++ [mkConnectionRequest u now]) tsent ]>
                      (users db))).
  { subst db1. unfold step, authenticate. cbn [caller handlerOf]. rewrite Hu.
    rewrite (send_users db (mkUser u uname urole true ucs ureqs usent)
               (mkUser t tname trole true tcs treqs tsent) t now Htr Hvt Hne).
    - cbn [_id set_sentRequests set_connectionRequests name role isActive connections
           connectionRequests sentRequests]. now rewrite Hct.
    - now rewrite Hct.
    - exact Hne'.
    - reflexivity.
    - unfold duplicateRequest, isConnectedTo, hasSentRequestTo, hasReceivedRequestFrom.
      cbn [_id isActive connections connectionRequests sentRequests].
      now rewrite Hc1, Hsent1, Hrec1, Hrec2. }
  set (du1 := mkUser u uname urole true ucs ureqs (usent ++ [mkSentRequest t now])) in *.
  set (dt1 := mkUser t tname trole true tcs (treqs ++ [mkConnectionRequest u now]) tsent)
    in *.
  assert (Hu1 : users db1 !! u = Some du1) by (rewrite E1; apply lookup_insert_eq).
  assert (Ht1 : users db1 !! t = Some dt1).
  { rewrite E1, lookup_insert_ne by exact Hne. apply lookup_insert_eq. }
  (* the accept *)
  assert (E2 : users db2
               = <[ t := mkUser t tname trole true (tcs ++ [u]) treqs tsent ]>
                   (<[ u := mkUser u uname urole true (ucs ++ [t]) ureqs usent ]>
                      (users db1))).
  { subst db2. unfold step, authenticate. cbn [caller handlerOf]. rewrite Ht1.
    rewrite (ConnectionFacts.accept_users isValidObjectId castObjectId
               notificationSchemaValid newObjectId db1 dt1 du1 u treqs).
    - unfold acceptedSender, acceptedReceiver, isConnectedTo.
      subst du1 dt1. rewrite Hcu.
      cbn [_id isActive connections connectionRequests sentRequests
           set_connectionRequests set_connections set_sentRequests].
      rewrite Hc1, Hc2.
      cbn [negb _id name isActive connections connectionRequests sentRequests
           set_connectionRequests set_connections set_sentRequests role].
      rewrite (filter_pushed to t usent (mkSentRequest t now) Hsent1 eq_refl).
      reflexivity.
    - exact (removeFirstFrom_pushed u treqs (mkConnectionRequest u now) Hrec2 eq_refl).
    - exact Hvu.
    - now rewrite Hcu.
    - exact Hne. }
  set (du2 := mkUser u uname urole true (ucs ++ [t]) ureqs usent) in *.
  set (dt2 := mkUser t tname trole true (tcs ++ [u]) treqs tsent) in *.
  assert (Ht2 : users db2 !! t = Some dt2) by (rewrite E2; apply lookup_insert_eq).
  assert (Hu2 : users db2 !! u = Some du2).
  { rewrite E2, lookup_insert_ne by exact Hne'. apply lookup_insert_eq. }
  (* the removal *)
  assert (E3 : users db3
               = <[ u := mkUser u uname urole true ucs ureqs usent ]>
                   (<[ t := mkUser t tname trole true tcs treqs tsent ]> (users db2))).
  { subst db3. unfold step, authenticate. cbn [caller handlerOf]. rewrite Hu2.
    rewrite (remove_run db2 du2 dt2 t Hvt); [|now rewrite Hct|exact Hne'].
    subst du2 dt2.
    cbn [snd users _id connections set_connections name role isActive
         connectionRequests sentRequests].
    rewrite (filter_pushed (fun id => id) t ucs t Hc1 eq_refl).
    rewrite (filter_pushed (fun id => id) u tcs u Hc2 eq_refl).
    reflexivity. }
  unfold statusOf, authenticate.
  rewrite Hu1, Ht1, Hu2, Ht2.
  rewrite (connectionStatus_found db1 du1 dt1 t Hne Hvt) by (now rewrite ?Hct).
  rewrite (connectionStatus_found db1 dt1 du1 u Hne' Hvu) by (now rewrite ?Hcu).
  rewrite (connectionStatus_found db2 du2 dt2 t Hne Hvt) by (now rewrite ?Hct).
  rewrite (connectionStatus_found db2 dt2 du2 u Hne' Hvu) by (now rewrite ?Hcu).
  unfold isConnectedTo, hasSentRequestTo, hasReceivedRequestFrom.
  subst du1 dt1 du2 dt2.
  cbn [connections connectionRequests sentRequests].
  rewrite Hc1, Hc2, Hsent2.
  rewrite (existsb_pushed to t usent (mkSentRequest t now) eq_refl).
  rewrite (existsb_pushed from u treqs (mkConnectionRequest u now) eq_refl).
  rewrite (existsb_pushed (fun id => id) t ucs t eq_refl).
  rewrite (existsb_pushed (fun id => id) u tcs u eq_refl).
  repeat (split; [reflexivity|]).
  apply sameDeclared_eq.
  rewrite E3, E2, E1. apply map_eq. intros k.
  destruct (decide (k = u)) as [->|Hku].
  { rewrite lookup_insert_eq. now rewrite Hu. }
  rewrite lookup_insert_ne by congruence.
  destruct (decide (k = t)) as [->|Hkt].
  { rewrite lookup_insert_eq. now rewrite Ht. }
  now rewrite !lookup_insert_ne by congruence.
Qed.

Lemma isConnectedTo_removed (u : User) (x : ObjectId) :
  isConnectedTo
    (set_connections u
       (List.filter (fun id => negb (String.eqb id x)) (connections u))) x = false.
Proof.
  unfold isConnectedTo. cbn [connections set_connections].
  induction (connections u) as [|c cs IH]; cbn; [reflexivity|].
  destruct (String.eqb c x) eqn:E; cbn; [exact IH|]. now rewrite E.
Qed.

(** X19: Removing a connection to another user, named by the id as the
    store spells it, is answered 200 whether or not the two were
    connected and whether or not the target exists; afterwards neither
    of the two lists the other, and nobody's requests, sent requests or
    active flag have changed. *)
Theorem remove_disconnects (db : Db) (reqUser : User) (t : ObjectId) :
  users db !! _id reqUser = Some reqUser ->
  (forall k u, users db !! k = Some u -> _id u = k) ->
  isValidObjectId t = true ->
  castObjectId t = t ->
  _id reqUser <> t ->
  let result := run (removeConnection isValidObjectId castObjectId reqUser t) db in
  fst result = mkResponse 200 (Text "Connection removed successfully")
  /\ listsAt (users (snd result)) (_id reqUser) t = false
  /\ listsAt (users (snd result)) t (_id reqUser) = false
  /\ forall k,
       connectionRequests <$> users (snd result) !! k = connectionRequests <$> users db !! k
       /\ sentRequests <$> users (snd result) !! k = sentRequests <$> users db !! k
       /\ isActive <$> users (snd result) !! k = isActive <$> users db !! k.
Proof.
  intros Hu K Hv Hc Hne result. subst result.
  destruct (users db !! t) as [dt|] eqn:Ht.
  - pose proof (K _ _ Ht) as Hid.
    rewrite (remove_run db reqUser dt t Hv); [|now rewrite Hc|congruence].
    cbv zeta. cbn [fst snd users _id set_connections]. rewrite Hid.
    split; [reflexivity|]. unfold listsAt. split; [|split].
    + rewrite lookup_insert_eq. apply isConnectedTo_removed.
    + rewrite lookup_insert_ne by congruence. rewrite lookup_insert_eq.
      apply isConnectedTo_removed.
    + intros k. destruct (decide (k = _id reqUser)) as [->|E1].
      { rewrite lookup_insert_eq, Hu. now repeat split. }
      rewrite lookup_insert_ne by congruence.
      destruct (decide (k = t)) as [->|E2].
      { rewrite lookup_insert_eq, Ht. now repeat split. }
      rewrite lookup_insert_ne by congruence. now repeat split.
  - unfold run, removeConnection. rewrite bind_findById, Hv, Hc, Ht.
    autorewrite with handler.
    cbn [fst snd users set_users log _id set_connections].
    split; [reflexivity|]. unfold listsAt. split; [|split].
    + rewrite lookup_insert_eq. apply isConnectedTo_removed.
    + rewrite lookup_insert_ne by congruence. now rewrite Ht.
    + intros k. destruct (decide (k = _id reqUser)) as [->|E1].
      { rewrite lookup_insert_eq, Hu. now repeat split. }
      rewrite lookup_insert_ne by congruence. now repeat split.
Qed.

(** *** Banning *)

Lemma ban_run (db : Db) (admin user : User) (id : string) :
  role admin = "admin" -> isValidObjectId id = true ->
  users db !! castObjectId id = Some user ->
  run (banUser isValidObjectId castObjectId admin id) db
  = (mkResponse 200 (Text "User banned successfully"),
     mkDb (<[ _id user := set_isActive user false ]> (users db))
       (messages db) (notifications db)
       (trace db ++ [FindUser id] ++ [SaveUser (_id user)])).
Proof.
  intros Ha Hv Hfind. unfold run, banUser. rewrite Ha. cbn [String.eqb Ascii.eqb Bool.eqb negb].
  rewrite bind_findById, Hv, Hfind. autorewrite with handler.
  unfold log, set_users. cbn. now rewrite <- !app_assoc.
Qed.

Lemma unban_run (db : Db) (admin user : User) (id : string) :
  role admin = "admin" -> isValidObjectId id = true ->
  users db !! castObjectId id = Some user ->
  run (unbanUser isValidObjectId castObjectId admin id) db
  = (mkResponse 200 (Text "User unbanned successfully"),
     mkDb (<[ _id user := set_isActive user true ]> (users db))
       (messages db) (notifications db)
       (trace db ++ [FindUser id] ++ [SaveUser (_id user)])).
Proof.
  intros Ha Hv Hfind. unfold run, unbanUser. rewrite Ha. cbn [String.eqb Ascii.eqb Bool.eqb negb].
  rewrite bind_findById, Hv, Hfind. autorewrite with handler.
  unfold log, set_users. cbn. now rewrite <- !app_assoc.
Qed.

(** X20: Once an admin has banned a user, the user is "not found" for
    everybody else: a connection request to the user and a question for
    the connection status are both answered 404, whatever the two have
    recorded about each other, and the request changes no document.
    The ban itself has changed the active flag of the banned user and
    nothing else.  The user is stored under the ObjectId the id of the
    requests is cast to. *)
Theorem ban_hides_user
    (db : Db) (admin user reqUser : User) (id : string) (now : Date) :
  role admin = "admin" -> isValidObjectId id = true -> Js.truthy id = true ->
  users db !! castObjectId id = Some user -> _id user = castObjectId id ->
  _id reqUser <> id ->
  let db' := snd (run (banUser isValidObjectId castObjectId admin id) db) in
  let send := sendConnectionRequest isValidObjectId castObjectId
                notificationSchemaValid newObjectId reqUser id now in
  users db' = <[ castObjectId id := set_isActive user false ]> (users db)
  /\ fst (run send db') = mkResponse 404 (Text "User not found")
  /\ users (snd (run send db')) = users db'
  /\ fst (connectionStatus isValidObjectId castObjectId reqUser id db')
     = Error 404 "User not found".
Proof.
  intros Ha Hv Htr Hfind Hid Hne db' send. subst db' send.
  rewrite (ban_run db admin user id Ha Hv Hfind), Hid. cbn [snd users].
  split; [reflexivity|].
  apply String.eqb_neq in Hne.
  assert (Hsend : forall db0,
            users db0 !! castObjectId id = Some (set_isActive user false) ->
            run (sendConnectionRequest isValidObjectId castObjectId
                   notificationSchemaValid newObjectId reqUser id now) db0
            = (mkResponse 404 (Text "User not found"), log (FindUser id) db0)).
  { intros db0 H0. unfold run, sendConnectionRequest.
    rewrite Htr, Hv, Hne. cbn [negb orb]. rewrite bind_findById, Hv, H0.
    reflexivity. }
  rewrite Hsend by (cbn [users]; apply lookup_insert_eq).
  split; [reflexivity|]. split; [reflexivity|].
  unfold connectionStatus, findById. rewrite Hne, Hv. cbn [log users].
  now rewrite lookup_insert_eq.
Qed.

(** X21: Lifting the ban of an active user that was banned brings the
    active flag of the user back, and the name, the role, the
    connections and the requests of every user are what they were
    before the ban.  Both steps saved the document of the user, so its
    [updatedAt] and [__v], which are no fields of [User], are not what
    they were: of them the statement says nothing. *)
Theorem unban_restores (db : Db) (admin user : User) (id : string) :
  role admin = "admin" -> isValidObjectId id = true ->
  users db !! castObjectId id = Some user -> _id user = castObjectId id ->
  isActive user = true ->
  sameDeclared (users db)
    (users (snd (run (unbanUser isValidObjectId castObjectId admin id)
                   (snd (run (banUser isValidObjectId castObjectId admin id) db))))).
Proof.
  intros Ha Hv Hfind Hid Hact. apply sameDeclared_eq.
  rewrite (ban_run db admin user id Ha Hv Hfind), Hid. cbn [snd].
  rewrite (unban_run _ admin (set_isActive user false) id Ha Hv)
    by (cbn [users]; apply lookup_insert_eq).
  cbn [snd users _id set_isActive]. rewrite Hid.
  rewrite insert_insert_eq. symmetry. apply insert_id.
  rewrite Hfind. f_equal. destruct user; cbn in *; now subst.
Qed.

End Facts.

(** alice and bob of the fresh store. *)
Lemma request_life_cycle_witness :
  strangers (Samples.newUser Samples.alice "user") (Samples.newUser Samples.bob "user")
  /\ sameDeclared (users Samples.freshDb)
       (users (Samples.runOps Samples.freshDb
                 [ SendRequest Samples.alice Samples.bob 10%N;
                   Accept Samples.bob Samples.alice;
                   Remove Samples.alice Samples.bob ])).
Proof.
  assert (Hs : strangers (Samples.newUser Samples.alice "user")
                 (Samples.newUser Samples.bob "user")) by (split; reflexivity).
  split; [exact Hs|].
  refine (proj2 (proj2 (proj2 (proj2
    (request_life_cycle Samples.isHex24 Samples.castHex
       NotificationModel.specSchemaValid Samples.nextId Samples.freshDb
       (Samples.newUser Samples.alice "user") (Samples.newUser Samples.bob "user") 10%N
       _ _ _ _ _ _ _ _ _ _ Hs))))); try reflexivity.
  discriminate.
Defined.

(** bob drops alice in the store where the two are connected. *)
Lemma remove_disconnects_witness :
  listsAt (users Samples.connected) Samples.bob Samples.alice = true
  /\ listsAt (users (snd (run (removeConnection Samples.isHex24 Samples.castHex
                                 (Samples.docOf Samples.connected Samples.bob)
                                 Samples.alice) Samples.connected)))
       Samples.alice Samples.bob = false.
Proof.
  split; [reflexivity|].
  refine (proj1 (proj2 (proj2
    (remove_disconnects Samples.isHex24 Samples.castHex Samples.connected
       (Samples.docOf Samples.connected Samples.bob) Samples.alice _ _ _ _ _))));
    try reflexivity; [|discriminate].
  refine (keys_ok _ (InvariantFacts.runOps_consistent Samples.isHex24 Samples.castHex
                       NotificationModel.specSchemaValid Samples.nextId _ Samples.freshDb
                       InvariantFacts.freshDb_consistent _)).
  repeat (constructor; [reflexivity|]). constructor.
Defined.

(** The spelling matters for the removal: bob drops alice with her id in
    upper case.  The route answers 200 and alice no longer lists bob,
    but bob's own list, filtered by the id as the request spells it,
    keeps alice. *)
Example remove_in_another_spelling :
  let result := run (removeConnection Samples.isHex24 Samples.castHex
                       (Samples.docOf Samples.connected Samples.bob)
                       "64B000000000000000000A11") Samples.connected in
  fst result = mkResponse 200 (Text "Connection removed successfully")
  /\ listsAt (users (snd result)) Samples.alice Samples.bob = false
  /\ listsAt (users (snd result)) Samples.bob Samples.alice = true.
Proof. repeat split; vm_compute; reflexivity. Qed.

(** carol bans bob while alice and bob are connected; alice then asks
    for bob. *)
Lemma ban_hides_user_witness :
  isConnectedTo (Samples.docOf Samples.connected Samples.alice) Samples.bob = true
  /\ fst (connectionStatus Samples.isHex24 Samples.castHex
            (Samples.docOf Samples.connected Samples.alice) Samples.bob
            (snd (run (banUser Samples.isHex24 Samples.castHex
                         (Samples.newUser Samples.carol "admin")
                         Samples.bob) Samples.connected)))
     = Error 404 "User not found".
Proof.
  split; [reflexivity|].
  refine (proj2 (proj2 (proj2
    (ban_hides_user Samples.isHex24 Samples.castHex
       NotificationModel.specSchemaValid Samples.nextId Samples.connected
       (Samples.newUser Samples.carol "admin")
       (Samples.docOf Samples.connected Samples.bob)
       (Samples.docOf Samples.connected Samples.alice) Samples.bob 0%N
       _ _ _ _ _ _)))); try reflexivity.
  discriminate.
Defined.

(** carol bans bob and lifts the ban. *)
Lemma unban_restores_witness :
  isActive <$> users (snd (run (unbanUser Samples.isHex24 Samples.castHex
                                  (Samples.newUser Samples.carol "admin") Samples.bob)
                             (snd (run (banUser Samples.isHex24 Samples.castHex
                                          (Samples.newUser Samples.carol "admin")
                                          Samples.bob) Samples.connected))))
                 !! Samples.bob
  = Some true.
Proof.
  pose proof (unban_restores Samples.isHex24 Samples.castHex Samples.connected
                (Samples.newUser Samples.carol "admin")
                (Samples.docOf Samples.connected Samples.bob) Samples.bob
                eq_refl eq_refl eq_refl eq_refl eq_refl Samples.bob)
    as (_ & _ & H & _).
  exact H.
Defined.

(** bob accepts the request alice has pending with him. *)
Lemma accept_connects_both_witness :
  removeFirstFrom Samples.alice
    (connectionRequests (Samples.docOf Samples.requestPending Samples.bob)) = Some []
  /\ exists u' r',
       users (snd (run (handleConnectionRequest Samples.isHex24 Samples.castHex
                          NotificationModel.specSchemaValid Samples.nextId
                          (Samples.docOf Samples.requestPending Samples.bob)
                          Samples.alice "accept") Samples.requestPending))
         !! Samples.bob = Some u'
       /\ users (snd (run (handleConnectionRequest Samples.isHex24 Samples.castHex
                             NotificationModel.specSchemaValid Samples.nextId
                             (Samples.docOf Samples.requestPending Samples.bob)
                             Samples.alice "accept") Samples.requestPending))
            !! Samples.alice = Some r'
       /\ isConnectedTo u' Samples.alice = true
       /\ isConnectedTo r' Samples.bob = true
       /\ connectionRequests u' = []
       /\ hasSentRequestTo r' Samples.bob = false.
Proof.
  split; [reflexivity|].
  apply (ConnectionFacts.accept_connects_both Samples.isHex24 Samples.castHex
           NotificationModel.specSchemaValid Samples.nextId Samples.requestPending
           (Samples.docOf Samples.requestPending Samples.bob)
           (Samples.docOf Samples.requestPending Samples.alice) Samples.alice []);
    try reflexivity.
  discriminate.
Defined.

(** bob rejects the request alice has pending with him. *)
Lemma reject_leaves_requester_witness :
  hasSentRequestTo (Samples.docOf Samples.requestPending Samples.alice) Samples.bob = true
  /\ users (snd (run (handleConnectionRequest Samples.isHex24 Samples.castHex
                        NotificationModel.specSchemaValid Samples.nextId
                        (Samples.docOf Samples.requestPending Samples.bob)
                        Samples.alice "reject") Samples.requestPending))
       !! Samples.alice
     = users Samples.requestPending !! Samples.alice.
Proof.
  split; [reflexivity|].
  apply (ConnectionFacts.reject_leaves_requester Samples.isHex24 Samples.castHex
           NotificationModel.specSchemaValid Samples.nextId Samples.requestPending
           (Samples.docOf Samples.requestPending Samples.bob) Samples.alice).
  discriminate.
Defined.

(** The run of the failing case of the sending side: on the receiving
    side alice and bob are in one state, bob's request to alice. *)
Lemma receiving_side_one_state_witness :
  consistent (users Samples.freshDb)
  /\ (length (receivedStates Samples.afterRejectAndReverse Samples.alice Samples.bob)
      <= 1)%nat.
Proof.
  split; [exact InvariantFacts.freshDb_consistent|].
  apply (InvariantFacts.receiving_side_one_state Samples.isHex24 Samples.castHex
           NotificationModel.specSchemaValid Samples.nextId Samples.freshDb
           [ SendRequest Samples.alice Samples.bob 10%N;
             Reject Samples.bob Samples.alice;
             SendRequest Samples.bob Samples.alice 20%N ]
           Samples.alice Samples.bob InvariantFacts.freshDb_consistent).
  - repeat (constructor; [reflexivity|]). constructor.
  - discriminate.
Defined.

End UserRouteFacts.

(** ** The badge of the notification slice against its list *)
Module BadgeFacts.

Import NotificationSlice NotificationBadge.

Lemma unreadIn_cons (n : Notification) (l : list Notification) :
  unreadIn (n :: l) = (unreadIn l + (if isRead n then 0 else 1))%Z.
Proof. unfold unreadIn. cbn. destruct (isRead n); cbn [negb length]; lia. Qed.

Lemma unreadIn_nonneg (l : list Notification) : (0 <= unreadIn l)%Z.
Proof. unfold unreadIn. lia. Qed.

Lemma readFirst_ids (id now : string) (l : list Notification) :
  map _id (readFirst id now l) = map _id l.
Proof.
  induction l as [|x xs IH]; cbn; [reflexivity|].
  destruct (hasId id x); cbn; [reflexivity|]. now rewrite IH.
Qed.

Lemma readFirst_unread (id now : string) (l : list Notification) (n : Notification) :
  List.find (hasId id) l = Some n -> isRead n = false ->
  (unreadIn (readFirst id now l) = unreadIn l - 1)%Z.
Proof.
  intros Hf Hn. induction l as [|x xs IH]; cbn in *; [discriminate|].
  destruct (hasId id x).
  - injection Hf as ->. rewrite !unreadIn_cons, Hn. cbn [read isRead]. lia.
  - rewrite !unreadIn_cons, (IH Hf). lia.
Qed.

Lemma map_read_ids (now : string) (l : list Notification) :
  map _id (map (read now) l) = map _id l.
Proof. rewrite map_map. reflexivity. Qed.

Lemma map_read_unread (now : string) (l : list Notification) :
  unreadIn (map (read now) l) = 0%Z.
Proof.
  induction l as [|x xs IH]; [reflexivity|].
  cbn [map]. rewrite unreadIn_cons, IH. reflexivity.
Qed.

Lemma find_none_keep (id : string) (l : list Notification) :
  ~ In id (map _id l) ->
  List.filter (fun n => negb (hasId id n)) l = l.
Proof.
  intros H. induction l as [|x xs IH]; cbn in *; [reflexivity|].
  unfold hasId at 1. destruct (String.eqb (_id x) id) eqn:E.
  - apply String.eqb_eq in E. tauto.
  - cbn. f_equal. apply IH. tauto.
Qed.

Lemma find_none_absent (id : string) (l : list Notification) :
  List.find (hasId id) l = None -> ~ In id (map _id l).
Proof.
  induction l as [|x xs IH]; cbn; [tauto|].
  unfold hasId at 1. destruct (String.eqb (_id x) id) eqn:E; [discriminate|].
  apply String.eqb_neq in E. intros Hf [H|H]; [congruence|]. now apply IH.
Qed.

Lemma filter_out_unread (id : string) (l : list Notification) (n : Notification) :
  List.NoDup (map _id l) -> List.find (hasId id) l = Some n ->
  (unreadIn (List.filter (fun x => negb (hasId id x)) l)
   = unreadIn l - (if isRead n then 0 else 1))%Z.
Proof.
  intros Hnd Hf. induction l as [|x xs IH]; cbn in *; [discriminate|].
  apply List.NoDup_cons_iff in Hnd as [Hx Hnd].
  destruct (hasId id x) eqn:E; cbn [negb].
  - injection Hf as ->. unfold hasId in E. apply String.eqb_eq in E. subst id.
    rewrite (find_none_keep _ xs Hx), unreadIn_cons. lia.
  - rewrite !unreadIn_cons, (IH Hnd Hf). lia.
Qed.

Lemma NoDup_filter_ids (p : Notification -> bool) (l : list Notification) :
  List.NoDup (map _id l) -> List.NoDup (map _id (List.filter p l)).
Proof.
  induction l as [|x xs IH]; cbn; [auto|].
  intros Hnd. apply List.NoDup_cons_iff in Hnd as [Hx Hnd].
  destruct (p x); cbn; [|now apply IH].
  apply List.NoDup_cons; [|now apply IH].
  intros Hin. apply Hx. apply in_map_iff in Hin as (y & Hy & Hin).
  apply filter_In in Hin as [Hin _]. apply in_map_iff. eauto.
Qed.

Lemma insert_found (u : Notification) (l : list Notification) (index : nat) :
  findIndex (_id u) l = Some index ->
  exists n, l !! index = Some n
    /\ map _id (<[ index := u ]> l) = map _id l
    /\ (unreadIn (<[ index := u ]> l) + (if isRead n then 0 else 1)
        = unreadIn l + (if isRead u then 0 else 1))%Z.
Proof.
  revert index. induction l as [|x xs IH]; intros index Hf; cbn in *; [discriminate|].
  destruct (hasId (_id u) x) eqn:E.
  - injection Hf as <-. exists x.
    change (<[0%nat:=u]> (x :: xs)) with (u :: xs). cbn [map].
    rewrite !unreadIn_cons.
    unfold hasId in E. apply String.eqb_eq in E. rewrite E.
    split; [reflexivity|]. split; [reflexivity|]. lia.
  - destruct (findIndex (_id u) xs) as [i|]; [|discriminate].
    injection Hf as <-. destruct (IH i eq_refl) as (n & H1 & H2 & H3).
    exists n. change (<[S i:=u]> (x :: xs)) with (x :: <[i:=u]> xs). cbn [map].
    rewrite !unreadIn_cons, H2. split; [exact H1|].
    split; [reflexivity|]. lia.
Qed.

(** X25: The badge stays in step with the list: from a state whose counter
    is the number of unread notifications of its list, whose ids are
    distinct, every action that is as the reducers expect it leads to
    such a state again. *)
Theorem badge_in_sync (s : State) (a : Action) :
  inSync s -> expected s a -> inSync (reducer s a).
Proof.
  intros [Hc Hnd] He. unfold inSync.
  destruct a; cbn [reducer]; cbn [notifications unreadCount]; try (split; assumption).
  - (* addNotification *)
    destruct He as [Hr Hfresh].
    cbn [set_unreadCount set_notifications notifications unreadCount].
    rewrite unreadIn_cons, Hr, Hc. split; [reflexivity|].
    cbn [map]. now apply List.NoDup_cons.
  - (* markNotificationAsReadLocal *)
    unfold markRead.
    destruct (List.find (hasId notificationId) (notifications s)) as [n|] eqn:Hf;
      [|split; assumption].
    destruct (isRead n) eqn:Hr; cbn [negb]; [split; assumption|].
    cbn [set_unreadCount set_notifications notifications unreadCount].
    rewrite readFirst_ids, (readFirst_unread _ _ _ n Hf Hr), Hc.
    split; [|exact Hnd]. unfold decrement.
    pose proof (unreadIn_nonneg (readFirst notificationId now (notifications s))) as H0.
    rewrite (readFirst_unread _ _ _ n Hf Hr) in H0. lia.
  - (* markAllNotificationsAsReadLocal *)
    unfold markAllRead.
    cbn [set_unreadCount set_notifications notifications unreadCount].
    now rewrite map_read_ids, map_read_unread.
  - (* removeNotification *)
    unfold remove.
    destruct (List.find (hasId notificationId) (notifications s)) as [n|] eqn:Hf.
    + assert (Hn : notifications (if negb (isRead n)
                                  then set_unreadCount s (decrement (unreadCount s))
                                  else s) = notifications s)
        by now destruct (isRead n).
      cbn [set_notifications notifications unreadCount]. rewrite Hn.
      split; [|now apply NoDup_filter_ids].
      rewrite (filter_out_unread _ _ n Hnd Hf).
      pose proof (unreadIn_nonneg
                    (List.filter (fun x => negb (hasId notificationId x)) (notifications s)))
        as H0.
      rewrite (filter_out_unread _ _ n Hnd Hf) in H0.
      destruct (isRead n); cbn [negb unreadCount set_unreadCount]; unfold decrement; lia.
    + cbn [set_notifications notifications unreadCount].
      rewrite (find_none_keep _ _ (find_none_absent _ _ Hf)). now split.
  - (* getNotifications.fulfilled *)
    destruct He as [H1 H2]. now split.
  - (* markNotificationAsRead.fulfilled *)
    cbn in He.
    destruct (findIndex (_id updatedNotification) (notifications s)) as [index|] eqn:Hi;
      [|split; assumption].
    destruct (insert_found updatedNotification (notifications s) index Hi)
      as (n & Hn & Hids & Hcount).
    rewrite Hn, He in *. rewrite andb_true_r.
    assert (Hsplit : forall s', notifications s' = <[index:=updatedNotification]> (notifications s) ->
               List.NoDup (map _id (notifications s'))).
    { intros s' ->. now rewrite Hids. }
    pose proof (unreadIn_nonneg (<[index:=updatedNotification]> (notifications s))) as H0.
    destruct (isRead n); cbn [negb];
      cbn [set_unreadCount set_notifications notifications unreadCount];
      (split; [unfold decrement; lia | now rewrite Hids]).
  - (* markAllNotificationsAsRead.fulfilled *)
    unfold markAllRead.
    cbn [set_unreadCount set_notifications notifications unreadCount].
    now rewrite map_read_ids, map_read_unread.
  - (* deleteNotification.fulfilled *)
    unfold remove.
    destruct (List.find (hasId notificationId) (notifications s)) as [n|] eqn:Hf.
    + assert (Hn : notifications (if negb (isRead n)
                                  then set_unreadCount s (decrement (unreadCount s))
                                  else s) = notifications s)
        by now destruct (isRead n).
      cbn [set_notifications notifications unreadCount]. rewrite Hn.
      split; [|now apply NoDup_filter_ids].
      rewrite (filter_out_unread _ _ n Hnd Hf).
      pose proof (unreadIn_nonneg
                    (List.filter (fun x => negb (hasId notificationId x)) (notifications s)))
        as H0.
      rewrite (filter_out_unread _ _ n Hnd Hf) in H0.
      destruct (isRead n); cbn [negb unreadCount set_unreadCount]; unfold decrement; lia.
    + cbn [set_notifications notifications unreadCount].
      rewrite (find_none_keep _ _ (find_none_absent _ _ Hf)). now split.
Qed.

(** A list with one unread notification under a badge of 1; the
    server confirms that the notification was read. *)
Lemma badge_in_sync_witness :
  inSync (mkState
            [mkNotification "n1" "MESSAGE" "New message" "hello" false None]
            1 false None None)
  /\ inSync (reducer
               (mkState
                  [mkNotification "n1" "MESSAGE" "New message" "hello" false None]
                  1 false None None)
               (markNotificationAsRead_fulfilled
                  (mkNotification "n1" "MESSAGE" "New message" "hello" true None))).
Proof.
  assert (H : inSync (mkState
                        [mkNotification "n1" "MESSAGE" "New message" "hello" false None]
                        1 false None None)).
  { split; [reflexivity|]. apply List.NoDup_cons; [intros []|apply List.NoDup_nil]. }
  split; [exact H|].
  apply (badge_in_sync _ _ H). reflexivity.
Defined.

(** The expectation on a pushed notification is needed: one that is
    already read still raises the badge. *)
Example read_push_raises_badge :
  unreadCount (reducer initialState
                 (addNotification
                    (mkNotification "n1" "MESSAGE" "New message" "hello" true None)))
  = 1%Z
  /\ unreadIn (notifications
       (reducer initialState
          (addNotification
             (mkNotification "n1" "MESSAGE" "New message" "hello" true None))))
     = 0%Z.
Proof. split; reflexivity. Qed.

End BadgeFacts.
